(** * Verification of the ai-powered-todo-app services

    Shallow embedding of the Todo service ([services/todo/app]) and of the
    AI service ([services/ai/app]).  Python strings are lists of code points,
    Python dictionaries are association lists in insertion order, and Python
    exceptions are values of [exn]. *)

From Stdlib Require Import ZArith List String Ascii Bool Lia QArith Permutation Lqa.
Import ListNotations.
Open Scope Z_scope.
Open Scope list_scope.
Set Warnings "-register-all".

(** ** Python strings *)

(** A Python [str]: its sequence of code points. *)
Definition pystr := list Z.

(** ASCII literal of a Python string (only used for ASCII text). *)
Fixpoint lit (s : string) : pystr :=
  match s with
  | EmptyString => []
  | String a r => Z.of_nat (nat_of_ascii a) :: lit r
  end.

Fixpoint pystr_eqb (a b : pystr) : bool :=
  match a, b with
  | [], [] => true
  | x :: a', y :: b' => Z.eqb x y && pystr_eqb a' b'
  | _, _ => false
  end.

Lemma pystr_eqb_eq : forall a b, pystr_eqb a b = true <-> a = b.
Proof.
  induction a as [|x a IH]; intros [|y b]; simpl; split; intros H;
    try discriminate; try reflexivity.
  - apply andb_true_iff in H as [H1 H2].
    apply Z.eqb_eq in H1; apply IH in H2; subst; reflexivity.
  - inversion H; subst. rewrite Z.eqb_refl; simpl. apply IH; reflexivity.
Qed.

(** [s in lst] for a Python list of strings. *)
Definition str_in (s : pystr) (lst : list pystr) : bool :=
  existsb (pystr_eqb s) lst.

(** [str.isspace] of one code point (the complete Unicode table). *)
Definition is_space (c : Z) : bool :=
  ((9 <=? c) && (c <=? 13)) || ((28 <=? c) && (c <=? 32))
  || (c =? 133) || (c =? 160) || (c =? 5760)
  || ((8192 <=? c) && (c <=? 8202))
  || (c =? 8232) || (c =? 8233) || (c =? 8239) || (c =? 8287) || (c =? 12288).

(** The regex class [\w] of a [str] pattern: [c.isalnum() or c == '_'].
    Exact below U+0100 and on the Hangul syllables; other code points are
    treated as non-word characters. *)
Definition is_word (c : Z) : bool :=
  ((48 <=? c) && (c <=? 57)) || ((65 <=? c) && (c <=? 90))
  || ((97 <=? c) && (c <=? 122)) || (c =? 95)
  || (c =? 170) || (c =? 178) || (c =? 179) || (c =? 181) || (c =? 185)
  || (c =? 186) || ((188 <=? c) && (c <=? 190))
  || ((192 <=? c) && (c <=? 214)) || ((216 <=? c) && (c <=? 246))
  || ((248 <=? c) && (c <=? 255))
  || ((44032 <=? c) && (c <=? 55203)).

(** [re.IGNORECASE] comparison of a subject code point [c] with a lower-case
    ASCII pattern letter [p]: ASCII case folding, plus the non-ASCII letters
    Python folds onto [i] (U+0130, U+0131) and [s] (U+017F). *)
Definition ci_char (c p : Z) : bool :=
  let lc := if (65 <=? c) && (c <=? 90) then c + 32 else c in
  (lc =? p)
  || ((p =? 105) && ((c =? 304) || (c =? 305)))
  || ((p =? 115) && (c =? 383)).

(** Case-insensitive match of the literal [pat] at the head of [s]; returns
    the remaining input. *)
Fixpoint match_ci (pat s : pystr) : option pystr :=
  match pat, s with
  | [], _ => Some s
  | p :: pat', c :: s' => if ci_char c p then match_ci pat' s' else None
  | _ :: _, [] => None
  end.

(** ** html.escape (quote=True) *)

Definition escape_char (c : Z) : pystr :=
  if c =? 38 then lit "&amp;"
  else if c =? 60 then lit "&lt;"
  else if c =? 62 then lit "&gt;"
  else if c =? 34 then lit "&quot;"
  else if c =? 39 then lit "&#x27;"
  else [c].

Definition html_escape (s : pystr) : pystr := flat_map escape_char s.

(** ** The four dangerous patterns of [sanitize_string]

    Each matcher tries its pattern at the head of the input and returns the
    input after the match.  None of the patterns matches the empty string. *)

(** [[^>]*>]: skip to just after the first ['>']. *)
Fixpoint skip_to_gt (s : pystr) : option pystr :=
  match s with
  | [] => None
  | c :: s' => if c =? 62 then Some s' else skip_to_gt s'
  end.

(** [.*?</tag>] under DOTALL: the first occurrence of the closing tag. *)
Fixpoint lazy_until (close s : pystr) : option pystr :=
  match match_ci close s with
  | Some r => Some r
  | None => match s with [] => None | _ :: s' => lazy_until close s' end
  end.

(** [<tag[^>]*>.*?</tag>] *)
Definition match_element (tag : string) (s : pystr) : option pystr :=
  match match_ci (lit ("<" ++ tag)) s with
  | None => None
  | Some r =>
      match skip_to_gt r with
      | None => None
      | Some r' => lazy_until (lit ("</" ++ tag ++ ">")) r'
      end
  end.

Definition match_script := match_element "script".
Definition match_iframe := match_element "iframe".

(** [javascript:] *)
Definition match_javascript (s : pystr) : option pystr :=
  match_ci (lit "javascript:") s.

(** Drop the longest prefix whose characters satisfy [f]. *)
Fixpoint drop_while (f : Z -> bool) (l : pystr) : pystr :=
  match l with
  | x :: l' => if f x then drop_while f l' else l
  | [] => []
  end.

(** [on\w+\s*=]: the classes [\w], [\s] and ['='] are disjoint, so the greedy
    quantifiers never need to give characters back. *)
Definition match_on_handler (s : pystr) : option pystr :=
  match match_ci (lit "on") s with
  | Some (c :: r) =>
      if is_word c then
        match drop_while is_space (drop_while is_word r) with
        | e :: rest => if e =? 61 then Some rest else None
        | [] => None
        end
      else None
  | _ => None
  end.

(** [re.sub(pattern, '', s)] for a pattern that never matches the empty
    string: scan left to right, deleting each leftmost match and resuming
    after it. *)
Fixpoint re_sub_fuel (fuel : nat) (m : pystr -> option pystr) (s : pystr)
  : pystr :=
  match fuel with
  | O => s
  | S fuel' =>
      match s with
      | [] => []
      | c :: s' =>
          match m s with
          | Some r => re_sub_fuel fuel' m r
          | None => c :: re_sub_fuel fuel' m s'
          end
      end
  end.

Definition re_sub (m : pystr -> option pystr) (s : pystr) : pystr :=
  re_sub_fuel (S (List.length s)) m s.

(** [str.strip()] *)
Definition strip (s : pystr) : pystr :=
  rev (drop_while is_space (rev (drop_while is_space s))).

(** [sanitize_string(text, max_length)], identical in
    [todo/app/main.py] and [ai/app/main.py]; [None] is Python's [None]. *)
Definition sanitize_string (text : option pystr) (max_length : nat)
  : option pystr :=
  match text with
  | None => None
  | Some [] => Some []
  | Some t =>
      let t := firstn max_length t in
      let t := html_escape t in
      let t := re_sub match_script t in
      let t := re_sub match_javascript t in
      let t := re_sub match_on_handler t in
      let t := re_sub match_iframe t in
      Some (strip t)
  end.

Example sanitize_spaces : sanitize_string (Some (lit "   ")) 255 = Some [].
Proof. vm_compute. reflexivity. Qed.

Example sanitize_script :
  sanitize_string (Some (lit "<script>alert(1)</script>")) 255
  = Some (lit "&lt;script&gt;alert(1)&lt;/script&gt;").
Proof. vm_compute. reflexivity. Qed.

Example sanitize_onerror :
  sanitize_string (Some (lit "<img onerror=x>")) 255
  = Some (lit "&lt;img x&gt;").
Proof. vm_compute. reflexivity. Qed.

(** [needle in hay] for Python strings. *)
Fixpoint str_contains (needle hay : pystr) : bool :=
  pystr_eqb (firstn (List.length needle) hay) needle
  || match hay with
     | [] => false
     | _ :: hay' => str_contains needle hay'
     end.

(** ** Python values, dictionaries and exceptions *)

(** JSON-shaped Python values; floats are represented by their exact value. *)
Inductive pyval :=
| PNone
| PBool (b : bool)
| PInt (z : Z)
| PFloat (q : Q)
| PStr (s : pystr)
| PList (l : list pyval)
| PDict (d : list (pystr * pyval)).

(** A [dict] with string keys, in insertion order. *)
Definition pydict := list (pystr * pyval).

Fixpoint dict_get (d : pydict) (k : pystr) : option pyval :=
  match d with
  | [] => None
  | (k', v) :: d' => if pystr_eqb k k' then Some v else dict_get d' k
  end.

(** [d[k] = v]: an existing key keeps its position, a new key is appended. *)
Fixpoint dict_set (d : pydict) (k : pystr) (v : pyval) : pydict :=
  match d with
  | [] => [(k, v)]
  | (k', v') :: d' =>
      if pystr_eqb k k' then (k', v) :: d' else (k', v') :: dict_set d' k v
  end.

(** [d.setdefault(k, v)] (its effect on [d]). *)
Definition dict_setdefault (d : pydict) (k : pystr) (v : pyval) : pydict :=
  match dict_get d k with Some _ => d | None => dict_set d k v end.

(** Python truthiness. *)
Definition truthy (v : pyval) : bool :=
  match v with
  | PNone => false
  | PBool b => b
  | PInt z => negb (z =? 0)
  | PFloat q => negb (Qeq_bool q 0)
  | PStr s => negb (List.length s =? 0)%nat
  | PList l => negb (List.length l =? 0)%nat
  | PDict d => negb (List.length d =? 0)%nat
  end.

(** Exceptions: FastAPI's [HTTPException] (a subclass of [Exception]) and
    every other exception, by class name. *)
Inductive exn :=
| HTTPException (status_code : Z) (detail : pystr)
| OtherError (name : string).

(** A Python computation that returns or raises. *)
Inductive res (A : Type) :=
| Ok (a : A)
| Raise (e : exn).
Arguments Ok {A} a.
Arguments Raise {A} e.

Definition bind {A B} (m : res A) (k : A -> res B) : res B :=
  match m with Ok a => k a | Raise e => Raise e end.

Notation "x <- m ;; k" := (bind m (fun x => k))
  (at level 61, m at next level, right associativity).

(** The status code FastAPI answers for an exception leaving a route
    handler: its [ExceptionMiddleware] turns an [HTTPException] into a
    response with that status; any other exception reaches Starlette's
    [ServerErrorMiddleware], which answers 500. *)
Definition route_status (e : exn) : Z :=
  match e with HTTPException c _ => c | OtherError _ => 500 end.

(** Korean literals, as code points. *)
Definition ko_work : pystr := [50629; 47924].      (* 업무 *)
Definition ko_personal : pystr := [44060; 51064].  (* 개인 *)
Definition ko_learning : pystr := [54617; 49845].  (* 학습 *)
Definition ko_health : pystr := [44148; 44053].    (* 건강 *)
Definition ko_finance : pystr := [51116; 51221].   (* 재정 *)
Definition ko_other : pystr := [44592; 53440].     (* 기타 *)

(** [allowed_categories], shared by [validate_category] (Todo service) and
    [validate_todo_data] (AI service). *)
Definition allowed_categories : list pystr :=
  [ko_work; ko_personal; ko_learning; ko_health; ko_finance; ko_other;
   lit "Work"; lit "Personal"; lit "Learning"; lit "Health"; lit "Finance";
   lit "Other"].

(** [str(allowed_categories)] *)
Definition allowed_categories_repr : pystr :=
  lit "[" ++ List.concat (List.map (fun '(i, c) =>
                       (if (i =? 0)%nat then [] else lit ", ")
                       ++ lit "'" ++ c ++ lit "'")
                     (combine (seq 0 12) allowed_categories)) ++ lit "]".

(** ** Todo service: request handlers ([services/todo/app/main.py]) *)

Module TodoMain.

(** [schemas.TodoCreate] *)
Record TodoCreate := mkTodoCreate {
  title : pystr;
  description : option pystr;
  priority : Z;
  category : option pystr;
  estimated_time : option Z
}.

(** The [Field] constraints of [schemas.TodoBase], checked by Pydantic
    before the handler runs; FastAPI answers a violation with 422. *)
Definition todo_create_valid (t : TodoCreate) : bool :=
  (1 <=? List.length (title t))%nat && (List.length (title t) <=? 255)%nat
  && (1 <=? priority t) && (priority t <=? 5)
  && match category t with
     | Some c => (List.length c <=? 50)%nat
     | None => true
     end
  && match estimated_time t with Some e => 0 <=? e | None => true end.

Definition validate_priority (p : option Z) : res (option Z) :=
  match p with
  | None => Ok None
  | Some v =>
      if (v <? 1) || (5 <? v)
      then Raise (HTTPException 422 (lit "Priority must be between 1 and 5"))
      else Ok (Some v)
  end.

Definition validate_category (c : option pystr) : res (option pystr) :=
  match c with
  | None => Ok None
  | Some [] => Ok (Some [])
  | Some v =>
      if str_in v allowed_categories then Ok (Some v)
      else Raise (HTTPException 422
                    (lit "Invalid category. Allowed values: "
                     ++ allowed_categories_repr))
  end.

(** "할 일 생성 중 오류가 발생했습니다" *)
Definition create_error_detail : pystr :=
  [54624; 32; 51068; 32; 49373; 49457; 32; 51473; 32; 50724; 47448; 44032;
   32; 48156; 49373; 54664; 49845; 45768; 45796].

Section CreateTodo.

(** [crud.create_todo(db, todo)]: whatever it returns or raises. *)
Variable A : Type.
Variable crud_create_todo : TodoCreate -> res A.

(** The body of the [try] block of [create_todo]. *)
Definition create_todo_try (todo : TodoCreate) : res A :=
  let t := sanitize_string (Some (title todo)) 255 in
  let d := sanitize_string (description todo) 2000 in
  _ <- validate_priority (Some (priority todo)) ;;
  c <- validate_category (category todo) ;;
  match t with
  | None | Some [] =>
      Raise (HTTPException 422 (lit "Title is required and cannot be empty"))
  | Some t' =>
      crud_create_todo (mkTodoCreate t' d (priority todo) c
                          (estimated_time todo))
  end.

(** [create_todo]: its [except Exception] handler catches every exception
    raised in the [try] block and raises a 500 [HTTPException]. *)
Definition create_todo (todo : TodoCreate) : res A :=
  match create_todo_try todo with
  | Ok a => Ok a
  | Raise _ => Raise (HTTPException 500 create_error_detail)
  end.

(** The status code of [POST /todos]. *)
Definition post_todos_status (todo : TodoCreate) : Z :=
  if negb (todo_create_valid todo) then 422
  else match create_todo todo with
       | Ok _ => 201
       | Raise e => route_status e
       end.

End CreateTodo.

End TodoMain.

(** ** Todo service: persistence layer ([services/todo/app/crud.py]) *)

Module Crud.

(** [models.TodoStatus] *)
Inductive TodoStatus := TODO | DOING | DONE.

(** A row of the [todos] table ([models.Todo]), as the ORM object holds it:
    a non-nullable attribute may still be assigned [None] before a commit. *)
Record Todo := mkTodo {
  id : Z;
  title : option pystr;
  description : option pystr;
  status : TodoStatus;
  priority : option Z;
  category : option pystr;
  estimated_time : option Z;
  ai_metadata : option pyval;
  created_at : Z;
  updated_at : Z
}.

(** [schemas.TodoUpdate]: [None] when the field is unset, [Some v] when the
    payload sets it, [v] being [None] for an explicit [null]. *)
Record TodoUpdate := mkTodoUpdate {
  u_title : option (option pystr);
  u_description : option (option pystr);
  u_priority : option (option Z);
  u_category : option (option pystr);
  u_estimated_time : option (option Z)
}.

(** One entry of [todo.dict(exclude_unset=True)]. *)
Inductive Assign :=
| SetTitle (v : option pystr)
| SetDescription (v : option pystr)
| SetPriority (v : option Z)
| SetCategory (v : option pystr)
| SetEstimatedTime (v : option Z).

Definition opt_list {A B} (f : A -> B) (o : option A) : list B :=
  match o with Some a => [f a] | None => [] end.

(** [todo.dict(exclude_unset=True).items()], in field order. *)
Definition update_data (u : TodoUpdate) : list Assign :=
  opt_list SetTitle (u_title u) ++ opt_list SetDescription (u_description u)
  ++ opt_list SetPriority (u_priority u) ++ opt_list SetCategory (u_category u)
  ++ opt_list SetEstimatedTime (u_estimated_time u).

(** [setattr(db_todo, field, value)] *)
Definition setattr (r : Todo) (a : Assign) : Todo :=
  match a with
  | SetTitle v => mkTodo (id r) v (description r) (status r) (priority r)
                    (category r) (estimated_time r) (ai_metadata r)
                    (created_at r) (updated_at r)
  | SetDescription v => mkTodo (id r) (title r) v (status r) (priority r)
                    (category r) (estimated_time r) (ai_metadata r)
                    (created_at r) (updated_at r)
  | SetPriority v => mkTodo (id r) (title r) (description r) (status r) v
                    (category r) (estimated_time r) (ai_metadata r)
                    (created_at r) (updated_at r)
  | SetCategory v => mkTodo (id r) (title r) (description r) (status r)
                    (priority r) v (estimated_time r) (ai_metadata r)
                    (created_at r) (updated_at r)
  | SetEstimatedTime v => mkTodo (id r) (title r) (description r) (status r)
                    (priority r) (category r) v (ai_metadata r)
                    (created_at r) (updated_at r)
  end.

Definition set_status (r : Todo) (s : TodoStatus) : Todo :=
  mkTodo (id r) (title r) (description r) s (priority r) (category r)
    (estimated_time r) (ai_metadata r) (created_at r) (updated_at r).

Definition touch (r : Todo) (now : Z) : Todo :=
  mkTodo (id r) (title r) (description r) (status r) (priority r)
    (category r) (estimated_time r) (ai_metadata r) (created_at r) now.

(** Redis keys: ["todo:{id}"] and the list tag ["todos:tags:list"]. *)
Inductive RKey := KTodo (tid : Z) | KListTag.

Definition rkey_eqb (a b : RKey) : bool :=
  match a, b with
  | KTodo x, KTodo y => x =? y
  | KListTag, KListTag => true
  | _, _ => false
  end.

(** Redis values: a string ([setex]) or a set ([sadd]). *)
Inductive RVal := RStr (r : Todo) | RSet (members : list RKey).

(** The committed [todos] table, the Redis store, whether Redis answers,
    and the database clock used by [server_default]/[onupdate]. *)
Record World := mkWorld {
  db : list Todo;
  redis : list (RKey * RVal);
  redis_up : bool;
  now : Z
}.

Definition with_db (w : World) (d : list Todo) : World :=
  mkWorld d (redis w) (redis_up w) (now w).
Definition with_redis (w : World) (r : list (RKey * RVal)) : World :=
  mkWorld (db w) r (redis_up w) (now w).

(** Python code over this world: returns or raises, keeping the effects
    performed before the exception. *)
Definition M (A : Type) := World -> res A * World.

Definition ret {A} (a : A) : M A := fun w => (Ok a, w).
Definition raise {A} (e : exn) : M A := fun w => (Raise e, w).
Definition mbind {A B} (m : M A) (k : A -> M B) : M B :=
  fun w => match m w with
           | (Ok a, w') => k a w'
           | (Raise e, w') => (Raise e, w')
           end.
(** [try: m except Exception: h] *)
Definition try_except {A} (m : M A) (h : exn -> M A) : M A :=
  fun w => match m w with
           | (Ok a, w') => (Ok a, w')
           | (Raise e, w') => h e w'
           end.

Notation "x <-- m ;; k" := (mbind m (fun x => k))
  (at level 61, m at next level, right associativity).
Notation "m ;;; k" := (mbind m (fun _ => k))
  (at level 61, right associativity).

(** *** Redis client calls: each raises [ConnectionError] when Redis is
    unreachable. *)

Definition redis_call {A} (f : list (RKey * RVal) -> A * list (RKey * RVal))
  : M A :=
  fun w => if redis_up w
           then let (a, r) := f (redis w) in (Ok a, with_redis w r)
           else (Raise (OtherError "ConnectionError"), w).

Fixpoint rlookup (r : list (RKey * RVal)) (k : RKey) : option RVal :=
  match r with
  | [] => None
  | (k', v) :: r' => if rkey_eqb k k' then Some v else rlookup r' k
  end.

Definition rput (r : list (RKey * RVal)) (k : RKey) (v : RVal)
  : list (RKey * RVal) :=
  (k, v) :: List.filter (fun '(k', _) => negb (rkey_eqb k k')) r.

(** [redis_client.delete] applied to the unpacked keys *)
Definition r_delete (ks : list RKey) : M unit :=
  redis_call (fun r => (tt, List.filter
                              (fun '(k, _) => negb (existsb (rkey_eqb k) ks)) r)).

(** [redis_client.smembers(key)] *)
Definition r_smembers (k : RKey) : M (list RKey) :=
  redis_call (fun r => (match rlookup r k with
                        | Some (RSet m) => m
                        | _ => []
                        end, r)).

(** [redis_client.sadd(key, member)] *)
Definition r_sadd (k m : RKey) : M unit :=
  redis_call (fun r =>
    let ms := match rlookup r k with Some (RSet ms) => ms | _ => [] end in
    (tt, rput r k (RSet (if existsb (rkey_eqb m) ms then ms else ms ++ [m])))).

(** [redis_client.setex(key, expire, json.dumps(todo.to_dict()))]; the
    expiry is not modelled. *)
Definition r_setex (k : RKey) (t : Todo) : M unit :=
  redis_call (fun r => (tt, rput r k (RStr t))).

(** *** Database calls *)

(** The column constraints of [models.Todo] checked by PostgreSQL when a
    row is written: [title] [String(255)] and [priority] are non-nullable,
    [category] is [String(50)]. *)
Definition row_ok (r : Todo) : bool :=
  match title r with
  | Some t => (List.length t <=? 255)%nat
  | None => false
  end
  && match priority r with Some _ => true | None => false end
  && match category r with
     | Some c => (List.length c <=? 50)%nat
     | None => true
     end.

Definition db_find (tid : Z) (d : list Todo) : option Todo :=
  find (fun r => id r =? tid) d.

Definition db_replace (r : Todo) (d : list Todo) : list Todo :=
  List.map (fun r' => if id r' =? id r then r else r') d.

(** [db.query(models.Todo).filter(models.Todo.id == todo_id).first()] *)
Definition get_todo (tid : Z) : M (option Todo) :=
  fun w => (Ok (db_find tid (db w)), w).

Definition opt_eqb (a b : option pystr) : bool :=
  match a, b with
  | Some x, Some y => pystr_eqb x y
  | None, None => true
  | _, _ => false
  end.

Definition opt_z_eqb (a b : option Z) : bool :=
  match a, b with
  | Some x, Some y => x =? y
  | None, None => true
  | _, _ => false
  end.

Definition status_eqb (a b : TodoStatus) : bool :=
  match a, b with
  | TODO, TODO | DOING, DOING | DONE, DONE => true
  | _, _ => false
  end.

(** Whether the columns the CRUD functions assign ([title], [description],
    [status], [priority], [category], [estimated_time]) hold in [r] the
    values loaded in [r0]: SQLAlchemy compares each assigned attribute with
    its loaded value and records no change when they are equal. *)
Definition same_columns (r0 r : Todo) : bool :=
  opt_eqb (title r0) (title r) && opt_eqb (description r0) (description r)
  && status_eqb (status r0) (status r) && opt_z_eqb (priority r0) (priority r)
  && opt_eqb (category r0) (category r)
  && opt_z_eqb (estimated_time r0) (estimated_time r).

(** [db.commit(); db.refresh(db_todo)] for the row loaded as [r0] and
    modified in memory into [r]: when some assigned column changed, the
    UPDATE also sets [updated_at] ([onupdate=func.now()]) and a constraint
    violation raises and leaves the table unchanged; when none changed, no
    UPDATE is emitted, [onupdate] does not fire and the refresh reloads
    the stored row. *)
Definition commit_update (r0 r : Todo) : M Todo :=
  fun w =>
    if same_columns r0 r then (Ok r0, w)
    else if row_ok r
    then let r' := touch r (now w) in (Ok r', with_db w (db_replace r' (db w)))
    else (Raise (OtherError "IntegrityError"), w).

(** [db.add(db_todo); db.commit(); db.refresh(db_todo)] *)
Definition commit_insert (r : Todo) : M Todo :=
  fun w =>
    if row_ok r
    then let r' := mkTodo (id r) (title r) (description r) (status r)
                     (priority r) (category r) (estimated_time r)
                     (ai_metadata r) (now w) (now w) in
         (Ok r', with_db w (db w ++ [r']))
    else (Raise (OtherError "IntegrityError"), w).

(** [db.delete(db_todo); db.commit()] *)
Definition commit_delete (tid : Z) : M unit :=
  fun w => (Ok tt, with_db w (List.filter (fun r => negb (id r =? tid)) (db w))).

(** *** The CRUD functions *)

Definition cache_todo (t : Todo) : M unit := r_setex (KTodo (id t)) t.

(** [_invalidate_todos_list_cache]: errors are printed and swallowed. *)
Definition invalidate_todos_list_cache : M unit :=
  try_except
    (list_keys <-- r_smembers KListTag ;;
     match list_keys with
     | [] => ret tt
     | _ => r_delete list_keys ;;; r_delete [KListTag]
     end)
    (fun _ => ret tt).

(** [_cache_todo_with_tags]: errors are printed and swallowed. *)
Definition cache_todo_with_tags (t : Todo) : M unit :=
  try_except
    (cache_todo t ;;; r_sadd KListTag (KTodo (id t)))
    (fun _ => ret tt).

(** [create_todo]; [new_id] is the [uuid4] default of the [id] column. *)
Definition create_todo (new_id : Z) (t : TodoMain.TodoCreate) : M Todo :=
  db_todo <-- commit_insert
                (mkTodo new_id (Some (TodoMain.title t))
                   (TodoMain.description t) TODO (Some (TodoMain.priority t))
                   (TodoMain.category t) (TodoMain.estimated_time t) None 0 0) ;;
  invalidate_todos_list_cache ;;;
  cache_todo_with_tags db_todo ;;;
  ret db_todo.

(** [update_todo] *)
Definition update_todo (tid : Z) (u : TodoUpdate) : M (option Todo) :=
  o <-- get_todo tid ;;
  match o with
  | None => ret None
  | Some db_todo =>
      let upd := update_data u in
      db_todo' <-- commit_update db_todo (fold_left setattr upd db_todo) ;;
      r_delete [KTodo tid] ;;;
      invalidate_todos_list_cache ;;;
      cache_todo_with_tags db_todo' ;;;
      ret (Some db_todo')
  end.

(** [update_todo_status] *)
Definition update_todo_status (tid : Z) (s : TodoStatus) : M (option Todo) :=
  o <-- get_todo tid ;;
  match o with
  | None => ret None
  | Some db_todo =>
      db_todo' <-- commit_update db_todo (set_status db_todo s) ;;
      r_delete [KTodo tid] ;;;
      invalidate_todos_list_cache ;;;
      cache_todo_with_tags db_todo' ;;;
      ret (Some db_todo')
  end.

(** [delete_todo] *)
Definition delete_todo (tid : Z) : M bool :=
  o <-- get_todo tid ;;
  match o with
  | None => ret false
  | Some _ =>
      commit_delete tid ;;;
      r_delete [KTodo tid] ;;;
      invalidate_todos_list_cache ;;;
      ret true
  end.

(** The status code of [PUT /todos/{id}] given the result of
    [crud.update_todo]: the handler re-raises [HTTPException] and turns
    every other exception into a 500 [HTTPException]. *)
Definition put_todo_status (r : res (option Todo)) : Z :=
  match r with
  | Ok (Some _) => 200
  | Ok None => 404
  | Raise e => route_status e
  end.

(** The status code of [DELETE /todos/{id}] given [crud.delete_todo]. *)
Definition delete_todo_status (r : res bool) : Z :=
  match r with
  | Ok true => 204
  | Ok false => 404
  | Raise e => route_status e
  end.

(** *** Listing ([get_todos]) *)

(** The mapped columns of [models.Todo]. *)
Inductive Column :=
| CId | CTitle | CDescription | CStatus | CPriority | CCategory
| CEstimatedTime | CAiMetadata | CCreatedAt | CUpdatedAt.

Definition column_key (c : Column) : pystr :=
  match c with
  | CId => lit "id" | CTitle => lit "title" | CDescription => lit "description"
  | CStatus => lit "status" | CPriority => lit "priority"
  | CCategory => lit "category" | CEstimatedTime => lit "estimated_time"
  | CAiMetadata => lit "ai_metadata" | CCreatedAt => lit "created_at"
  | CUpdatedAt => lit "updated_at"
  end.

Definition all_columns : list Column :=
  [CId; CTitle; CDescription; CStatus; CPriority; CCategory; CEstimatedTime;
   CAiMetadata; CCreatedAt; CUpdatedAt].

Definition column_by_key (s : pystr) : option Column :=
  find (fun c => pystr_eqb (column_key c) s) all_columns.

(** What [getattr(models.Todo, name)] finds: a column attribute, a string
    class attribute, or another object (method, metadata, ...). *)
Inductive ClassAttr :=
| AttrColumn (c : Column)
| AttrStr (s : pystr)
| AttrOther.

(** The string-valued attributes of the class [models.Todo]: its table
    name, the names and module that Python gives every class, and its
    docstring. *)
Definition class_str_attrs : list (pystr * pystr) :=
  [(lit "__tablename__", lit "todos");
   (lit "__name__", lit "Todo");
   (lit "__qualname__", lit "Todo");
   (lit "__module__", lit "app.models");
   (lit "__doc__", [45936; 51060; 53552; 48288; 51060; 49828; 50857; 32;
                    84; 111; 100; 111; 32; 47784; 45944])].

(** The other non-column attributes [getattr] finds on the class
    [models.Todo]: its method [to_dict]; what the declarative base and the
    mapping add; what every instance of [object] has; and what the class
    has as an instance of its metaclass [DeclarativeMeta] (the attributes
    of [type] and of the SQLAlchemy classes and [typing.Generic] it
    derives from).  This is the union over CPython 3.8 to 3.14 and
    SQLAlchemy 1.4 and 2.0: a name some of these versions lack
    ([__getstate__], [__type_params__], [__static_attributes__],
    [__firstlineno__], [__annotate__], ...) is listed. *)
Definition other_class_attrs : list pystr :=
  List.map lit
    [(* the class body, the declarative base and the mapping *)
     "to_dict"; "metadata"; "registry"; "__table__"; "__mapper__";
     "__abstract__"; "_sa_class_manager"; "_sa_registry";
     "__init__"; "__dict__"; "__weakref__"; "__annotations__";
     "__firstlineno__"; "__static_attributes__"; "__annotate__";
     (* [object] *)
     "__class__"; "__repr__"; "__str__"; "__eq__"; "__ne__"; "__hash__";
     "__new__"; "__getattribute__"; "__setattr__"; "__delattr__";
     "__dir__"; "__format__"; "__reduce__"; "__reduce_ex__"; "__sizeof__";
     "__subclasshook__"; "__init_subclass__"; "__lt__"; "__le__"; "__gt__";
     "__ge__"; "__getstate__";
     (* [type], as the metaclass *)
     "__bases__"; "__base__"; "__mro__"; "mro"; "__subclasses__";
     "__basicsize__"; "__itemsize__"; "__flags__"; "__weakrefoffset__";
     "__dictoffset__"; "__text_signature__"; "__type_params__"; "__call__";
     "__instancecheck__"; "__subclasscheck__"; "__prepare__"; "__or__";
     "__ror__";
     (* [typing.Generic] and [__slots__] of the metaclass's bases *)
     "__class_getitem__"; "__orig_bases__"; "__parameters__";
     "_is_protocol"; "__slots__"]%string.

(** [getattr(models.Todo, name)], [None] when the class has no such
    attribute. *)
Definition todo_class_attr (name : pystr) : option ClassAttr :=
  match column_by_key name with
  | Some c => Some (AttrColumn c)
  | None =>
      match find (fun kv => pystr_eqb (fst kv) name) class_str_attrs with
      | Some (_, v) => Some (AttrStr v)
      | None => if str_in name other_class_attrs then Some AttrOther else None
      end
  end.

(** [getattr(models.Todo, sort_by, "created_at")] *)
Definition getattr_default (name : pystr) : ClassAttr :=
  match todo_class_attr name with
  | Some a => a
  | None => AttrStr (lit "created_at")
  end.

Inductive Direction := Asc | Desc.

(** [desc(x)] / [asc(x)] compiled into ORDER BY: a column is used as is; a
    string is a label reference resolved against the selected columns by
    name (a [CompileError] when none has that name); any other object is
    rejected by SQLAlchemy with an [ArgumentError]. *)
Definition order_column (a : ClassAttr) : res Column :=
  match a with
  | AttrColumn c => Ok c
  | AttrStr s =>
      match column_by_key s with
      | Some c => Ok c
      | None => Raise (OtherError "CompileError")
      end
  | AttrOther => Raise (OtherError "ArgumentError")
  end.

(** The ORDER BY clause [get_todos] builds. *)
Definition order_clause (sort_by order : pystr) : res (Direction * Column) :=
  let dir := if pystr_eqb order (lit "desc") then Desc else Asc in
  c <- order_column (getattr_default sort_by) ;;
  Ok (dir, c).

(** SQL values of the orderable columns. *)
Inductive SqlVal := SNull | SInt (z : Z) | SText (s : pystr).

Definition status_rank (s : TodoStatus) : Z :=
  match s with TODO => 0 | DOING => 1 | DONE => 2 end.

Definition opt_int (o : option Z) : SqlVal :=
  match o with Some z => SInt z | None => SNull end.
Definition opt_text (o : option pystr) : SqlVal :=
  match o with Some s => SText s | None => SNull end.

(** The value a column contributes to ORDER BY; PostgreSQL has no ordering
    on [json], so ordering by [ai_metadata] fails. *)
Definition col_value (c : Column) (r : Todo) : option SqlVal :=
  match c with
  | CId => Some (SInt (id r))
  | CTitle => Some (opt_text (title r))
  | CDescription => Some (opt_text (description r))
  | CStatus => Some (SInt (status_rank (status r)))
  | CPriority => Some (opt_int (priority r))
  | CCategory => Some (opt_text (category r))
  | CEstimatedTime => Some (opt_int (estimated_time r))
  | CAiMetadata => None
  | CCreatedAt => Some (SInt (created_at r))
  | CUpdatedAt => Some (SInt (updated_at r))
  end.

Fixpoint text_leb (a b : pystr) : bool :=
  match a, b with
  | [], _ => true
  | _ :: _, [] => false
  | x :: a', y :: b' => (x <? y) || ((x =? y) && text_leb a' b')
  end.

(** Ascending order, NULLs last (PostgreSQL's default); text in code-point
    order. *)
Definition sql_leb (a b : SqlVal) : bool :=
  match a, b with
  | _, SNull => true
  | SNull, _ => false
  | SInt x, SInt y => x <=? y
  | SText x, SText y => text_leb x y
  | SInt _, SText _ => true
  | SText _, SInt _ => false
  end.

Definition row_leb (dir : Direction) (c : Column) (r1 r2 : Todo) : bool :=
  match col_value c r1, col_value c r2 with
  | Some v1, Some v2 => match dir with
                        | Asc => sql_leb v1 v2
                        | Desc => sql_leb v2 v1
                        end
  | _, _ => true
  end.

Fixpoint insert_by (le : Todo -> Todo -> bool) (x : Todo) (l : list Todo)
  : list Todo :=
  match l with
  | [] => [x]
  | y :: l' => if le x y then x :: l else y :: insert_by le x l'
  end.

Definition sort_by_key (le : Todo -> Todo -> bool) (l : list Todo) : list Todo :=
  fold_right (insert_by le) [] l.

Definition status_name (s : TodoStatus) : pystr :=
  match s with TODO => lit "TODO" | DOING => lit "DOING" | DONE => lit "DONE" end.

(** [models.Todo.status == status]: SQLAlchemy's [Enum] type rejects a name
    that is not a member with a [LookupError]. *)
Definition status_filter (s : pystr) : res TodoStatus :=
  if pystr_eqb s (lit "TODO") then Ok TODO
  else if pystr_eqb s (lit "DOING") then Ok DOING
  else if pystr_eqb s (lit "DONE") then Ok DONE
  else Raise (OtherError "LookupError").

(** [get_todos(db, skip, limit, status, category, priority, sort_by,
    order)] over the committed table [rows]. *)
Definition get_todos (rows : list Todo) (skip limit : nat)
    (st : option pystr) (cat : option pystr) (prio : option Z)
    (sort_by order : pystr) : res (list Todo) :=
  rows1 <- match st with
           | Some s =>
               if truthy (PStr s)
               then v <- status_filter s ;;
                    Ok (List.filter (fun r => match status r, v with
                                              | TODO, TODO | DOING, DOING
                                              | DONE, DONE => true
                                              | _, _ => false
                                              end) rows)
               else Ok rows
           | None => Ok rows
           end ;;
  let rows2 := match cat with
               | Some c => if truthy (PStr c)
                           then List.filter (fun r => opt_eqb (category r) (Some c)) rows1
                           else rows1
               | None => rows1
               end in
  let rows3 := match prio with
               | Some p => if negb (p =? 0)
                           then List.filter (fun r => match priority r with
                                                      | Some q => q =? p
                                                      | None => false
                                                      end) rows2
                           else rows2
               | None => rows2
               end in
  oc <- order_clause sort_by order ;;
  let (dir, c) := oc in
  match c with
  | CAiMetadata => Raise (OtherError "ProgrammingError")
  | _ => Ok (firstn limit (skipn skip (sort_by_key (row_leb dir c) rows3)))
  end.

End Crud.

(** ** Rate limiting (both [main.py] files) *)

Module RateLimit.

(** [RATE_LIMIT_REQUESTS]: 100 in the Todo service, 60 in the AI service. *)
Definition TODO_RATE_LIMIT_REQUESTS : nat := 100.
Definition AI_RATE_LIMIT_REQUESTS : nat := 60.
Definition RATE_LIMIT_WINDOW : Q := 60.

(** [request_counts = defaultdict(list)]: client IP to request times
    ([time.time()] values, taken exactly). *)
Definition Counts := list (pystr * list Q).

Fixpoint counts_get (m : Counts) (ip : pystr) : list Q :=
  match m with
  | [] => []
  | (k, l) :: m' => if pystr_eqb ip k then l else counts_get m' ip
  end.

Definition counts_set (m : Counts) (ip : pystr) (l : list Q) : Counts :=
  (ip, l) :: List.filter (fun '(k, _) => negb (pystr_eqb ip k)) m.

(** [current_time - req_time < RATE_LIMIT_WINDOW] *)
Definition in_window (current_time req_time : Q) : bool :=
  negb (Qle_bool RATE_LIMIT_WINDOW (current_time - req_time)).

(** [check_rate_limit(client_ip)] with the service's limit [n]. *)
Definition check_rate_limit (n : nat) (m : Counts) (client_ip : pystr)
    (current_time : Q) : bool * Counts :=
  let l := List.filter (in_window current_time) (counts_get m client_ip) in
  if (n <=? List.length l)%nat then (false, counts_set m client_ip l)
  else (true, counts_set m client_ip (l ++ [current_time])).

(** [str.endswith] *)
Definition ends_with (s suffix : pystr) : bool :=
  (List.length suffix <=? List.length s)%nat
  && pystr_eqb (skipn (List.length s - List.length suffix) s) suffix.

(** What [security_and_correlation_middleware] does before the route. *)
Inductive MwStep := CallNext | MwRaise (e : exn).

Definition rate_limit_middleware (n : nat) (m : Counts) (path client_ip : pystr)
    (current_time : Q) : MwStep * Counts :=
  if ends_with path (lit "/health") then (CallNext, m)
  else let (ok, m') := check_rate_limit n m client_ip current_time in
       if ok then (CallNext, m')
       else (MwRaise (HTTPException 429 (lit "Too many requests")), m').

(** The status the client receives.  The function registered with
    [@app.middleware("http")] runs outside FastAPI's [ExceptionMiddleware]
    (Starlette orders the stack [ServerErrorMiddleware], user middleware,
    [ExceptionMiddleware], router), so an exception it raises, an
    [HTTPException] included, reaches [ServerErrorMiddleware], which answers
    500; [route] is the status the route itself would produce. *)
Definition served_status (route : Z) (s : MwStep) : Z :=
  match s with
  | CallNext => route
  | MwRaise _ => 500
  end.

(** A sequence of requests [(path, ip, time)] through the middleware; the
    list of middleware decisions and the final counters. *)
Fixpoint run_requests (n : nat) (m : Counts) (reqs : list (pystr * pystr * Q))
  : list MwStep * Counts :=
  match reqs with
  | [] => ([], m)
  | (path, ip, t) :: reqs' =>
      let (s, m') := rate_limit_middleware n m path ip t in
      let (ss, m'') := run_requests n m' reqs' in
      (s :: ss, m'')
  end.

End RateLimit.

(** ** AI service agents ([services/ai/app/agents.py]) *)

Module Agents.

(** *** The in-flight call counter

    [acquire_request_slot] loops [while _concurrent_requests >= 10: await
    asyncio.sleep(0.1)] and then increments; the check that ends the loop
    and the increment run without a suspension point between them, so under
    asyncio they form one atomic step. *)

Definition MAX_CONCURRENT_REQUESTS : Z := 10.

(** Where a task stands between two suspension points. *)
Inductive Pc := Idle | Acquiring | Holding.

Record Sched := mkSched {
  concurrent_requests : Z;
  tasks : list Pc
}.

Fixpoint set_nth (l : list Pc) (i : nat) (p : Pc) : list Pc :=
  match l, i with
  | [], _ => []
  | _ :: l', O => p :: l'
  | x :: l', S i' => x :: set_nth l' i' p
  end.

(** [release_request_slot] *)
Definition release (c : Z) : Z := Z.max 0 (c - 1).

(** One step of the event loop: a task calls [acquire_request_slot], sleeps
    in its loop, leaves the loop and increments, or releases in its
    [finally]; [release_request_slot] may also run with no matching
    acquire. *)
Inductive step : Sched -> Sched -> Prop :=
| step_call : forall c ts i,
    nth_error ts i = Some Idle ->
    step (mkSched c ts) (mkSched c (set_nth ts i Acquiring))
| step_sleep : forall c ts i,
    nth_error ts i = Some Acquiring ->
    MAX_CONCURRENT_REQUESTS <= c ->
    step (mkSched c ts) (mkSched c ts)
| step_acquire : forall c ts i,
    nth_error ts i = Some Acquiring ->
    c < MAX_CONCURRENT_REQUESTS ->
    step (mkSched c ts) (mkSched (c + 1) (set_nth ts i Holding))
| step_release : forall c ts i,
    nth_error ts i = Some Holding ->
    step (mkSched c ts) (mkSched (release c) (set_nth ts i Idle))
| step_unmatched_release : forall c ts,
    step (mkSched c ts) (mkSched (release c) ts).

Inductive steps : Sched -> Sched -> Prop :=
| steps_refl : forall s, steps s s
| steps_cons : forall s1 s2 s3, step s1 s2 -> steps s2 s3 -> steps s1 s3.

(** Module start: [_concurrent_requests = 0], every task idle. *)
Definition initial (n : nat) : Sched := mkSched 0 (repeat Idle n).

(** *** [TodoParserAgent.parse] *)

(** What the call to the LLM gives: an exception from [ainvoke], or the
    response whose content [json.loads] decodes ([None] when it raises
    [JSONDecodeError]). *)
Inductive LlmOutcome :=
| LlmRaises (e : exn)
| LlmContent (decoded : option pyval).

(** The structure returned on every error. *)
Definition parse_fallback (input_text : pystr) : pydict :=
  [(lit "title", PStr (firstn 255 input_text));
   (lit "description", PNone);
   (lit "priority", PInt 3);
   (lit "category", PStr ko_other);
   (lit "estimated_time", PInt 30)].

(** The [try] block of [parse]. *)
Definition parse_try (o : LlmOutcome) : res pydict :=
  match o with
  | LlmRaises e => Raise e
  | LlmContent None => Raise (OtherError "JSONDecodeError")
  | LlmContent (Some (PDict d)) =>
      let d := dict_setdefault d (lit "priority") (PInt 3) in
      let d := dict_setdefault d (lit "category") (PStr ko_other) in
      let d := dict_setdefault d (lit "estimated_time") (PInt 30) in
      (* the log line reads result['title'] *)
      match dict_get d (lit "title") with
      | Some _ => Ok d
      | None => Raise (OtherError "KeyError")
      end
  | LlmContent (Some _) => Raise (OtherError "AttributeError")
  end.

(** [parse] without its decorator: the [except json.JSONDecodeError] and
    [except Exception] clauses both return the fallback;
    [acquire_request_slot] and the [finally] release raise nothing. *)
Definition parse_once (input_text : pystr) (o : LlmOutcome) : res pydict :=
  match parse_try o with
  | Ok d => Ok d
  | Raise _ => Ok (parse_fallback input_text)
  end.

(** [with_exponential_backoff(max_retries)]: [call k] is attempt [k];
    the sleeps between attempts are not modelled. *)
Fixpoint backoff_from (k fuel : nat) {A} (max_retries : nat)
    (call : nat -> res A) : option (res A) :=
  match fuel with
  | O => None
  | S fuel' =>
      match call k with
      | Ok a => Some (Ok a)
      | Raise e =>
          if (k =? max_retries - 1)%nat then Some (Raise e)
          else backoff_from (S k) fuel' max_retries call
      end
  end.

(** [None] is the wrapper falling off its loop (returning Python's [None]). *)
Definition with_exponential_backoff {A} (max_retries : nat)
    (call : nat -> res A) : option (res A) :=
  backoff_from 0 max_retries max_retries call.

(** [todo_parser.parse(input_text)]; [llm k] is the LLM's answer at
    attempt [k]. *)
Definition parse (input_text : pystr) (llm : nat -> LlmOutcome)
  : option (res pydict) :=
  with_exponential_backoff 3 (fun k => parse_once input_text (llm k)).

End Agents.

(** ** Python operations on JSON values *)

Module Py.

(** [v.get(k, default)]; only a [dict] has [get]. *)
Definition get (v : pyval) (k : pystr) (default : pyval) : res pyval :=
  match v with
  | PDict d => match dict_get d k with
               | Some x => Ok x
               | None => Ok default
               end
  | _ => Raise (OtherError "AttributeError")
  end.

(** [v[k]] with a string key. *)
Definition getitem (v : pyval) (k : pystr) : res pyval :=
  match v with
  | PDict d => match dict_get d k with
               | Some x => Ok x
               | None => Raise (OtherError "KeyError")
               end
  | PStr _ | PList _ => Raise (OtherError "TypeError")
  | _ => Raise (OtherError "TypeError")
  end.

(** [v[k] = x] with a string key. *)
Definition setitem (v : pyval) (k : pystr) (x : pyval) : res pyval :=
  match v with
  | PDict d => Ok (PDict (dict_set d k x))
  | _ => Raise (OtherError "TypeError")
  end.

(** [v.copy()] *)
Definition copy (v : pyval) : res pyval :=
  match v with
  | PDict d => Ok (PDict d)
  | PList l => Ok (PList l)
  | _ => Raise (OtherError "AttributeError")
  end.

(** The numeric value of a [bool], [int] or [float]. *)
Definition num (v : pyval) : option Q :=
  match v with
  | PBool b => Some (if b then 1 else 0)%Q
  | PInt z => Some (inject_Z z)
  | PFloat q => Some q
  | _ => None
  end.

(** [v > 0.7]; comparing anything but a number with a float raises
    [TypeError].  A float is taken with its exact value: no double lies
    strictly between the double nearest to 0.7 and 7/10, so the test agrees
    with the comparison of doubles. *)
Definition gt_07 (v : pyval) : res bool :=
  match num v with
  | Some q => Ok (negb (Qle_bool q (7 # 10)))
  | None => Raise (OtherError "TypeError")
  end.

End Py.

(** ** The full-pipeline workflow ([services/ai/app/langraph_workflow.py]) *)

Module Workflow.

(** The fields of [TodoState] read by [aggregate_results]; the initial state
    holds all of them ([{}] until a node sets them). *)
Record TodoState := mkTodoState {
  parsed_todo : pyval;
  priority_recommendation : pyval;
  category_classification : pyval;
  time_estimation : pyval
}.

(** The [try] block of [aggregate_results]; [Ok final_todo]. *)
Definition aggregate_try (state : TodoState) : res pyval :=
  let pr := priority_recommendation state in
  let cc := category_classification state in
  let te := time_estimation state in
  final_todo <- Py.copy (parsed_todo state) ;;
  c <- Py.get pr (lit "confidence") (PInt 0) ;;
  b <- Py.gt_07 c ;;
  final_todo <- (if b then
                   x <- Py.getitem pr (lit "recommended_priority") ;;
                   final_todo <- Py.setitem final_todo (lit "priority") x ;;
                   y <- Py.getitem pr (lit "reasoning") ;;
                   Py.setitem final_todo (lit "priority_reasoning") y
                 else Ok final_todo) ;;
  c <- Py.get cc (lit "confidence") (PInt 0) ;;
  b <- Py.gt_07 c ;;
  final_todo <- (if b then
                   x <- Py.getitem cc (lit "category") ;;
                   Py.setitem final_todo (lit "category") x
                 else Ok final_todo) ;;
  c <- Py.get te (lit "confidence") (PInt 0) ;;
  b <- Py.gt_07 c ;;
  final_todo <- (if b then
                   x <- Py.getitem te (lit "estimated_minutes") ;;
                   final_todo <- Py.setitem final_todo (lit "estimated_time") x ;;
                   y <- Py.get te (lit "suggestion") PNone ;;
                   Py.setitem final_todo (lit "time_suggestion") y
                 else Ok final_todo) ;;
  pc <- Py.get pr (lit "confidence") (PInt 0) ;;
  ccf <- Py.get cc (lit "confidence") (PInt 0) ;;
  tc <- Py.get te (lit "confidence") (PInt 0) ;;
  Py.setitem final_todo (lit "ai_metadata")
    (PDict [(lit "priority_confidence", pc);
            (lit "category_confidence", ccf);
            (lit "time_confidence", tc);
            (lit "processed", PBool true)]).

(** The update [aggregate_results] returns to the graph. *)
Inductive NodeUpdate :=
| SetFinalTodo (final_todo : pyval)
| AddErrors (errors : list exn).

Definition aggregate_results (state : TodoState) : NodeUpdate :=
  match aggregate_try state with
  | Ok f => SetFinalTodo f
  | Raise e => AddErrors [e]
  end.

(** The [confidence] of a suggestion as the metadata reports it
    ([.get("confidence", 0)]), for a suggestion that is a dict. *)
Definition confidence (d : pydict) : pyval :=
  match dict_get d (lit "confidence") with Some c => c | None => PInt 0 end.

(** Whether a confidence value passes the [> 0.7] test. *)
Definition above (v : pyval) : bool :=
  match Py.num v with
  | Some q => negb (Qle_bool q (7 # 10))
  | None => false
  end.

End Workflow.

(** ** AI service handlers ([services/ai/app/main.py]) *)

Module AiMain.

(** [sanitize_string(v, max_length)] on a JSON value: a falsy value is
    returned as is; slicing a number or a dict raises [TypeError], and
    [html.escape] of a list raises [AttributeError]. *)
Definition sanitize_value (v : pyval) (max_length : nat) : res pyval :=
  if negb (truthy v) then Ok v
  else match v with
       | PStr s =>
           match sanitize_string (Some s) max_length with
           | Some s' => Ok (PStr s')
           | None => Ok PNone
           end
       | PList _ => Raise (OtherError "AttributeError")
       | _ => Raise (OtherError "TypeError")
       end.

Definition unprocessable (msg : pystr) : exn := HTTPException 422 msg.

(** [isinstance(v, int)] and the integer ([bool] is a subclass of [int]). *)
Definition as_int (v : pyval) : option Z :=
  match v with
  | PInt z => Some z
  | PBool b => Some (if b then 1 else 0)
  | _ => None
  end.

(** [validate_todo_data(todo_data)] *)
Definition validate_todo_data (d : pydict) : res pydict :=
  d <- match dict_get d (lit "title") with
       | Some t =>
           if truthy t then
             t' <- sanitize_value t 255 ;;
             if truthy t' then Ok (dict_set d (lit "title") t')
             else Raise (unprocessable (lit "Title cannot be empty"))
           else Ok d
       | None => Ok d
       end ;;
  d <- match dict_get d (lit "description") with
       | Some t =>
           if truthy t then
             t' <- sanitize_value t 2000 ;;
             Ok (dict_set d (lit "description") t')
           else Ok d
       | None => Ok d
       end ;;
  _ <- match dict_get d (lit "category") with
       | Some c =>
           if truthy c then
             match c with
             | PStr s => if str_in s allowed_categories then Ok tt
                         else Raise (unprocessable
                                (lit "Invalid category. Allowed values: "
                                 ++ allowed_categories_repr))
             | _ => Raise (unprocessable
                             (lit "Invalid category. Allowed values: "
                              ++ allowed_categories_repr))
             end
           else Ok tt
       | None => Ok tt
       end ;;
  _ <- match dict_get d (lit "priority") with
       | Some PNone | None => Ok tt
       | Some p =>
           match as_int p with
           | Some z => if (z <? 1) || (5 <? z)
                       then Raise (unprocessable
                                     (lit "Priority must be between 1 and 5"))
                       else Ok tt
           | None => Raise (unprocessable (lit "Priority must be between 1 and 5"))
           end
       end ;;
  _ <- match dict_get d (lit "estimated_time") with
       | Some PNone | None => Ok tt
       | Some e =>
           match as_int e with
           | Some z =>
               if z <? 0 then
                 Raise (unprocessable
                          (lit "Estimated time must be a non-negative integer"))
               else if 1440 <? z then
                 Raise (unprocessable
                   (lit "Estimated time cannot exceed 1440 minutes (24 hours)"))
               else Ok tt
           | None => Raise (unprocessable
                         (lit "Estimated time must be a non-negative integer"))
           end
       end ;;
  Ok d.

(** The response body of [/ai/analyze-batch]. *)
Record BatchResponse := mkBatchResponse {
  analysis : pystr;
  todo_count : nat;
  original_count : nat
}.

(** The per-item loop: an [HTTPException] skips the item, any other
    exception leaves the loop. *)
Fixpoint validate_all (todos : list pydict) : res (list pydict) :=
  match todos with
  | [] => Ok []
  | t :: ts =>
      match validate_todo_data t with
      | Ok v => rest <- validate_all ts ;; Ok (v :: rest)
      | Raise (HTTPException _ _) => validate_all ts
      | Raise e => Raise e
      end
  end.

Section Batch.

(** [batch_analyzer.analyze]: it catches every exception itself. *)
Variable analyze : list pydict -> pystr.

(** The [try] block of [analyze_batch]. *)
Definition analyze_batch_try (todos : list pydict) : res BatchResponse :=
  if (100 <? List.length todos)%nat then
    Raise (unprocessable (lit "Batch size cannot exceed 100 todos"))
  else if (List.length todos =? 0)%nat then
    Raise (unprocessable (lit "Batch cannot be empty"))
  else
    validated <- validate_all todos ;;
    Ok (mkBatchResponse (analyze validated) (List.length validated)
          (List.length todos)).

(** [analyze_batch]: [HTTPException] is re-raised, anything else becomes a
    500 [HTTPException]; the result is the status code and the body. *)
Definition analyze_batch (todos : list pydict) : Z * option BatchResponse :=
  match analyze_batch_try todos with
  | Ok r => (200, Some r)
  | Raise (HTTPException c _) => (c, None)
  | Raise _ => (500, None)
  end.

End Batch.

End AiMain.

(** ** Todo service: the other route handlers ([services/todo/app/main.py]) *)

Module TodoApi.
Import Crud.

(** "할 일을 찾을 수 없습니다" *)
Definition not_found_detail : pystr :=
  [54624; 32; 51068; 51012; 32; 52286; 51012; 32; 49688; 32; 50630; 49845;
   45768; 45796].
(** "할 일 조회 중 오류가 발생했습니다" *)
Definition get_error_detail : pystr :=
  [54624; 32; 51068; 32; 51312; 54924; 32; 51473; 32; 50724; 47448; 44032;
   32; 48156; 49373; 54664; 49845; 45768; 45796].
(** "할 일 업데이트 중 오류가 발생했습니다" *)
Definition update_error_detail : pystr :=
  [54624; 32; 51068; 32; 50629; 45936; 51060; 53944; 32; 51473; 32; 50724;
   47448; 44032; 32; 48156; 49373; 54664; 49845; 45768; 45796].
(** "할 일 상태 업데이트 중 오류가 발생했습니다" *)
Definition status_error_detail : pystr :=
  [54624; 32; 51068; 32; 49345; 53468; 32; 50629; 45936; 51060; 53944; 32;
   51473; 32; 50724; 47448; 44032; 32; 48156; 49373; 54664; 49845; 45768;
   45796].
(** "할 일 삭제 중 오류가 발생했습니다" *)
Definition delete_error_detail : pystr :=
  [54624; 32; 51068; 32; 49325; 51228; 32; 51473; 32; 50724; 47448; 44032;
   32; 48156; 49373; 54664; 49845; 45768; 45796].
(** "할 일 목록 조회 중 오류가 발생했습니다" *)
Definition list_error_detail : pystr :=
  [54624; 32; 51068; 32; 47785; 47197; 32; 51312; 54924; 32; 51473; 32;
   50724; 47448; 44032; 32; 48156; 49373; 54664; 49845; 45768; 45796].

(** [validate_status(status)] *)
Definition validate_status (s : pystr) : res pystr :=
  if str_in s [lit "TODO"; lit "DOING"; lit "DONE"] then Ok s
  else Raise (HTTPException 422
                (lit "Invalid status. Allowed values: ['TODO', 'DOING', 'DONE']")).

(** [validate_estimated_time(estimated_time)]; Pydantic has already made
    the value an [int]. *)
Definition validate_estimated_time (e : option Z) : res (option Z) :=
  match e with
  | None => Ok None
  | Some v =>
      if v <? 0 then
        Raise (HTTPException 422
                 (lit "Estimated time must be a non-negative integer"))
      else if 1440 <? v then
        Raise (HTTPException 422
                 (lit "Estimated time cannot exceed 1440 minutes (24 hours)"))
      else Ok (Some v)
  end.

(** Code that touches nothing: a pure Python computation. *)
Definition lift {A} (r : res A) : M A := fun w => (r, w).

(** [try: m except HTTPException: raise except Exception: raise
    HTTPException(status_code=500, detail=detail)] *)
Definition guard_http {A} (detail : pystr) (m : M A) : M A :=
  try_except m (fun e => match e with
                         | HTTPException _ _ => raise e
                         | OtherError _ => raise (HTTPException 500 detail)
                         end).

(** The status code of a route whose normal answer is [ok], and the world
    after it. *)
Definition respond {A} (ok : Z) (p : res A * World) : Z * World :=
  (match fst p with Ok _ => ok | Raise e => route_status e end, snd p).

(** *** [GET /todos/{todo_id}] *)

(** [crud.get_cached_todo(todo_id)]: [redis_client.get] of ["todo:{id}"].
    The cached JSON is [todo.to_dict()] of a row, which the route returns
    as the response, so it is represented by that row; a GET on a key that
    holds a set raises [ResponseError] (WRONGTYPE). *)
Definition get_cached_todo (tid : Z) : M (option Todo) :=
  fun w => if redis_up w then
             match rlookup (redis w) (KTodo tid) with
             | Some (RStr t) => (Ok (Some t), w)
             | Some (RSet _) => (Raise (OtherError "ResponseError"), w)
             | None => (Ok None, w)
             end
           else (Raise (OtherError "ConnectionError"), w).

(** [get_todo(request, todo_id, db)] *)
Definition get_todo (tid : Z) : M Todo :=
  guard_http get_error_detail
    (cached_todo <-- get_cached_todo tid ;;
     match cached_todo with
     | Some t => ret t
     | None =>
         db_todo <-- Crud.get_todo tid ;;
         match db_todo with
         | None => raise (HTTPException 404 not_found_detail)
         | Some r => cache_todo r ;;; ret r
         end
     end).

Definition get_todo_status (tid : Z) (w : World) : Z * World :=
  respond 200 (get_todo tid w).

(** *** [PUT /todos/{todo_id}] *)

(** The [Field] constraints of [schemas.TodoUpdate] on the fields the
    payload sets to a value; FastAPI answers a violation with 422. *)
Definition todo_update_valid (u : TodoUpdate) : bool :=
  match u_title u with
  | Some (Some t) => (1 <=? List.length t)%nat && (List.length t <=? 255)%nat
  | _ => true
  end
  && match u_priority u with
     | Some (Some p) => (1 <=? p) && (p <=? 5)
     | _ => true
     end
  && match u_category u with
     | Some (Some c) => (List.length c <=? 50)%nat
     | _ => true
     end
  && match u_estimated_time u with
     | Some (Some e) => 0 <=? e
     | _ => true
     end.

(** The checks of the [try] block of [update_todo] on the fields that are
    not [None]; a field keeps its place among the supplied fields. *)
Definition validate_update (u : TodoUpdate) : res TodoUpdate :=
  t <- match u_title u with
       | Some (Some t) =>
           match sanitize_string (Some t) 255 with
           | Some ((_ :: _) as t') => Ok (Some (Some t'))
           | _ => Raise (HTTPException 422 (lit "Title cannot be empty"))
           end
       | x => Ok x
       end ;;
  d <- match u_description u with
       | Some (Some d) => Ok (Some (sanitize_string (Some d) 2000))
       | x => Ok x
       end ;;
  p <- match u_priority u with
       | Some (Some p) => v <- TodoMain.validate_priority (Some p) ;; Ok (Some v)
       | x => Ok x
       end ;;
  c <- match u_category u with
       | Some (Some c) => v <- TodoMain.validate_category (Some c) ;; Ok (Some v)
       | x => Ok x
       end ;;
  e <- match u_estimated_time u with
       | Some (Some e) => v <- validate_estimated_time (Some e) ;; Ok (Some v)
       | x => Ok x
       end ;;
  Ok (mkTodoUpdate t d p c e).

(** [update_todo(request, todo_id, todo, db)] *)
Definition update_todo (tid : Z) (u : TodoUpdate) : M Todo :=
  guard_http update_error_detail
    (u' <-- lift (validate_update u) ;;
     db_todo <-- Crud.update_todo tid u' ;;
     match db_todo with
     | None => raise (HTTPException 404 not_found_detail)
     | Some r => ret r
     end).

Definition put_todo_status (tid : Z) (u : TodoUpdate) (w : World) : Z * World :=
  if negb (todo_update_valid u) then (422, w)
  else respond 200 (update_todo tid u w).

(** *** [PATCH /todos/{todo_id}/status] *)

(** [update_todo_status(request, todo_id, status_update, db)]; Pydantic has
    made [status_update.status] a member of [TodoStatus], a [str] enum. *)
Definition update_todo_status (tid : Z) (s : TodoStatus) : M Todo :=
  guard_http status_error_detail
    (_ <-- lift (validate_status (status_name s)) ;;
     db_todo <-- Crud.update_todo_status tid s ;;
     match db_todo with
     | None => raise (HTTPException 404 not_found_detail)
     | Some r => ret r
     end).

Definition patch_status_status (tid : Z) (s : TodoStatus) (w : World)
  : Z * World :=
  respond 200 (update_todo_status tid s w).

(** *** [DELETE /todos/{todo_id}] *)

(** [delete_todo(request, todo_id, db)] *)
Definition delete_todo (tid : Z) : M unit :=
  guard_http delete_error_detail
    (success <-- Crud.delete_todo tid ;;
     if success then ret tt
     else raise (HTTPException 404 not_found_detail)).

Definition delete_status (tid : Z) (w : World) : Z * World :=
  respond 204 (delete_todo tid w).

(** *** [POST /todos], with its effects *)

(** [create_todo(request, todo, db)]: [TodoMain.create_todo_try] with the
    call of [crud.create_todo] performed on the world ([new_id] is the
    [uuid4] default of the new row). *)
Definition create_todo (new_id : Z) (todo : TodoMain.TodoCreate) : M Todo :=
  fun w =>
    match TodoMain.create_todo_try _ (fun t => Ok t) todo with
    | Raise _ => (Raise (HTTPException 500 TodoMain.create_error_detail), w)
    | Ok t =>
        match Crud.create_todo new_id t w with
        | (Ok r, w') => (Ok r, w')
        | (Raise _, w') =>
            (Raise (HTTPException 500 TodoMain.create_error_detail), w')
        end
    end.

Definition post_todos (new_id : Z) (todo : TodoMain.TodoCreate) (w : World)
  : Z * World :=
  if negb (TodoMain.todo_create_valid todo) then (422, w)
  else respond 201 (create_todo new_id todo w).

(** *** [GET /todos] *)

(** [crud.get_todos_count(db, status, category, priority)] *)
Definition get_todos_count (rows : list Todo) (st : option pystr)
    (cat : option pystr) (prio : option Z) : res nat :=
  rows1 <- match st with
           | Some s =>
               if truthy (PStr s)
               then v <- status_filter s ;;
                    Ok (List.filter (fun r => match status r, v with
                                              | TODO, TODO | DOING, DOING
                                              | DONE, DONE => true
                                              | _, _ => false
                                              end) rows)
               else Ok rows
           | None => Ok rows
           end ;;
  let rows2 := match cat with
               | Some c => if truthy (PStr c)
                           then List.filter (fun r => opt_eqb (category r) (Some c)) rows1
                           else rows1
               | None => rows1
               end in
  let rows3 := match prio with
               | Some p => if negb (p =? 0)
                           then List.filter (fun r => match priority r with
                                                      | Some q => q =? p
                                                      | None => false
                                                      end) rows2
                           else rows2
               | None => rows2
               end in
  Ok (List.length rows3).


(** [get_todos(request, page, page_size, status, category, priority,
    sort_by, order, db)]: the [total] and the [items] of the response. *)
Definition get_todos (page page_size : nat) (st cat : option pystr)
    (prio : option Z) (sort_by order : pystr) : M (nat * list Todo) :=
  guard_http list_error_detail
    (fun w =>
       (let skip := ((page - 1) * page_size)%nat in
        todos <- Crud.get_todos (db w) skip page_size st cat prio sort_by order ;;
        total <- get_todos_count (db w) st cat prio ;;
        Ok (total, todos), w)).


(** *** [GET /todos/stats/summary] *)

Definition status_count (rows : list Todo) (s : TodoStatus) : nat :=
  List.length (List.filter (fun r => match status r, s with
                                     | TODO, TODO | DOING, DOING
                                     | DONE, DONE => true
                                     | _, _ => false
                                     end) rows).

Record Stats := mkStats {
  stats_total : nat;
  stats_todo : nat;
  stats_doing : nat;
  stats_done : nat;
  completion_rate : pyval
}.

Section TodoStats.

(** [round(done_count / total * 100, 2)] for [total > 0], on doubles. *)
Variable rounded_rate : nat -> nat -> pyval.

(** [get_todo_stats(db)] *)
Definition get_todo_stats (rows : list Todo) : Stats :=
  let total := List.length rows in
  let done_count := status_count rows DONE in
  mkStats total (status_count rows TODO) (status_count rows DOING) done_count
    (if (0 <? total)%nat then rounded_rate done_count total else PInt 0).

End TodoStats.

End TodoApi.

(** ** AI service: the full pipeline behind [/ai/parse] *)

Module AiFlow.
Import Agents.

(** "우선순위 분석 중 오류가 발생했습니다" *)
Definition priority_error_text : pystr :=
  [50864; 49440; 49692; 50948; 32; 48516; 49437; 32; 51473; 32; 50724; 47448;
   44032; 32; 48156; 49373; 54664; 49845; 45768; 45796].
(** "카테고리 분류 중 오류가 발생했습니다" *)
Definition category_error_text : pystr :=
  [52852; 53580; 44256; 47532; 32; 48516; 47448; 32; 51473; 32; 50724; 47448;
   44032; 32; 48156; 49373; 54664; 49845; 45768; 45796].
(** "시간 추정 중 오류가 발생했습니다" *)
Definition time_error_text : pystr :=
  [49884; 44036; 32; 52628; 51221; 32; 51473; 32; 50724; 47448; 44032; 32;
   48156; 49373; 54664; 49845; 45768; 45796].

(** The float literal [0.3] of the fallbacks. *)
Definition fallback_confidence : pyval := PFloat (3 # 10).

(** [PriorityRecommenderAgent.recommend] without its decorator.  The [try]
    block reads [todo_data.get(...)] to build the prompt, so a [todo_data]
    that is not a dict raises [AttributeError] there and again in the
    [except] clause; otherwise the decoded JSON is returned as is, and every
    error gives the fallback. *)
Definition recommend_once (todo_data : pyval) (o : LlmOutcome) : res pyval :=
  match todo_data with
  | PDict d =>
      match o with
      | LlmContent (Some v) => Ok v
      | _ => Ok (PDict [(lit "recommended_priority",
                         match dict_get d (lit "priority") with
                         | Some p => p
                         | None => PInt 3
                         end);
                        (lit "reasoning", PStr priority_error_text);
                        (lit "confidence", fallback_confidence)])
      end
  | _ => Raise (OtherError "AttributeError")
  end.

Definition category_fallback : pyval :=
  PDict [(lit "category", PStr ko_other);
         (lit "confidence", fallback_confidence);
         (lit "reasoning", PStr category_error_text)].

(** [CategoryClassifierAgent.categorize] without its decorator: its
    [except] clause does not read [todo_data]. *)
Definition categorize_once (todo_data : pyval) (o : LlmOutcome) : res pyval :=
  match todo_data, o with
  | PDict _, LlmContent (Some v) => Ok v
  | _, _ => Ok category_fallback
  end.

Definition time_fallback : pyval :=
  PDict [(lit "estimated_minutes", PInt 30);
         (lit "confidence", fallback_confidence);
         (lit "suggestion", PStr time_error_text)].

(** [TimeEstimatorAgent.estimate] without its decorator. *)
Definition estimate_once (todo_data : pyval) (o : LlmOutcome) : res pyval :=
  match todo_data, o with
  | PDict _, LlmContent (Some v) => Ok v
  | _, _ => Ok time_fallback
  end.

(** The LLM's answers to the four agents, by attempt. *)
Record Llm := mkLlm {
  llm_parse : nat -> LlmOutcome;
  llm_priority : nat -> LlmOutcome;
  llm_category : nat -> LlmOutcome;
  llm_time : nat -> LlmOutcome
}.

(** The decorated agent methods ([max_retries=3]). *)
Definition recommend (llm : Llm) (todo_data : pyval) : option (res pyval) :=
  with_exponential_backoff 3 (fun k => recommend_once todo_data (llm_priority llm k)).
Definition categorize (llm : Llm) (todo_data : pyval) : option (res pyval) :=
  with_exponential_backoff 3 (fun k => categorize_once todo_data (llm_category llm k)).
Definition estimate (llm : Llm) (todo_data : pyval) : option (res pyval) :=
  with_exponential_backoff 3 (fun k => estimate_once todo_data (llm_time llm k)).

(** A node's update: the value it writes to its channel, if any, and the
    entries it adds to [errors] (the message [f"... error: {e}"] is
    represented by the exception [e]).  A method that falls off its retry
    loop returns [None], written as [PNone]. *)
Definition node_update (r : option (res pyval)) : option pyval * list exn :=
  match r with
  | Some (Ok v) => (Some v, [])
  | Some (Raise e) => (None, [e])
  | None => (Some PNone, [])
  end.

(** [parse_input] *)
Definition parse_input (llm : Llm) (input_text : pystr) : option pyval * list exn :=
  node_update (match Agents.parse input_text (llm_parse llm) with
               | Some (Ok d) => Some (Ok (PDict d))
               | Some (Raise e) => Some (Raise e)
               | None => None
               end).

(** [recommend_priority], [classify_category] and [estimate_time]: the
    agent runs only when [state.get("parsed_todo")] is truthy. *)
Definition suggestion_node (agent : pyval -> option (res pyval))
    (parsed_todo : pyval) : option pyval * list exn :=
  if truthy parsed_todo then node_update (agent parsed_todo) else (None, []).

Definition channel (old : pyval) (upd : option pyval) : pyval :=
  match upd with Some v => v | None => old end.

(** [todo_processing_workflow.ainvoke(initial_state)]: [parse_input], then
    the three suggestion nodes in one step (each reads the state that
    [parse_input] left), then [aggregate_results]; the channels start as
    [{}] and [errors] accumulates with [operator.add].  The result is
    [final_todo] and [errors]. *)
Definition run_workflow (llm : Llm) (input_text : pystr) : pyval * list exn :=
  let (p, e1) := parse_input llm input_text in
  let parsed := channel (PDict []) p in
  let (pr, e2) := suggestion_node (recommend llm) parsed in
  let (cc, e3) := suggestion_node (categorize llm) parsed in
  let (te, e4) := suggestion_node (estimate llm) parsed in
  let st := Workflow.mkTodoState parsed (channel (PDict []) pr)
              (channel (PDict []) cc) (channel (PDict []) te) in
  match Workflow.aggregate_results st with
  | Workflow.SetFinalTodo f => (f, e1 ++ e2 ++ e3 ++ e4)
  | Workflow.AddErrors e5 => (PDict [], e1 ++ e2 ++ e3 ++ e4 ++ e5)
  end.

(** "자연어 파싱 중 오류가 발생했습니다" *)
Definition parse_error_detail : pystr :=
  [51088; 50672; 50612; 32; 54028; 49905; 32; 51473; 32; 50724; 47448; 44032;
   32; 48156; 49373; 54664; 49845; 45768; 45796].

(** The [try] block of [parse_natural_language]: the response's [todo] and
    [errors].  [aggregate_results] only ever writes dicts to [final_todo];
    a truthy value of another type is not given to [validate_todo_data]
    here and counts as an error. *)
Definition parse_try (llm : Llm) (text : pystr) : res (pyval * list exn) :=
  match sanitize_string (Some text) 500 with
  | None | Some [] => Raise (HTTPException 422 (lit "Input text cannot be empty"))
  | Some sanitized_text =>
      let (final_todo, errors) := run_workflow llm sanitized_text in
      final_todo <- (if truthy final_todo then
                       match final_todo with
                       | PDict d => v <- AiMain.validate_todo_data d ;; Ok (PDict v)
                       | _ => Raise (OtherError "TypeError")
                       end
                     else Ok final_todo) ;;
      Ok (final_todo, errors)
  end.

(** [POST /ai/parse]: the [ParseRequest] constraint [1 <= len(text) <= 500]
    (422 when violated), then the handler, which re-raises [HTTPException]
    and turns any other exception into a 500. *)
Definition parse_natural_language (llm : Llm) (text : pystr)
  : Z * option (pyval * list exn) :=
  if negb ((1 <=? List.length text)%nat && (List.length text <=? 500)%nat)
  then (422, None)
  else match parse_try llm text with
       | Ok r => (200, Some r)
       | Raise (HTTPException c _) => (c, None)
       | Raise (OtherError _) => (500, None)
       end.

(** *** [POST /ai/recommend-priority], [/ai/categorize], [/ai/estimate-time] *)

(** [TodoData], the [todo] of the three request bodies. *)
Record TodoData := mkTodoData {
  td_title : pystr;
  td_description : option pystr;
  td_category : option pystr;
  td_priority : option Z;
  td_estimated_time : option Z
}.

(** Its [Field] constraints, checked by Pydantic (422 when violated). *)
Definition todo_data_valid (t : TodoData) : bool :=
  (1 <=? List.length (td_title t))%nat && (List.length (td_title t) <=? 255)%nat
  && match td_priority t with Some p => (1 <=? p) && (p <=? 5) | None => true end.

Definition opt_pystr (o : option pystr) : pyval :=
  match o with Some s => PStr s | None => PNone end.
Definition opt_pyint (o : option Z) : pyval :=
  match o with Some z => PInt z | None => PNone end.

(** [request.todo.dict()]: every field, in declaration order. *)
Definition todo_data_dict (t : TodoData) : pydict :=
  [(lit "title", PStr (td_title t)); (lit "description", opt_pystr (td_description t));
   (lit "category", opt_pystr (td_category t));
   (lit "priority", opt_pyint (td_priority t));
   (lit "estimated_time", opt_pyint (td_estimated_time t))].

(** A one-node workflow ([create_priority_workflow] and its two siblings)
    run with [ainvoke], then [result.get(key, {})]: the node writes the
    agent's result to the channel; an exception of the agent leaves
    [ainvoke]. *)
Definition single_node (agent : pyval -> option (res pyval)) (todo_data : pyval)
  : res pyval :=
  match agent todo_data with
  | Some (Ok v) => Ok v
  | Some (Raise e) => Raise e
  | None => Ok PNone
  end.

(** [recommend_priority]: [validate_todo_data] on the body's [todo], then the
    priority workflow; [HTTPException]s are re-raised, other exceptions
    become 500.  The response's [recommendation]. *)
Definition recommend_priority (llm : Llm) (t : TodoData) : Z * option pyval :=
  if negb (todo_data_valid t) then (422, None)
  else match (d <- AiMain.validate_todo_data (todo_data_dict t) ;;
              single_node (recommend llm) (PDict d)) with
       | Ok v => (200, Some v)
       | Raise (HTTPException c _) => (c, None)
       | Raise (OtherError _) => (500, None)
       end.

(** [categorize_todo]: the body's [todo] goes to the category workflow
    unvalidated; every exception becomes 500.  The [classification]. *)
Definition categorize_todo (llm : Llm) (t : TodoData) : Z * option pyval :=
  if negb (todo_data_valid t) then (422, None)
  else match single_node (categorize llm) (PDict (todo_data_dict t)) with
       | Ok v => (200, Some v)
       | Raise _ => (500, None)
       end.

(** [estimate_time]: as [categorize_todo], with the time workflow.  The
    [estimation]. *)
Definition estimate_time (llm : Llm) (t : TodoData) : Z * option pyval :=
  if negb (todo_data_valid t) then (422, None)
  else match single_node (estimate llm) (PDict (todo_data_dict t)) with
       | Ok v => (200, Some v)
       | Raise _ => (500, None)
       end.

End AiFlow.

(** The members of the list tag ([redis_client.smembers]). *)
Definition tagged (r : list (Crud.RKey * Crud.RVal)) : list Crud.RKey :=
  match Crud.rlookup r Crud.KListTag with
  | Some (Crud.RSet ms) => ms
  | _ => []
  end.

(** * Test inputs and auxiliary definitions *)

(** Requests [k] (for [k < n]) from one client to [path], at time [k/2]. *)
Definition burst (path : pystr) (n : nat) : list (pystr * pystr * Q) :=
  List.map (fun k => (path, lit "10.0.0.1", inject_Z (Z.of_nat k) / 2)%Q)
           (seq 0 n).

Definition sample_row : Crud.Todo :=
  Crud.mkTodo 1 (Some (lit "Write report")) None Crud.TODO (Some 3) None None
    None 0 0.

(** Redis unreachable, one stored task. *)
Definition redis_down_world : Crud.World :=
  Crud.mkWorld [sample_row] [] false 5.

Definition retitle : Crud.TodoUpdate :=
  Crud.mkTodoUpdate (Some (Some (lit "Write final report"))) None None None None.

Definition row_a : Crud.Todo :=
  Crud.mkTodo 1 (Some (lit "a")) None Crud.TODO (Some 5) None None None 10 10.
Definition row_b : Crud.Todo :=
  Crud.mkTodo 2 (Some (lit "b")) None Crud.DONE (Some 1) None None None 20 20.

Definition llm_priority_9 : nat -> Agents.LlmOutcome :=
  fun _ => Agents.LlmContent
             (Some (PDict [(lit "title", PStr (lit "Gym")); (lit "priority", PInt 9)])).

(** The defaults [parse] fills in. *)
Definition parse_defaults (d : pydict) : pydict :=
  dict_setdefault (dict_setdefault (dict_setdefault d (lit "priority") (PInt 3))
                     (lit "category") (PStr ko_other))
    (lit "estimated_time") (PInt 30).

Definition agg_state (cp cc ct : Q) : Workflow.TodoState :=
  Workflow.mkTodoState
    (PDict [(lit "title", PStr (lit "Write report")); (lit "priority", PInt 3);
            (lit "category", PStr ko_other); (lit "estimated_time", PInt 30)])
    (PDict [(lit "recommended_priority", PInt 5); (lit "confidence", PFloat cp);
            (lit "reasoning", PStr (lit "deadline"))])
    (PDict [(lit "category", PStr ko_work); (lit "confidence", PFloat cc)])
    (PDict [(lit "estimated_minutes", PInt 90); (lit "confidence", PFloat ct)]).

(** The payloads whose commit passes the column constraints on a valid row:
    [title] and [priority] not set to [null], lengths within bounds. *)
Definition payload_ok (u : Crud.TodoUpdate) : bool :=
  match Crud.u_title u with
  | Some (Some t) => (List.length t <=? 255)%nat
  | Some None => false
  | None => true
  end
  && match Crud.u_priority u with Some None => false | _ => true end
  && match Crud.u_category u with
     | Some (Some c) => (List.length c <=? 50)%nat
     | _ => true
     end.

(** Code that leaves the table alone, whether it returns or raises. *)
Definition keeps_db {A} (m : Crud.M A) : Prop :=
  forall w, Crud.db (snd (m w)) = Crud.db w.

(** Redis reachable, one stored task. *)
Definition redis_up_world : Crud.World :=
  Crud.mkWorld [sample_row] [] true 5.


(** The characters [html.escape] replaces by entities, besides ['&']. *)
Definition markup_char (c : Z) : bool :=
  (c =? 60) || (c =? 62) || (c =? 34) || (c =? 39).

Definition suffix (r s : pystr) : Prop := exists p, s = p ++ r.

(** A matcher that only ever returns a suffix of its input. *)
Definition suffix_matcher (m : pystr -> option pystr) : Prop :=
  forall s r, m s = Some r -> suffix r s.

(** [redis_client.delete] of the keys [ks] *)
Definition rdel (ks : list Crud.RKey) (r : list (Crud.RKey * Crud.RVal))
  : list (Crud.RKey * Crud.RVal) :=
  List.filter (fun '(k, _) => negb (existsb (Crud.rkey_eqb k) ks)) r.

(** The list-cache invalidation, with Redis reachable. *)
Definition invalidated (r : list (Crud.RKey * Crud.RVal))
  : list (Crud.RKey * Crud.RVal) :=
  match tagged r with
  | [] => r
  | ks => rdel [Crud.KListTag] (rdel ks r)
  end.

(** What a successful create, update or status update leaves in the cache:
    the entry of the task written, the list tag holding only that entry,
    and the entries the tag held before evicted. *)
Definition cache_coherent (w w' : Crud.World) (t : Crud.Todo) : Prop :=
  Crud.rlookup (Crud.redis w') (Crud.KTodo (Crud.id t)) = Some (Crud.RStr t)
  /\ Crud.rlookup (Crud.redis w') Crud.KListTag
     = Some (Crud.RSet [Crud.KTodo (Crud.id t)])
  /\ forall j, j <> Crud.id t -> In (Crud.KTodo j) (tagged (Crud.redis w)) ->
       Crud.rlookup (Crud.redis w') (Crud.KTodo j) = None.

Definition post_commit_redis (t : Crud.Todo) (r : list (Crud.RKey * Crud.RVal))
  : list (Crud.RKey * Crud.RVal) :=
  Crud.rput (Crud.rput (invalidated r) (Crud.KTodo (Crud.id t)) (Crud.RStr t))
    Crud.KListTag (Crud.RSet [Crud.KTodo (Crud.id t)]).

Definition is_422 (e : exn) : Prop := exists d, e = HTTPException 422 d.

(** The category of a creation payload passes [validate_category]: absent,
    empty, or one of the allowed values. *)
Definition category_allowed (c : option pystr) : bool :=
  match c with
  | None => true
  | Some [] => true
  | Some v => str_in v allowed_categories
  end.

(** The rows the filters of [GET /todos] keep: a non-empty [status] names
    the row's status, a non-empty [category] equals the row's, a non-zero
    [priority] equals the row's. *)
Definition row_matches (st cat : option pystr) (prio : option Z)
    (r : Crud.Todo) : bool :=
  match st with
  | Some ((_ :: _) as s) => pystr_eqb (Crud.status_name (Crud.status r)) s
  | _ => true
  end
  && match cat with
     | Some ((_ :: _) as c) => Crud.opt_eqb (Crud.category r) (Some c)
     | _ => true
     end
  && match prio with
     | Some p => if p =? 0 then true
                 else match Crud.priority r with
                      | Some q => q =? p
                      | None => false
                      end
     | None => true
     end.

(** The fields of a dict that [validate_todo_data] accepts: a [priority]
    that is not [None] is an integer in 1-5, an [estimated_time] that is
    not [None] an integer in 0-1440, a truthy [category] one of the allowed
    strings. *)
Definition fields_in_range (d : pydict) : Prop :=
  match dict_get d (lit "priority") with
  | None | Some PNone => True
  | Some p => exists z, AiMain.as_int p = Some z /\ 1 <= z <= 5
  end
  /\ match dict_get d (lit "estimated_time") with
     | None | Some PNone => True
     | Some e => exists z, AiMain.as_int e = Some z /\ 0 <= z <= 1440
     end
  /\ match dict_get d (lit "category") with
     | None => True
     | Some c => truthy c = true -> exists s, c = PStr s /\ str_in s allowed_categories = true
     end.

(** An LLM answer [parse], [recommend], [categorize] and [estimate] treat
    as an error: [ainvoke] raises, or the content is not JSON. *)
Definition llm_fails (o : Agents.LlmOutcome) : bool :=
  match o with Agents.LlmContent (Some _) => false | _ => true end.

(** The [todo] of the [/ai/parse] response when every LLM call fails and
    the title sanitizes to [t]: the parse fallback, the three 0.3
    confidences, and [processed]. *)
Definition ai_fallback_todo (t : pystr) : pydict :=
  [(lit "title", PStr t); (lit "description", PNone); (lit "priority", PInt 3);
   (lit "category", PStr ko_other); (lit "estimated_time", PInt 30);
   (lit "ai_metadata",
    PDict [(lit "priority_confidence", AiFlow.fallback_confidence);
           (lit "category_confidence", AiFlow.fallback_confidence);
           (lit "time_confidence", AiFlow.fallback_confidence);
           (lit "processed", PBool true)])].

(** The fallback of [PriorityRecommenderAgent.recommend] for a task whose
    [priority] entry is [p]. *)
Definition priority_fallback (p : pyval) : pyval :=
  PDict [(lit "recommended_priority", p);
         (lit "reasoning", PStr AiFlow.priority_error_text);
         (lit "confidence", AiFlow.fallback_confidence)].


(** Request times never decrease along the sequence. *)
Fixpoint times_sorted (reqs : list (pystr * pystr * Q)) : bool :=
  match reqs with
  | [] => true
  | (_, _, t) :: reqs' =>
      forallb (fun '(_, _, t') => Qle_bool t t') reqs' && times_sorted reqs'
  end.

(** The times of the requests from [ip] that went through the rate check
    and were let through ([/health] requests are not checked). *)
Fixpoint passed_times (ip : pystr) (reqs : list (pystr * pystr * Q))
    (steps : list RateLimit.MwStep) : list Q :=
  match reqs, steps with
  | (path, ip', t) :: reqs', s :: steps' =>
      (if pystr_eqb ip ip' && negb (RateLimit.ends_with path (lit "/health"))
          && match s with RateLimit.CallNext => true | _ => false end
       then [t] else [])
      ++ passed_times ip reqs' steps'
  | _, _ => []
  end.

(** The stored list of every client agrees, on every window from [t0] on,
    with the history [h] of the requests it let through. *)
Definition counts_agree (m : RateLimit.Counts) (h : pystr -> list Q) (t0 : Q)
  : Prop :=
  forall ip t, (t0 <= t)%Q ->
    List.filter (RateLimit.in_window t) (RateLimit.counts_get m ip)
    = List.filter (RateLimit.in_window t) (h ip).


(** Redis unreachable, one stored task whose cache entry is still there. *)
Definition stale_world : Crud.World :=
  Crud.mkWorld [sample_row] [(Crud.KTodo 1, Crud.RStr sample_row)] false 5.

(** Redis reachable, one stored task, cached. *)
Definition cached_world : Crud.World :=
  Crud.mkWorld [sample_row] [(Crud.KTodo 1, Crud.RStr sample_row)] true 5.

Definition two_rows_world : Crud.World :=
  Crud.mkWorld [row_a; row_b] [] true 5.

(** Sixty ampersands: 60 characters, 300 once escaped. *)
Definition amp_title : pystr := repeat 38%Z 60.

(** A model that never answers with content. *)
Definition fail_llm : AiFlow.Llm :=
  AiFlow.mkLlm (fun _ => Agents.LlmContent None) (fun _ => Agents.LlmContent None)
    (fun _ => Agents.LlmContent None) (fun _ => Agents.LlmContent None).

Definition done_row : Crud.Todo :=
  Crud.touch (Crud.set_status sample_row Crud.DONE) 5.

Definition done_world : Crud.World :=
  Crud.mkWorld [done_row]
    [(Crud.KListTag, Crud.RSet [Crud.KTodo 1]); (Crud.KTodo 1, Crud.RStr done_row)]
    true 5.

Definition third_try (k : nat) : res Z :=
  if (k =? 2)%nat then Ok 7 else Raise (OtherError "TimeoutError").

(** Three requests from one client, one second apart. *)
Definition window_reqs : list (pystr * pystr * Q) :=
  [(lit "/todos", lit "10.0.0.1", 0%Q); (lit "/todos", lit "10.0.0.1", 1%Q);
   (lit "/todos", lit "10.0.0.1", 2%Q)].

Definition gym : AiFlow.TodoData := AiFlow.mkTodoData (lit "Gym") None None None None.

(** * Properties *)

(** ** Sanitization and creation *)

(** C6: one pass of [re.sub] over [on\w+\s*=] can join the text around a
    removed match into a new [onerror=]: the input
    ["oonerror=nerror=x"] contains [onerror=] and so does its sanitized
    form ["onerror=x"]. *)
Theorem sanitize_reassembles_onerror :
  str_contains (lit "onerror=") (lit "oonerror=nerror=x") = true
  /\ sanitize_string (Some (lit "oonerror=nerror=x")) 1000
     = Some (lit "onerror=x")
  /\ str_contains (lit "onerror=") (lit "onerror=x") = true.
Proof. vm_compute. repeat split. Qed.

(** C1: [create_todo]'s [except Exception] also catches the 422
    [HTTPException]s of its own checks.  A payload that Pydantic accepts
    but whose category is not allowed, or whose title sanitizes to the empty
    string, makes the check raise 422 and [POST /todos] answer 500,
    whatever [crud.create_todo] would do. *)
Theorem create_todo_validation_answers_500 :
  forall (A : Type) (crud_create_todo : TodoMain.TodoCreate -> res A),
    let bad_category :=
      TodoMain.mkTodoCreate (lit "Buy milk") None 3 (Some (lit "Shopping")) None in
    let blank_title :=
      TodoMain.mkTodoCreate (lit "   ") None 3 None None in
    (exists msg, TodoMain.create_todo_try A crud_create_todo bad_category
                 = Raise (HTTPException 422 msg))
    /\ TodoMain.post_todos_status A crud_create_todo bad_category = 500
    /\ TodoMain.create_todo_try A crud_create_todo blank_title
       = Raise (HTTPException 422 (lit "Title is required and cannot be empty"))
    /\ TodoMain.post_todos_status A crud_create_todo blank_title = 500.
Proof.
  intros A crud_create_todo bad_category blank_title.
  split; [eexists; vm_compute; reflexivity |].
  split; [vm_compute; reflexivity |].
  split; vm_compute; reflexivity.
Qed.

(** C7: an item whose title is a number makes [validate_todo_data] raise a
    [TypeError], which the per-item [except HTTPException] does not catch:
    the whole batch answers 500 and reports no counts. *)
Theorem analyze_batch_number_title_answers_500 :
  forall analyze : list pydict -> pystr,
    AiMain.analyze_batch analyze [[(lit "title", PInt 5)];
                                  [(lit "title", PStr (lit "Read a book"))]]
    = (500, None).
Proof. intros analyze. vm_compute. reflexivity. Qed.

(** ** Rate limiting *)

(** C8: in the Todo service, 101 requests from one client within 50
    seconds: the first 100 pass, the 101st makes the middleware raise
    [HTTPException(429)], and the client receives 500, because the
    exception is raised outside the routes. *)
Theorem rate_limit_rejection_served_as_500 :
  let (steps, _) := RateLimit.run_requests RateLimit.TODO_RATE_LIMIT_REQUESTS []
                      (burst (lit "/todos") 101) in
  firstn 100 steps = repeat RateLimit.CallNext 100
  /\ nth 100 steps RateLimit.CallNext
     = RateLimit.MwRaise (HTTPException 429 (lit "Too many requests"))
  /\ RateLimit.served_status 200 (nth 100 steps RateLimit.CallNext) = 500.
Proof. vm_compute. repeat split. Qed.

(** ** Cache failures after the commit *)

(** C2: [update_todo], [update_todo_status] and [delete_todo] call
    [redis_client.delete(f"todo:{todo_id}")] outside any [try]: with Redis
    unreachable each of them commits its change and then raises
    [ConnectionError], which the handler answers with 500; [create_todo],
    whose cache calls are all guarded, succeeds. *)
Theorem cache_failure_after_commit_reported :
  (let (r, w1) := Crud.update_todo 1 retitle redis_down_world in
   r = Raise (OtherError "ConnectionError")
   /\ option_map Crud.title (Crud.db_find 1 (Crud.db w1))
      = Some (Some (lit "Write final report"))
   /\ Crud.put_todo_status r = 500)
  /\ (let (r, w1) := Crud.update_todo_status 1 Crud.DONE redis_down_world in
      r = Raise (OtherError "ConnectionError")
      /\ option_map Crud.status (Crud.db_find 1 (Crud.db w1)) = Some Crud.DONE
      /\ Crud.put_todo_status r = 500)
  /\ (let (r, w1) := Crud.delete_todo 1 redis_down_world in
      r = Raise (OtherError "ConnectionError")
      /\ Crud.db w1 = []
      /\ Crud.delete_todo_status r = 500)
  /\ (exists t, fst (Crud.create_todo 2
                       (TodoMain.mkTodoCreate (lit "Call mom") None 2 None None)
                       redis_down_world) = Ok t).
Proof.
  split; [vm_compute; repeat split |].
  split; [vm_compute; repeat split |].
  split; [vm_compute; repeat split |].
  eexists. vm_compute. reflexivity.
Qed.

(** ** Listing *)

Lemma order_clause_unknown_attr :
  forall sort_by order,
    Crud.todo_class_attr sort_by = None ->
    Crud.order_clause sort_by order = Crud.order_clause (lit "created_at") order.
Proof.
  intros sort_by order H.
  unfold Crud.order_clause, Crud.getattr_default.
  rewrite H. reflexivity.
Qed.

(** C4: when [sort_by] names no attribute of [models.Todo], [get_todos]
    orders by [created_at] in the requested direction: its result is the
    one of [sort_by = "created_at"]. *)
Theorem get_todos_unknown_sort_by_falls_back :
  forall rows skip limit st cat prio sort_by order,
    Crud.todo_class_attr sort_by = None ->
    Crud.order_clause sort_by order
    = Ok (if pystr_eqb order (lit "desc") then Crud.Desc else Crud.Asc,
          Crud.CCreatedAt)
    /\ Crud.get_todos rows skip limit st cat prio sort_by order
       = Crud.get_todos rows skip limit st cat prio (lit "created_at") order.
Proof.
  intros rows skip limit st cat prio sort_by order H.
  split.
  - rewrite (order_clause_unknown_attr _ _ H). reflexivity.
  - unfold Crud.get_todos. rewrite (order_clause_unknown_attr _ _ H).
    reflexivity.
Qed.

Lemma get_todos_unknown_sort_by_falls_back_witness :
  Crud.todo_class_attr (lit "urgency") = None
  /\ Crud.order_clause (lit "urgency") (lit "desc") = Ok (Crud.Desc, Crud.CCreatedAt)
  /\ Crud.get_todos [row_a; row_b] 0 20 None None None (lit "urgency") (lit "desc")
     = Crud.get_todos [row_a; row_b] 0 20 None None None (lit "created_at")
         (lit "desc").
Proof.
  assert (H : Crud.todo_class_attr (lit "urgency") = None) by reflexivity.
  split; [exact H |].
  exact (get_todos_unknown_sort_by_falls_back [row_a; row_b] 0 20 None None None
           (lit "urgency") (lit "desc") H).
Defined.

Example get_todos_sort_by_class_name_fails :
  Crud.get_todos [row_a; row_b] 0 20 None None None (lit "__name__") (lit "desc")
  = Raise (OtherError "CompileError")
  /\ Crud.get_todos [row_a; row_b] 0 20 None None None (lit "mro") (lit "asc")
     = Raise (OtherError "ArgumentError").
Proof. split; vm_compute; reflexivity. Qed.

Example get_todos_urgency_desc :
  Crud.get_todos [row_a; row_b] 0 20 None None None (lit "urgency") (lit "desc")
  = Ok [row_b; row_a].
Proof. vm_compute. reflexivity. Qed.

(** ** The in-flight call counter *)

Lemma step_bounded :
  forall s s', Agents.step s s' ->
    0 <= Agents.concurrent_requests s <= Agents.MAX_CONCURRENT_REQUESTS ->
    0 <= Agents.concurrent_requests s' <= Agents.MAX_CONCURRENT_REQUESTS.
Proof.
  intros s s' Hs Hb; inversion Hs; subst; simpl in *;
    unfold Agents.release, Agents.MAX_CONCURRENT_REQUESTS in *; lia.
Qed.

(** C10: from the module's initial state, under every interleaving of
    acquires, sleeps, releases and unmatched releases,
    [_concurrent_requests] stays between 0 and 10. *)
Theorem concurrent_requests_bounded :
  forall n s,
    Agents.steps (Agents.initial n) s ->
    0 <= Agents.concurrent_requests s <= Agents.MAX_CONCURRENT_REQUESTS.
Proof.
  intros n s Hsteps.
  assert (Hinit : 0 <= Agents.concurrent_requests (Agents.initial n)
                  <= Agents.MAX_CONCURRENT_REQUESTS)
    by (simpl; unfold Agents.MAX_CONCURRENT_REQUESTS; lia).
  revert Hinit.
  induction Hsteps as [s0 | s1 s2 s3 H12 H23 IH]; intros Hb.
  - exact Hb.
  - apply IH. exact (step_bounded _ _ H12 Hb).
Qed.

(** A task takes a slot while another asks for one; then a release with no
    matching acquire. *)
Lemma concurrent_requests_bounded_witness :
  Agents.steps (Agents.initial 2)
    (Agents.mkSched 0 [Agents.Holding; Agents.Acquiring])
  /\ 0 <= Agents.concurrent_requests
            (Agents.mkSched 0 [Agents.Holding; Agents.Acquiring])
       <= Agents.MAX_CONCURRENT_REQUESTS.
Proof.
  assert (H : Agents.steps (Agents.initial 2)
                (Agents.mkSched 0 [Agents.Holding; Agents.Acquiring])).
  { eapply Agents.steps_cons.
    { apply (Agents.step_call 0 [Agents.Idle; Agents.Idle] 0). reflexivity. }
    simpl. eapply Agents.steps_cons.
    { apply (Agents.step_acquire 0 [Agents.Acquiring; Agents.Idle] 0).
      - reflexivity.
      - unfold Agents.MAX_CONCURRENT_REQUESTS; lia. }
    simpl. eapply Agents.steps_cons.
    { apply (Agents.step_call 1 [Agents.Holding; Agents.Idle] 1). reflexivity. }
    simpl. eapply Agents.steps_cons.
    { apply (Agents.step_unmatched_release 1 [Agents.Holding; Agents.Acquiring]). }
    apply Agents.steps_refl. }
  split; [exact H | exact (concurrent_requests_bounded 2 _ H)].
Defined.

(** ** The parse agent *)

(** C3 fails: when the LLM's JSON carries [priority: 9], [parse] returns it
    as is: the draft is not the fallback and its priority is outside 1-5. *)
Lemma parse_keeps_out_of_range_priority :
  exists d,
    Agents.parse (lit "gym at 7") llm_priority_9 = Some (Ok d)
    /\ d <> Agents.parse_fallback (lit "gym at 7")
    /\ dict_get d (lit "priority") = Some (PInt 9).
Proof.
  eexists. split; [vm_compute; reflexivity |].
  split; [vm_compute; discriminate | vm_compute; reflexivity].
Qed.

Lemma dict_get_set :
  forall d k v k',
    dict_get (dict_set d k v) k'
    = if pystr_eqb k' k then Some v else dict_get d k'.
Proof.
  induction d as [| [k0 v0] d IH]; intros k v k'; simpl.
  - reflexivity.
  - destruct (pystr_eqb k k0) eqn:E; simpl.
    + apply pystr_eqb_eq in E; subst k0.
      destruct (pystr_eqb k' k); reflexivity.
    + rewrite IH. destruct (pystr_eqb k' k0) eqn:E1, (pystr_eqb k' k) eqn:E2;
        try reflexivity.
      apply pystr_eqb_eq in E1; apply pystr_eqb_eq in E2; subst.
      rewrite (proj2 (pystr_eqb_eq k k) eq_refl) in E. discriminate.
Qed.

Lemma dict_get_setdefault :
  forall d k v k',
    dict_get (dict_setdefault d k v) k'
    = if pystr_eqb k' k
      then match dict_get d k with Some x => Some x | None => Some v end
      else dict_get d k'.
Proof.
  intros d k v k'. unfold dict_setdefault.
  destruct (dict_get d k) eqn:E.
  - destruct (pystr_eqb k' k) eqn:E'; [| reflexivity].
    apply pystr_eqb_eq in E'; subst. exact E.
  - apply dict_get_set.
Qed.
Lemma parse_defaults_get :
  forall d0 k,
    dict_get (parse_defaults d0) k
    = if pystr_eqb k (lit "estimated_time")
      then match dict_get d0 k with Some x => Some x | None => Some (PInt 30) end
      else if pystr_eqb k (lit "category")
      then match dict_get d0 k with Some x => Some x | None => Some (PStr ko_other) end
      else if pystr_eqb k (lit "priority")
      then match dict_get d0 k with Some x => Some x | None => Some (PInt 3) end
      else dict_get d0 k.
Proof.
  intros d0 k. unfold parse_defaults.
  rewrite !dict_get_setdefault.
  destruct (pystr_eqb k (lit "estimated_time")) eqn:E1.
  - apply pystr_eqb_eq in E1; subst k. simpl. reflexivity.
  - destruct (pystr_eqb k (lit "category")) eqn:E2.
    + apply pystr_eqb_eq in E2; subst k. simpl. reflexivity.
    + destruct (pystr_eqb k (lit "priority")) eqn:E3; [| reflexivity].
      apply pystr_eqb_eq in E3; subst k. reflexivity.
Qed.

Lemma fallback_has_defaults :
  forall t, dict_get (Agents.parse_fallback t) (lit "priority") <> None
            /\ dict_get (Agents.parse_fallback t) (lit "category") <> None
            /\ dict_get (Agents.parse_fallback t) (lit "estimated_time") <> None.
Proof. intros t. vm_compute. repeat split; discriminate. Qed.

Lemma parse_defaults_has_defaults :
  forall d0, dict_get (parse_defaults d0) (lit "priority") <> None
             /\ dict_get (parse_defaults d0) (lit "category") <> None
             /\ dict_get (parse_defaults d0) (lit "estimated_time") <> None.
Proof.
  intros d0. rewrite !parse_defaults_get. simpl.
  repeat split; match goal with |- match ?x with _ => _ end <> None =>
                  destruct x; discriminate end.
Qed.

Lemma parse_once_result :
  forall input_text o,
    Agents.parse_once input_text o
    = Ok (match o with
          | Agents.LlmContent (Some (PDict d0)) =>
              match dict_get d0 (lit "title") with
              | Some _ => parse_defaults d0
              | None => Agents.parse_fallback input_text
              end
          | _ => Agents.parse_fallback input_text
          end).
Proof.
  intros input_text o. unfold Agents.parse_once, Agents.parse_try.
  destruct o as [e | [v |]]; try reflexivity.
  destruct v; try reflexivity.
  fold (parse_defaults d).
  rewrite (parse_defaults_get d (lit "title")). simpl.
  destruct (dict_get d (lit "title")) eqn:E; simpl in E; rewrite E; reflexivity.
Qed.

(** C3, as the code does it: [parse] always returns a dict (it never
    raises to its caller and never falls off the retry loop), determined by
    the LLM's first answer.  When that answer is a JSON object with a
    title, the dict is exactly that object with only the missing keys
    priority, category and estimated_time filled in with 3, "other" and 30:
    every key the LLM supplied keeps its value, which is not range-checked
    or replaced.  In every other case (the call raises, the reply is not
    JSON, not an object, or has no title) it is exactly the fallback built
    from the input text.  In every case priority, category and
    estimated_time are present. *)
Theorem parse_result_shape :
  forall input_text llm,
    exists d,
      Agents.parse input_text llm = Some (Ok d)
      /\ d = match llm 0%nat with
             | Agents.LlmContent (Some (PDict d0)) =>
                 match dict_get d0 (lit "title") with
                 | Some _ => parse_defaults d0
                 | None => Agents.parse_fallback input_text
                 end
             | _ => Agents.parse_fallback input_text
             end
      /\ (forall d0, llm 0%nat = Agents.LlmContent (Some (PDict d0)) ->
          dict_get d0 (lit "title") <> None ->
          forall k,
            dict_get d k
            = if pystr_eqb k (lit "estimated_time")
              then match dict_get d0 k with Some x => Some x | None => Some (PInt 30) end
              else if pystr_eqb k (lit "category")
              then match dict_get d0 k with
                   | Some x => Some x | None => Some (PStr ko_other) end
              else if pystr_eqb k (lit "priority")
              then match dict_get d0 k with Some x => Some x | None => Some (PInt 3) end
              else dict_get d0 k)
      /\ dict_get d (lit "priority") <> None
      /\ dict_get d (lit "category") <> None
      /\ dict_get d (lit "estimated_time") <> None.
Proof.
  intros input_text llm.
  unfold Agents.parse, Agents.with_exponential_backoff. simpl.
  rewrite parse_once_result.
  eexists. split; [reflexivity |]. split; [reflexivity |]. split.
  - intros d0 Hl Ht k. rewrite Hl.
    destruct (dict_get d0 (lit "title")) eqn:E; [| contradiction].
    apply parse_defaults_get.
  - destruct (llm 0%nat) as [e | [v |]]; try apply fallback_has_defaults.
    destruct v; try apply fallback_has_defaults.
    destruct (dict_get d (lit "title"));
      [apply parse_defaults_has_defaults | apply fallback_has_defaults].
Qed.

Lemma bind_ok_inv :
  forall {A B} (m : res A) (k : A -> res B) b,
    bind m k = Ok b -> exists a, m = Ok a /\ k a = Ok b.
Proof. intros A B m k b H. destruct m as [a | e]; [exists a; auto | discriminate]. Qed.

Lemma py_copy_ok : forall v a, Py.copy v = Ok a -> a = v.
Proof. intros v a H. destruct v; simpl in H; congruence. Qed.

Lemma py_get_ok :
  forall v k def a, Py.get v k def = Ok a ->
    exists d, v = PDict d
              /\ a = match dict_get d k with Some x => x | None => def end.
Proof.
  intros v k def a H. destruct v; simpl in H; try discriminate.
  exists d. split; [reflexivity |]. destruct (dict_get d k); congruence.
Qed.

Lemma py_getitem_ok :
  forall v k a, Py.getitem v k = Ok a ->
    exists d, v = PDict d /\ dict_get d k = Some a.
Proof.
  intros v k a H. destruct v; simpl in H; try discriminate.
  exists d. split; [reflexivity |]. destruct (dict_get d k); congruence.
Qed.

Lemma py_setitem_ok :
  forall v k x a, Py.setitem v k x = Ok a ->
    exists d, v = PDict d /\ a = PDict (dict_set d k x).
Proof.
  intros v k x a H. destruct v; simpl in H; try discriminate.
  exists d. split; congruence.
Qed.

Lemma py_gt_07_ok : forall v b, Py.gt_07 v = Ok b -> Workflow.above v = b.
Proof.
  intros v b H. unfold Py.gt_07 in H. unfold Workflow.above.
  destruct (Py.num v); congruence.
Qed.

Ltac peel H a Ha := apply bind_ok_inv in H; destruct H as [a [Ha H]].

Ltac clean_py :=
  repeat (match goal with
    | H : bind _ _ = Ok _ |- _ =>
        apply bind_ok_inv in H; destruct H as [? [? H]]
    | H : Py.getitem _ _ = Ok _ |- _ =>
        apply py_getitem_ok in H; destruct H as [? [? ?]]
    | H : Py.setitem _ _ _ = Ok _ |- _ =>
        apply py_setitem_ok in H; destruct H as [? [? ?]]
    | H : Py.get _ _ _ = Ok _ |- _ =>
        apply py_get_ok in H; destruct H as [? [? ?]]
    | H : Ok _ = Ok _ |- _ => injection H as H
    | H : PDict _ = PDict _ |- _ => injection H as H
    end; subst).

Lemma py_gt_07_num : forall v b, Py.gt_07 v = Ok b -> Py.num v <> None.
Proof.
  intros v b H. unfold Py.gt_07 in H. destruct (Py.num v); congruence.
Qed.

Lemma aggregate_try_ok_inputs :
  forall st f,
    Workflow.aggregate_try st = Ok f ->
    exists dp dpr dcc dte,
      Workflow.parsed_todo st = PDict dp
      /\ Workflow.priority_recommendation st = PDict dpr
      /\ Workflow.category_classification st = PDict dcc
      /\ Workflow.time_estimation st = PDict dte
      /\ Py.num (Workflow.confidence dpr) <> None
      /\ Py.num (Workflow.confidence dcc) <> None
      /\ Py.num (Workflow.confidence dte) <> None
      /\ (Workflow.above (Workflow.confidence dpr) = true ->
          dict_get dpr (lit "recommended_priority") <> None
          /\ dict_get dpr (lit "reasoning") <> None)
      /\ (Workflow.above (Workflow.confidence dcc) = true ->
          dict_get dcc (lit "category") <> None)
      /\ (Workflow.above (Workflow.confidence dte) = true ->
          dict_get dte (lit "estimated_minutes") <> None).
Proof.
  intros [p pr cc te] f Ht. unfold Workflow.aggregate_try in Ht;
    cbn [Workflow.parsed_todo Workflow.priority_recommendation
         Workflow.category_classification Workflow.time_estimation] in Ht |- *.
  peel Ht f0 H0. apply py_copy_ok in H0; subst f0.
  peel Ht c1 H1. peel Ht b1 H2. pose proof (py_gt_07_num _ _ H2) as N1.
  apply py_gt_07_ok in H2. peel Ht f1 H3.
  peel Ht c2 H4. peel Ht b2 H5. pose proof (py_gt_07_num _ _ H5) as N2.
  apply py_gt_07_ok in H5. peel Ht f2 H6.
  peel Ht c3 H7. peel Ht b3 H8. pose proof (py_gt_07_num _ _ H8) as N3.
  apply py_gt_07_ok in H8. peel Ht f3 H9.
  destruct b1, b2, b3; clean_py; unfold Workflow.confidence;
    rewrite ?H2, ?H5, ?H8;
    (do 4 eexists; split; [reflexivity |]; split; [reflexivity |];
     split; [reflexivity |]; split; [reflexivity |]);
    repeat split; intros; try assumption; try congruence.
Qed.

(** C5, as the code does it: whenever [aggregate_results] produces a final
    task, the parsed task and the three suggestions are dicts; the final
    task is the parsed one where priority, category and estimated_time are
    replaced by the suggested value exactly when that suggestion's
    confidence (0 when missing) is strictly greater than 0.7, and it
    carries ai_metadata with the three confidences and processed = true.
    Conversely, when the parsed task or a suggestion is not a dict, when a
    confidence is not a number, or when a suggestion above 0.7 lacks its
    value key ([recommended_priority] or [reasoning], [category],
    [estimated_minutes]), [aggregate_results] records an error and
    produces no final task, hence no ai_metadata. *)
Theorem aggregate_results_final_shape :
  (forall st final,
    Workflow.aggregate_results st = Workflow.SetFinalTodo final ->
    exists dp dpr dcc dte d,
      Workflow.parsed_todo st = PDict dp
      /\ Workflow.priority_recommendation st = PDict dpr
      /\ Workflow.category_classification st = PDict dcc
      /\ Workflow.time_estimation st = PDict dte
      /\ final = PDict d
      /\ dict_get d (lit "priority")
         = (if Workflow.above (Workflow.confidence dpr)
            then dict_get dpr (lit "recommended_priority")
            else dict_get dp (lit "priority"))
      /\ dict_get d (lit "category")
         = (if Workflow.above (Workflow.confidence dcc)
            then dict_get dcc (lit "category")
            else dict_get dp (lit "category"))
      /\ dict_get d (lit "estimated_time")
         = (if Workflow.above (Workflow.confidence dte)
            then dict_get dte (lit "estimated_minutes")
            else dict_get dp (lit "estimated_time"))
      /\ dict_get d (lit "ai_metadata")
         = Some (PDict [(lit "priority_confidence", Workflow.confidence dpr);
                        (lit "category_confidence", Workflow.confidence dcc);
                        (lit "time_confidence", Workflow.confidence dte);
                        (lit "processed", PBool true)]))
  /\ (forall st,
       (forall d, Workflow.parsed_todo st <> PDict d)
       \/ (forall d, Workflow.priority_recommendation st <> PDict d)
       \/ (forall d, Workflow.category_classification st <> PDict d)
       \/ (forall d, Workflow.time_estimation st <> PDict d)
       \/ (exists d, Workflow.priority_recommendation st = PDict d
                     /\ (Py.num (Workflow.confidence d) = None
                         \/ Workflow.above (Workflow.confidence d) = true
                            /\ (dict_get d (lit "recommended_priority") = None
                                \/ dict_get d (lit "reasoning") = None)))
       \/ (exists d, Workflow.category_classification st = PDict d
                     /\ (Py.num (Workflow.confidence d) = None
                         \/ Workflow.above (Workflow.confidence d) = true
                            /\ dict_get d (lit "category") = None))
       \/ (exists d, Workflow.time_estimation st = PDict d
                     /\ (Py.num (Workflow.confidence d) = None
                         \/ Workflow.above (Workflow.confidence d) = true
                            /\ dict_get d (lit "estimated_minutes") = None)) ->
       exists e, Workflow.aggregate_results st = Workflow.AddErrors [e]).
Proof.
  split.
  2:{
  intros st Hc. unfold Workflow.aggregate_results.
  destruct (Workflow.aggregate_try st) as [f | e] eqn:Ht; [| exists e; reflexivity].
  exfalso.
  apply aggregate_try_ok_inputs in Ht
    as (dp & dpr & dcc & dte & Hp & Hpr & Hcc & Hte & N1 & N2 & N3 & K1 & K2 & K3).
  destruct Hc as [H | [H | [H | [H | [H | [H | H]]]]]].
  - exact (H _ Hp).
  - exact (H _ Hpr).
  - exact (H _ Hcc).
  - exact (H _ Hte).
  - destruct H as (d & Hd & [Hn | (Ha & Hk)]); rewrite Hpr in Hd;
      injection Hd as <-; [contradiction |].
    apply K1 in Ha as [Ka Kb]. destruct Hk; contradiction.
  - destruct H as (d & Hd & [Hn | (Ha & Hk)]); rewrite Hcc in Hd;
      injection Hd as <-; [contradiction |].
    apply K2 in Ha. contradiction.
  - destruct H as (d & Hd & [Hn | (Ha & Hk)]); rewrite Hte in Hd;
      injection Hd as <-; [contradiction |].
    apply K3 in Ha. contradiction. }
  intros [p pr cc te] final H. unfold Workflow.aggregate_results in H.
  destruct (Workflow.aggregate_try _) as [f |] eqn:Ht; [| discriminate].
  injection H as <-. unfold Workflow.aggregate_try in Ht; simpl in Ht |- *.
  peel Ht f0 H0. apply py_copy_ok in H0; subst f0.
  peel Ht c1 H1. peel Ht b1 H2. apply py_gt_07_ok in H2. peel Ht f1 H3.
  peel Ht c2 H4. peel Ht b2 H5. apply py_gt_07_ok in H5. peel Ht f2 H6.
  peel Ht c3 H7. peel Ht b3 H8. apply py_gt_07_ok in H8. peel Ht f3 H9.
  destruct b1, b2, b3; clean_py; unfold Workflow.confidence;
    rewrite ?H2, ?H5, ?H8;
    (do 5 eexists; split; [reflexivity |]; split; [reflexivity |];
     split; [reflexivity |]; split; [reflexivity |]; split; [reflexivity |]);
    rewrite ?dict_get_set; simpl; rewrite ?H2, ?H5, ?H8;
    repeat split; congruence.
Qed.

Example aggregate_threshold :
  match Workflow.aggregate_results (agg_state (71 # 100) (70 # 100) (71 # 100)) with
  | Workflow.SetFinalTodo (PDict d) =>
      dict_get d (lit "priority") = Some (PInt 5)
      /\ dict_get d (lit "category") = Some (PStr ko_other)
      /\ dict_get d (lit "estimated_time") = Some (PInt 90)
  | _ => False
  end.
Proof. vm_compute. repeat split. Qed.

Lemma aggregate_results_final_shape_witness :
  (exists final,
    Workflow.aggregate_results (agg_state (71 # 100) (70 # 100) (71 # 100))
    = Workflow.SetFinalTodo final
    /\ exists dp dpr dcc dte d,
      Workflow.parsed_todo (agg_state (71 # 100) (70 # 100) (71 # 100)) = PDict dp
      /\ Workflow.priority_recommendation (agg_state (71 # 100) (70 # 100) (71 # 100))
         = PDict dpr
      /\ Workflow.category_classification (agg_state (71 # 100) (70 # 100) (71 # 100))
         = PDict dcc
      /\ Workflow.time_estimation (agg_state (71 # 100) (70 # 100) (71 # 100))
         = PDict dte
      /\ final = PDict d
      /\ dict_get d (lit "priority")
         = (if Workflow.above (Workflow.confidence dpr)
            then dict_get dpr (lit "recommended_priority")
            else dict_get dp (lit "priority"))
      /\ dict_get d (lit "category")
         = (if Workflow.above (Workflow.confidence dcc)
            then dict_get dcc (lit "category")
            else dict_get dp (lit "category"))
      /\ dict_get d (lit "estimated_time")
         = (if Workflow.above (Workflow.confidence dte)
            then dict_get dte (lit "estimated_minutes")
            else dict_get dp (lit "estimated_time"))
      /\ dict_get d (lit "ai_metadata")
         = Some (PDict [(lit "priority_confidence", Workflow.confidence dpr);
                        (lit "category_confidence", Workflow.confidence dcc);
                        (lit "time_confidence", Workflow.confidence dte);
                        (lit "processed", PBool true)]))
  /\ (exists e,
        Workflow.aggregate_results
          (Workflow.mkTodoState
             (PDict [(lit "title", PStr (lit "Write report"))])
             (PDict [(lit "confidence", PFloat (9 # 10))])
             (PDict []) (PDict []))
        = Workflow.AddErrors [e]).
Proof.
  split.
  - eexists. split.
    + vm_compute. reflexivity.
    + apply (proj1 aggregate_results_final_shape). vm_compute. reflexivity.
  - apply (proj2 aggregate_results_final_shape).
    right; right; right; right; left.
    eexists. split; [reflexivity |].
    right. split; [vm_compute; reflexivity | left; vm_compute; reflexivity].
Defined.

(** C5, where the claim fails: a priority recommendation with confidence
    0.9 but no [recommended_priority] makes [aggregate_results] raise
    [KeyError], caught by its [except]: the state gets an error and no
    final task, so no ai_metadata is attached. *)
Lemma aggregate_missing_recommendation :
  Workflow.aggregate_results
    (Workflow.mkTodoState
       (PDict [(lit "title", PStr (lit "Write report"))])
       (PDict [(lit "confidence", PFloat (9 # 10))])
       (PDict []) (PDict []))
  = Workflow.AddErrors [OtherError "KeyError"].
Proof. vm_compute. reflexivity. Qed.

(** ** Partial updates *)

Lemma fold_setattr_update_data :
  forall u r,
    fold_left Crud.setattr (Crud.update_data u) r
    = Crud.mkTodo (Crud.id r)
        (match Crud.u_title u with Some v => v | None => Crud.title r end)
        (match Crud.u_description u with Some v => v | None => Crud.description r end)
        (Crud.status r)
        (match Crud.u_priority u with Some v => v | None => Crud.priority r end)
        (match Crud.u_category u with Some v => v | None => Crud.category r end)
        (match Crud.u_estimated_time u with
         | Some v => v | None => Crud.estimated_time r end)
        (Crud.ai_metadata r) (Crud.created_at r) (Crud.updated_at r).
Proof.
  intros [[t|] [d|] [p|] [c|] [e|]] []; reflexivity.
Qed.

Lemma row_ok_update :
  forall u r, Crud.row_ok r = true ->
    Crud.row_ok (fold_left Crud.setattr (Crud.update_data u) r) = payload_ok u.
Proof.
  intros u r Hr. rewrite fold_setattr_update_data.
  unfold Crud.row_ok, payload_ok in *. simpl.
  destruct (Crud.title r) as [t0 |]; [| discriminate].
  destruct (Crud.priority r) as [p0 |]; [| rewrite andb_false_r in Hr; discriminate].
  destruct u as [ut ud up uc ue]; simpl.
  apply andb_prop in Hr as [Hr Hc]. apply andb_prop in Hr as [Ht _].
  destruct ut as [[t|] |], up as [[p|] |], uc as [[c|] |];
    simpl; rewrite ?Ht, ?Hc, ?andb_true_r; reflexivity.
Qed.

Lemma opt_eqb_eq : forall a b, Crud.opt_eqb a b = true <-> a = b.
Proof.
  intros [a|] [b|]; simpl; rewrite ?pystr_eqb_eq; split; congruence.
Qed.

Lemma opt_z_eqb_eq : forall a b, Crud.opt_z_eqb a b = true <-> a = b.
Proof.
  intros [a|] [b|]; simpl; rewrite ?Z.eqb_eq; split; congruence.
Qed.

Lemma status_eqb_eq : forall a b, Crud.status_eqb a b = true <-> a = b.
Proof. intros [] []; simpl; split; congruence. Qed.

Lemma same_columns_true :
  forall r0 r, Crud.same_columns r0 r = true ->
    Crud.title r = Crud.title r0 /\ Crud.description r = Crud.description r0
    /\ Crud.status r = Crud.status r0 /\ Crud.priority r = Crud.priority r0
    /\ Crud.category r = Crud.category r0
    /\ Crud.estimated_time r = Crud.estimated_time r0.
Proof.
  intros r0 r H. unfold Crud.same_columns in H.
  repeat match goal with
         | H : _ && _ = true |- _ => apply andb_prop in H as [? ?]
         end.
  repeat match goal with
         | H : Crud.opt_eqb _ _ = true |- _ => apply opt_eqb_eq in H
         | H : Crud.opt_z_eqb _ _ = true |- _ => apply opt_z_eqb_eq in H
         | H : Crud.status_eqb _ _ = true |- _ => apply status_eqb_eq in H
         end.
  repeat split; congruence.
Qed.

Lemma opt_eqb_refl : forall a, Crud.opt_eqb a a = true.
Proof. intros a. apply opt_eqb_eq. reflexivity. Qed.

Lemma opt_z_eqb_refl : forall a, Crud.opt_z_eqb a a = true.
Proof. intros a. apply opt_z_eqb_eq. reflexivity. Qed.

Lemma status_eqb_refl : forall a, Crud.status_eqb a a = true.
Proof. intros a. apply status_eqb_eq. reflexivity. Qed.

Lemma same_columns_refl : forall r, Crud.same_columns r r = true.
Proof.
  intros r. unfold Crud.same_columns.
  rewrite !opt_eqb_refl, !opt_z_eqb_refl, status_eqb_refl. reflexivity.
Qed.

Lemma same_columns_retitle :
  forall r0 v,
    Crud.same_columns r0 (Crud.setattr r0 (Crud.SetTitle v)) = Crud.opt_eqb (Crud.title r0) v.
Proof.
  intros [i t d st p c e m ca ua] v. unfold Crud.same_columns. cbn [Crud.setattr
    Crud.title Crud.description Crud.status Crud.priority Crud.category
    Crud.estimated_time Crud.id Crud.ai_metadata Crud.created_at Crud.updated_at].
  rewrite !opt_eqb_refl, !opt_z_eqb_refl, status_eqb_refl, !andb_true_r.
  reflexivity.
Qed.

(** An update that changes no assigned column leaves the loaded row as it
    is. *)
Lemma same_columns_fold :
  forall u r0,
    Crud.same_columns r0 (fold_left Crud.setattr (Crud.update_data u) r0) = true ->
    fold_left Crud.setattr (Crud.update_data u) r0 = r0.
Proof.
  intros u r0 H. apply same_columns_true in H.
  rewrite fold_setattr_update_data in *. simpl in H.
  destruct H as (Ht & Hd & _ & Hp & Hc & He).
  rewrite Ht, Hd, Hp, Hc, He. destruct r0; reflexivity.
Qed.

Lemma same_columns_set_status :
  forall r0 s,
    Crud.same_columns r0 (Crud.set_status r0 s) = Crud.status_eqb (Crud.status r0) s.
Proof.
  intros r0 s. destruct (Crud.status_eqb (Crud.status r0) s) eqn:E.
  - apply status_eqb_eq in E. rewrite <- E.
    replace (Crud.set_status r0 (Crud.status r0)) with r0 by (destruct r0; reflexivity).
    apply same_columns_refl.
  - destruct (Crud.same_columns r0 (Crud.set_status r0 s)) eqn:Es; [| reflexivity].
    apply same_columns_true in Es as (_ & _ & Hs & _). simpl in Hs.
    subst s. rewrite (proj2 (status_eqb_eq _ _) eq_refl) in E. discriminate.
Qed.

Lemma db_find_replace :
  forall tid d r0 r',
    Crud.db_find tid d = Some r0 -> Crud.id r' = tid ->
    Crud.db_find tid (Crud.db_replace r' d) = Some r'.
Proof.
  intros tid d r0 r' Hf Hid. unfold Crud.db_find, Crud.db_replace in *.
  rewrite Hid. induction d as [| r d IH]; simpl in *; [discriminate |].
  destruct (Crud.id r =? tid) eqn:E; simpl.
  - rewrite Hid, Z.eqb_refl. reflexivity.
  - rewrite E. apply IH. exact Hf.
Qed.

Lemma db_find_id :
  forall tid d r0, Crud.db_find tid d = Some r0 -> Crud.id r0 = tid.
Proof.
  intros tid d r0 H. unfold Crud.db_find in H.
  apply find_some in H as [_ H]. apply Z.eqb_eq. exact H.
Qed.

Lemma keeps_db_redis_call :
  forall {A} (f : list (Crud.RKey * Crud.RVal) -> A * list (Crud.RKey * Crud.RVal)),
    keeps_db (Crud.redis_call f).
Proof.
  intros A f w. unfold Crud.redis_call.
  destruct (Crud.redis_up w); [destruct (f (Crud.redis w)) |]; reflexivity.
Qed.

Lemma keeps_db_ret : forall {A} (a : A), keeps_db (Crud.ret a).
Proof. intros A a w. reflexivity. Qed.

Lemma keeps_db_mbind :
  forall {A B} (m : Crud.M A) (k : A -> Crud.M B),
    keeps_db m -> (forall a, keeps_db (k a)) -> keeps_db (Crud.mbind m k).
Proof.
  intros A B m k Hm Hk w. unfold Crud.mbind.
  specialize (Hm w). destruct (m w) as [[a | e] w'] eqn:E; simpl in *.
  - rewrite Hk. exact Hm.
  - exact Hm.
Qed.

Lemma keeps_db_try_except :
  forall {A} (m : Crud.M A) (h : exn -> Crud.M A),
    keeps_db m -> (forall e, keeps_db (h e)) -> keeps_db (Crud.try_except m h).
Proof.
  intros A m h Hm Hh w. unfold Crud.try_except.
  specialize (Hm w). destruct (m w) as [[a | e] w'] eqn:E; simpl in *.
  - exact Hm.
  - rewrite Hh. exact Hm.
Qed.

Lemma keeps_db_cache_after_update :
  forall tid t,
    keeps_db (Crud.mbind (Crud.r_delete [Crud.KTodo tid]) (fun _ =>
              Crud.mbind Crud.invalidate_todos_list_cache (fun _ =>
              Crud.mbind (Crud.cache_todo_with_tags t) (fun _ =>
              Crud.ret (Some t))))).
Proof.
  intros tid t.
  unfold Crud.r_delete, Crud.invalidate_todos_list_cache,
    Crud.cache_todo_with_tags, Crud.cache_todo, Crud.r_smembers, Crud.r_sadd,
    Crud.r_setex.
  repeat match goal with
  | |- forall _, _ => intro
  | |- keeps_db (Crud.mbind _ _) => apply keeps_db_mbind
  | |- keeps_db (Crud.try_except _ _) => apply keeps_db_try_except
  | |- keeps_db (Crud.redis_call _) => apply keeps_db_redis_call
  | |- keeps_db (Crud.ret _) => apply keeps_db_ret
  | |- keeps_db (Crud.r_delete _) => apply keeps_db_redis_call
  | |- keeps_db (match ?x with _ => _ end) => destruct x
  end.
Qed.

Lemma update_data_nil :
  forall u, (List.length (Crud.update_data u) =? 0)%nat = true ->
    u = Crud.mkTodoUpdate None None None None None.
Proof.
  intros [[t|] [d|] [p|] [c|] [e|]] H; simpl in H; congruence.
Qed.

(** C9, as the code does it: on a stored task [update_todo] applies exactly
    the supplied fields (an explicit [null] included) and keeps every other
    column, [updated_at] aside, when the payload passes the column
    constraints; a payload setting [title] or [priority] to [null] makes
    the commit raise [IntegrityError] and leaves the stored task as it
    was.  The table is the same whether the cache calls after the commit
    succeed or raise. *)
Theorem update_todo_applies_supplied_fields :
  forall tid u w r0,
    Crud.db_find tid (Crud.db w) = Some r0 ->
    Crud.row_ok r0 = true ->
    (payload_ok u = true ->
     exists r',
       Crud.db_find tid (Crud.db (snd (Crud.update_todo tid u w))) = Some r'
       /\ Crud.id r' = Crud.id r0
       /\ Crud.title r'
          = match Crud.u_title u with Some v => v | None => Crud.title r0 end
       /\ Crud.description r'
          = match Crud.u_description u with
            | Some v => v | None => Crud.description r0 end
       /\ Crud.status r' = Crud.status r0
       /\ Crud.priority r'
          = match Crud.u_priority u with Some v => v | None => Crud.priority r0 end
       /\ Crud.category r'
          = match Crud.u_category u with Some v => v | None => Crud.category r0 end
       /\ Crud.estimated_time r'
          = match Crud.u_estimated_time u with
            | Some v => v | None => Crud.estimated_time r0 end
       /\ Crud.ai_metadata r' = Crud.ai_metadata r0
       /\ Crud.created_at r' = Crud.created_at r0)
    /\ (payload_ok u = false ->
        Crud.update_todo tid u w = (Raise (OtherError "IntegrityError"), w)).
Proof.
  intros tid u w r0 Hf Hok.
  pose proof (db_find_id _ _ _ Hf) as Hid.
  pose proof (row_ok_update u r0 Hok) as Hrow.
  pose proof (fold_setattr_update_data u r0) as Hfold.
  split; intros Hp;
    unfold Crud.update_todo; unfold Crud.mbind at 1 2; unfold Crud.get_todo;
    rewrite Hf; cbv beta iota; unfold Crud.commit_update;
    destruct (Crud.same_columns r0 (fold_left Crud.setattr (Crud.update_data u) r0))
      eqn:Es.
  - (* no assigned column changes: no UPDATE is emitted *)
    pose proof (same_columns_fold u r0 Es) as Hsame.
    exists r0. rewrite keeps_db_cache_after_update. rewrite Hf.
    rewrite Hfold in Hsame.
    repeat split;
      [ exact (eq_sym (f_equal Crud.title Hsame))
      | exact (eq_sym (f_equal Crud.description Hsame))
      | exact (eq_sym (f_equal Crud.priority Hsame))
      | exact (eq_sym (f_equal Crud.category Hsame))
      | exact (eq_sym (f_equal Crud.estimated_time Hsame)) ].
  - rewrite Hrow, Hp.
    exists (Crud.touch (fold_left Crud.setattr (Crud.update_data u) r0)
                       (Crud.now w)).
    rewrite keeps_db_cache_after_update. simpl.
    rewrite Hfold. simpl.
    split; [| repeat split].
    apply (db_find_replace _ _ r0); [exact Hf |]. simpl. exact Hid.
  - apply same_columns_fold in Es. rewrite Es, Hok in Hrow. congruence.
  - rewrite Hrow, Hp. reflexivity.
Qed.

Lemma update_todo_applies_supplied_fields_witness :
  Crud.db_find 1 (Crud.db redis_up_world) = Some sample_row
  /\ Crud.row_ok sample_row = true
  /\ payload_ok retitle = true
  /\ exists r',
       Crud.db_find 1 (Crud.db (snd (Crud.update_todo 1 retitle redis_up_world)))
       = Some r'
       /\ Crud.title r' = Some (lit "Write final report")
       /\ Crud.priority r' = Some 3.
Proof.
  split; [reflexivity |]. split; [reflexivity |]. split; [reflexivity |].
  destruct (proj1 (update_todo_applies_supplied_fields 1 retitle redis_up_world
                     sample_row eq_refl eq_refl) eq_refl)
    as [r' [H1 [_ [H2 [_ [_ [H3 _]]]]]]].
  exists r'. split; [exact H1 |]. split; [exact H2 | exact H3].
Defined.

(** C9, where the claim fails: a payload [{"title": null}] passes
    [TodoUpdate] (every field is [Optional]) and is supplied, but the
    commit violates [title]'s NOT NULL constraint: [update_todo] raises
    [IntegrityError], the handler answers 500 and the stored task keeps its
    title. *)
Lemma update_null_title_not_applied :
  Crud.update_todo 1 (Crud.mkTodoUpdate (Some None) None None None None)
    redis_up_world
  = (Raise (OtherError "IntegrityError"), redis_up_world)
  /\ Crud.put_todo_status (Raise (OtherError "IntegrityError")) = 500.
Proof. split; vm_compute; reflexivity. Qed.

(** ** The other routes, the cache and the agents *)

Lemma suffix_refl : forall s, suffix s s.
Proof. intros s. exists []. reflexivity. Qed.

Lemma suffix_trans : forall a b c, suffix a b -> suffix b c -> suffix a c.
Proof.
  intros a b c [p1 H1] [p2 H2]. exists (p2 ++ p1). subst. apply app_assoc.
Qed.

Lemma suffix_cons : forall c r s, suffix r s -> suffix r (c :: s).
Proof. intros c r s [p H]. exists (c :: p). subst. reflexivity. Qed.

Lemma suffix_length : forall r s, suffix r s -> (List.length r <= List.length s)%nat.
Proof. intros r s [p H]. subst. rewrite length_app. lia. Qed.

Lemma suffix_Forall :
  forall (P : Z -> Prop) r s, suffix r s -> Forall P s -> Forall P r.
Proof. intros P r s [p H] HF. subst. apply Forall_app in HF. tauto. Qed.

Lemma match_ci_suffix :
  forall pat s r, match_ci pat s = Some r -> suffix r s.
Proof.
  induction pat as [| p pat IH]; intros s r H; simpl in H.
  - injection H as <-. apply suffix_refl.
  - destruct s as [| c s]; [discriminate |].
    destruct (ci_char c p); [| discriminate].
    apply suffix_cons. apply (IH s r H).
Qed.

Lemma skip_to_gt_suffix : forall s r, skip_to_gt s = Some r -> suffix r s.
Proof.
  induction s as [| c s IH]; intros r H; simpl in H; [discriminate |].
  apply suffix_cons. destruct (c =? 62).
  - injection H as <-. apply suffix_refl.
  - apply IH. exact H.
Qed.

Lemma lazy_until_suffix :
  forall close s r, lazy_until close s = Some r -> suffix r s.
Proof.
  intros close. induction s as [| c s IH]; intros r H; simpl in H;
    destruct (match_ci close _) eqn:E.
  - injection H as <-. exact (match_ci_suffix _ _ _ E).
  - discriminate.
  - injection H as <-. exact (match_ci_suffix _ _ _ E).
  - apply suffix_cons. apply IH. exact H.
Qed.

Lemma match_element_suffix :
  forall tag s r, match_element tag s = Some r -> suffix r s.
Proof.
  intros tag s r H. unfold match_element in H.
  destruct (match_ci _ s) as [r1 |] eqn:E1; [| discriminate].
  destruct (skip_to_gt r1) as [r2 |] eqn:E2; [| discriminate].
  apply (suffix_trans _ r2); [exact (lazy_until_suffix _ _ _ H) |].
  apply (suffix_trans _ r1); [exact (skip_to_gt_suffix _ _ E2) |].
  exact (match_ci_suffix _ _ _ E1).
Qed.

Lemma drop_while_suffix : forall f l, suffix (drop_while f l) l.
Proof.
  intros f. induction l as [| x l IH]; simpl; [apply suffix_refl |].
  destruct (f x); [apply suffix_cons; exact IH | apply suffix_refl].
Qed.

Lemma match_on_handler_suffix :
  forall s r, match_on_handler s = Some r -> suffix r s.
Proof.
  intros s r H. unfold match_on_handler in H.
  destruct (match_ci _ s) as [[| c r1] |] eqn:E1; try discriminate.
  destruct (is_word c); [| discriminate].
  destruct (drop_while is_space (drop_while is_word r1)) as [| e rest] eqn:E2;
    [discriminate |].
  destruct (e =? 61); [| discriminate]. injection H as <-.
  apply (suffix_trans _ (e :: rest)); [apply suffix_cons, suffix_refl |].
  rewrite <- E2.
  apply (suffix_trans _ (drop_while is_word r1)); [apply drop_while_suffix |].
  apply (suffix_trans _ r1); [apply drop_while_suffix |].
  apply (suffix_trans _ (c :: r1)); [apply suffix_cons, suffix_refl |].
  exact (match_ci_suffix _ _ _ E1).
Qed.

Lemma re_sub_fuel_deletes :
  forall (P : Z -> Prop) m, suffix_matcher m ->
    forall fuel s, Forall P s ->
      Forall P (re_sub_fuel fuel m s)
      /\ (List.length (re_sub_fuel fuel m s) <= List.length s)%nat.
Proof.
  intros P m Hm. induction fuel as [| fuel IH]; intros s Hs; simpl;
    [split; [exact Hs | lia] |].
  destruct s as [| c s']; [split; [constructor | simpl; lia] |].
  destruct (m (c :: s')) as [r |] eqn:E.
  - pose proof (Hm _ _ E) as Hsuf.
    destruct (IH r (suffix_Forall P _ _ Hsuf Hs)) as [H1 H2].
    split; [exact H1 |]. pose proof (suffix_length _ _ Hsuf). lia.
  - inversion Hs; subst.
    destruct (IH s' H2) as [H3 H4].
    split; [constructor; assumption | simpl; lia].
Qed.

Lemma re_sub_deletes :
  forall (P : Z -> Prop) m s, suffix_matcher m -> Forall P s ->
    Forall P (re_sub m s) /\ (List.length (re_sub m s) <= List.length s)%nat.
Proof. intros P m s Hm Hs. apply re_sub_fuel_deletes; assumption. Qed.

Lemma strip_deletes :
  forall (P : Z -> Prop) s, Forall P s ->
    Forall P (strip s) /\ (List.length (strip s) <= List.length s)%nat.
Proof.
  intros P s Hs. unfold strip.
  pose proof (drop_while_suffix is_space s) as H1.
  pose proof (drop_while_suffix is_space (rev (drop_while is_space s))) as H2.
  pose proof (suffix_Forall P _ _ H1 Hs) as F1.
  apply Forall_rev in F1.
  pose proof (suffix_Forall P _ _ H2 F1) as F2.
  split; [apply Forall_rev; exact F2 |].
  rewrite length_rev. apply suffix_length in H1, H2.
  rewrite length_rev in H2. lia.
Qed.

Lemma escape_char_safe :
  forall c, Forall (fun x => markup_char x = false) (escape_char c)
            /\ (List.length (escape_char c) <= 6)%nat.
Proof.
  intros c. unfold escape_char.
  destruct (c =? 38) eqn:E1; [split; [repeat constructor | simpl; lia] |].
  destruct (c =? 60) eqn:E2; [split; [repeat constructor | simpl; lia] |].
  destruct (c =? 62) eqn:E3; [split; [repeat constructor | simpl; lia] |].
  destruct (c =? 34) eqn:E4; [split; [repeat constructor | simpl; lia] |].
  destruct (c =? 39) eqn:E5; [split; [repeat constructor | simpl; lia] |].
  split; [| simpl; lia]. constructor; [| constructor].
  unfold markup_char. rewrite E2, E3, E4, E5. reflexivity.
Qed.

Lemma html_escape_safe :
  forall s, Forall (fun x => markup_char x = false) (html_escape s)
            /\ (List.length (html_escape s) <= 6 * List.length s)%nat.
Proof.
  induction s as [| c s [IH1 IH2]]; [split; [constructor | simpl; lia] |].
  unfold html_escape in *. simpl.
  destruct (escape_char_safe c) as [H1 H2].
  split; [apply Forall_app; split; assumption |].
  rewrite length_app. lia.
Qed.

Lemma sanitize_matchers :
  suffix_matcher match_script /\ suffix_matcher match_javascript
  /\ suffix_matcher match_on_handler /\ suffix_matcher match_iframe.
Proof.
  split; [intros s r; apply match_element_suffix |].
  split; [intros s r; apply match_ci_suffix |].
  split; [exact match_on_handler_suffix |].
  intros s r; apply match_element_suffix.
Qed.

(** The steps of [sanitize_string] after the truncation. *)
Lemma sanitize_pipeline :
  forall t,
    let s := strip (re_sub match_iframe (re_sub match_on_handler
               (re_sub match_javascript (re_sub match_script (html_escape t))))) in
    Forall (fun x => markup_char x = false) s
    /\ (List.length s <= 6 * List.length t)%nat.
Proof.
  intros t s. subst s.
  destruct sanitize_matchers as [Ms [Mj [Mo Mi]]].
  destruct (html_escape_safe t) as [F0 L0].
  destruct (re_sub_deletes _ _ _ Ms F0) as [F1 L1].
  destruct (re_sub_deletes _ _ _ Mj F1) as [F2 L2].
  destruct (re_sub_deletes _ _ _ Mo F2) as [F3 L3].
  destruct (re_sub_deletes _ _ _ Mi F3) as [F4 L4].
  destruct (strip_deletes _ _ F4) as [F5 L5].
  split; [exact F5 | lia].
Qed.

(** [sanitize_string] on a string always returns a string in which no
    less-than sign, greater-than sign, double quote or apostrophe is left:
    [html.escape] replaces them all
    and the four pattern substitutions and [strip] only delete
    characters. *)
Theorem sanitize_string_no_markup :
  forall t n, exists s,
    sanitize_string (Some t) n = Some s
    /\ Forall (fun c => markup_char c = false) s.
Proof.
  intros [| c t] n; [exists []; split; [reflexivity | constructor] |].
  eexists. split; [reflexivity |].
  apply sanitize_pipeline.
Qed.

(** The result of [sanitize_string(text, n)] is at most six times as long
    as [text[:n]] (an entity is at most six characters); in particular
    the stored title of [POST /todos] can exceed 255 characters. *)
Theorem sanitize_string_length :
  forall t n s, sanitize_string (Some t) n = Some s ->
    (List.length s <= 6 * Nat.min n (List.length t))%nat.
Proof.
  intros [| c t] n s H; simpl in H.
  - injection H as <-. simpl. lia.
  - injection H as <-.
    destruct (sanitize_pipeline (firstn n (c :: t))) as [_ L].
    rewrite length_firstn in L. exact L.
Qed.



Lemma rkey_eqb_eq : forall a b, Crud.rkey_eqb a b = true <-> a = b.
Proof.
  intros [x|] [y|]; simpl; split; intros H; try discriminate; try reflexivity.
  - apply Z.eqb_eq in H. subst. reflexivity.
  - injection H as ->. apply Z.eqb_refl.
Qed.

Lemma rkey_eqb_sym : forall a b, Crud.rkey_eqb a b = Crud.rkey_eqb b a.
Proof. intros [x|] [y|]; simpl; try reflexivity. apply Z.eqb_sym. Qed.

Lemma rlookup_filter_keep :
  forall (p : Crud.RKey * Crud.RVal -> bool) r k,
    (forall v, p (k, v) = true) ->
    Crud.rlookup (List.filter p r) k = Crud.rlookup r k.
Proof.
  intros p r k Hp. induction r as [| [k' v] r IH]; simpl; [reflexivity |].
  destruct (Crud.rkey_eqb k k') eqn:E.
  - apply rkey_eqb_eq in E. subst k'. rewrite Hp. simpl.
    rewrite (proj2 (rkey_eqb_eq k k) eq_refl). reflexivity.
  - destruct (p (k', v)); simpl; [rewrite E |]; exact IH.
Qed.

Lemma rlookup_filter_drop :
  forall (p : Crud.RKey * Crud.RVal -> bool) r k,
    (forall v, p (k, v) = false) ->
    Crud.rlookup (List.filter p r) k = None.
Proof.
  intros p r k Hp. induction r as [| [k' v] r IH]; simpl; [reflexivity |].
  destruct (p (k', v)) eqn:Ep; [| exact IH].
  simpl. destruct (Crud.rkey_eqb k k') eqn:E; [| exact IH].
  apply rkey_eqb_eq in E. subst k'. rewrite Hp in Ep. discriminate.
Qed.

Lemma rlookup_rput :
  forall r k v k',
    Crud.rlookup (Crud.rput r k v) k'
    = if Crud.rkey_eqb k' k then Some v else Crud.rlookup r k'.
Proof.
  intros r k v k'. unfold Crud.rput. simpl.
  destruct (Crud.rkey_eqb k' k) eqn:E; [reflexivity |].
  apply rlookup_filter_keep. intros v'. rewrite rkey_eqb_sym, E. reflexivity.
Qed.

Lemma rlookup_rdel :
  forall ks r k,
    Crud.rlookup (rdel ks r) k
    = if existsb (Crud.rkey_eqb k) ks then None else Crud.rlookup r k.
Proof.
  intros ks r k. unfold rdel.
  destruct (existsb (Crud.rkey_eqb k) ks) eqn:E.
  - apply rlookup_filter_drop. intros v. rewrite E. reflexivity.
  - apply rlookup_filter_keep. intros v. rewrite E. reflexivity.
Qed.

Lemma invalidate_up :
  forall w, Crud.redis_up w = true ->
    Crud.invalidate_todos_list_cache w
    = (Ok tt, Crud.with_redis w (invalidated (Crud.redis w))).
Proof.
  intros [d r up n] Hup. simpl in Hup. subst up.
  unfold Crud.invalidate_todos_list_cache, Crud.try_except, Crud.mbind,
    Crud.r_smembers, Crud.redis_call, invalidated, tagged. simpl.
  destruct (Crud.rlookup r Crud.KListTag) as [[t | ms] |]; simpl;
    try reflexivity.
  destruct ms as [| k ms]; reflexivity.
Qed.

Lemma tagged_invalidated :
  forall r, match Crud.rlookup (invalidated r) Crud.KListTag with
            | Some (Crud.RSet ms) => ms
            | _ => []
            end = [].
Proof.
  intros r. unfold invalidated. destruct (tagged r) as [| k ks] eqn:E.
  - unfold tagged in E. exact E.
  - rewrite rlookup_rdel. reflexivity.
Qed.

Lemma rlookup_invalidated :
  forall r j, In (Crud.KTodo j) (tagged r) ->
    Crud.rlookup (invalidated r) (Crud.KTodo j) = None.
Proof.
  intros r j Hin. unfold invalidated. destruct (tagged r) as [| k ks] eqn:E;
    [destruct Hin |].
  rewrite rlookup_rdel. simpl. rewrite rlookup_rdel.
  replace (existsb (Crud.rkey_eqb (Crud.KTodo j)) (k :: ks)) with true;
    [reflexivity |].
  symmetry. apply existsb_exists. exists (Crud.KTodo j).
  split; [exact Hin | apply rkey_eqb_eq; reflexivity].
Qed.

Lemma post_commit_eq :
  forall {A} (t : Crud.Todo) (x : A) w,
    Crud.redis_up w = true ->
    Crud.mbind Crud.invalidate_todos_list_cache (fun _ =>
      Crud.mbind (Crud.cache_todo_with_tags t) (fun _ => Crud.ret x)) w
    = (Ok x, Crud.with_redis w (post_commit_redis t (Crud.redis w))).
Proof.
  intros A t x w Hup.
  destruct w as [d r up n]. simpl in Hup. subst up.
  unfold Crud.mbind at 1.
  rewrite (invalidate_up (Crud.mkWorld d r true n) eq_refl). simpl.
  unfold Crud.cache_todo_with_tags, Crud.try_except, Crud.mbind,
    Crud.cache_todo, Crud.r_setex, Crud.r_sadd, Crud.redis_call. simpl.
  rewrite rlookup_filter_keep by (intros; reflexivity).
  rewrite tagged_invalidated. reflexivity.
Qed.

Lemma post_commit_coherent :
  forall t w, cache_coherent w (Crud.with_redis w (post_commit_redis t (Crud.redis w))) t.
Proof.
  intros t w. unfold cache_coherent, post_commit_redis, Crud.with_redis.
  cbn [Crud.redis].
  split; [| split]; [..| intros j Hj Hin];
    repeat (rewrite rlookup_rput; cbn [Crud.rkey_eqb]).
  - rewrite Z.eqb_refl. reflexivity.
  - reflexivity.
  - replace (j =? Crud.id t) with false by (symmetry; apply Z.eqb_neq; exact Hj).
    apply rlookup_invalidated. exact Hin.
Qed.

Lemma mbind_ok :
  forall {A B} (m : Crud.M A) (k : A -> Crud.M B) w a w',
    m w = (Ok a, w') -> Crud.mbind m k w = k a w'.
Proof. intros A B m k w a w' H. unfold Crud.mbind. rewrite H. reflexivity. Qed.

Lemma mbind_raise :
  forall {A B} (m : Crud.M A) (k : A -> Crud.M B) w e w',
    m w = (Raise e, w') -> Crud.mbind m k w = (Raise e, w').
Proof. intros A B m k w e w' H. unfold Crud.mbind. rewrite H. reflexivity. Qed.

Lemma r_delete_up :
  forall ks w, Crud.redis_up w = true ->
    Crud.r_delete ks w = (Ok tt, Crud.with_redis w (rdel ks (Crud.redis w))).
Proof.
  intros ks [d r up n] Hup. simpl in Hup. subst up. reflexivity.
Qed.

Lemma tagged_rdel_todo :
  forall tid r, tagged (rdel [Crud.KTodo tid] r) = tagged r.
Proof. intros tid r. unfold tagged. rewrite rlookup_rdel. reflexivity. Qed.

Lemma find_app_none :
  forall {A} (f : A -> bool) l1 l2,
    find f l1 = None -> find f (l1 ++ l2) = find f l2.
Proof.
  intros A f l1 l2 H. induction l1 as [| x l1 IH]; simpl in *; [reflexivity |].
  destruct (f x); [discriminate | exact (IH H)].
Qed.

(** [crud.update_todo] on a stored task, with Redis reachable. *)
Lemma crud_update_todo_up :
  forall tid u w r0,
    Crud.redis_up w = true ->
    Crud.db_find tid (Crud.db w) = Some r0 ->
    (Crud.same_columns r0 (fold_left Crud.setattr (Crud.update_data u) r0) = false ->
     Crud.row_ok (fold_left Crud.setattr (Crud.update_data u) r0) = true) ->
    let dirty := negb (Crud.same_columns r0
                         (fold_left Crud.setattr (Crud.update_data u) r0)) in
    let r' := if dirty
              then Crud.touch (fold_left Crud.setattr (Crud.update_data u) r0)
                     (Crud.now w)
              else r0 in
    let w1 := if dirty then Crud.with_db w (Crud.db_replace r' (Crud.db w))
              else w in
    Crud.update_todo tid u w
    = (Ok (Some r'),
       Crud.with_redis w1 (post_commit_redis r' (rdel [Crud.KTodo tid]
                                                   (Crud.redis w)))).
Proof.
  intros tid u w r0 Hup Hf Hrow dirty r' w1.
  unfold Crud.update_todo.
  rewrite (mbind_ok _ _ _ (Some r0) w); [| unfold Crud.get_todo; rewrite Hf; reflexivity].
  cbv beta iota.
  rewrite (mbind_ok _ _ _ r' w1);
    [| unfold Crud.commit_update, r', w1, dirty;
       destruct (Crud.same_columns _ _) eqn:Es; simpl;
       [| rewrite (Hrow eq_refl)]; reflexivity].
  assert (Hup1 : Crud.redis_up w1 = true)
    by (unfold w1; destruct dirty; exact Hup).
  rewrite (mbind_ok _ _ _ tt (Crud.with_redis w1 (rdel [Crud.KTodo tid] (Crud.redis w1))));
    [| apply r_delete_up; exact Hup1].
  rewrite post_commit_eq by exact Hup1.
  unfold w1. destruct dirty; reflexivity.
Qed.

Lemma row_ok_set_status :
  forall r s, Crud.row_ok (Crud.set_status r s) = Crud.row_ok r.
Proof. intros [] s. reflexivity. Qed.

(** [crud.update_todo_status] on a stored task, with Redis reachable. *)
Lemma crud_update_todo_status_up :
  forall tid s w r0,
    Crud.redis_up w = true ->
    Crud.db_find tid (Crud.db w) = Some r0 ->
    (Crud.status_eqb (Crud.status r0) s = false -> Crud.row_ok r0 = true) ->
    let dirty := negb (Crud.status_eqb (Crud.status r0) s) in
    let r' := if dirty then Crud.touch (Crud.set_status r0 s) (Crud.now w)
              else r0 in
    let w1 := if dirty then Crud.with_db w (Crud.db_replace r' (Crud.db w))
              else w in
    Crud.update_todo_status tid s w
    = (Ok (Some r'),
       Crud.with_redis w1 (post_commit_redis r' (rdel [Crud.KTodo tid]
                                                   (Crud.redis w)))).
Proof.
  intros tid s w r0 Hup Hf Hrow dirty r' w1.
  unfold Crud.update_todo_status.
  rewrite (mbind_ok _ _ _ (Some r0) w); [| unfold Crud.get_todo; rewrite Hf; reflexivity].
  cbv beta iota.
  rewrite (mbind_ok _ _ _ r' w1);
    [| unfold Crud.commit_update, r', w1, dirty;
       rewrite same_columns_set_status;
       destruct (Crud.status_eqb _ _) eqn:Es; simpl;
       [| rewrite row_ok_set_status, (Hrow eq_refl)]; reflexivity].
  assert (Hup1 : Crud.redis_up w1 = true)
    by (unfold w1; destruct dirty; exact Hup).
  rewrite (mbind_ok _ _ _ tt (Crud.with_redis w1 (rdel [Crud.KTodo tid] (Crud.redis w1))));
    [| apply r_delete_up; exact Hup1].
  rewrite post_commit_eq by exact Hup1.
  unfold w1. destruct dirty; reflexivity.
Qed.

(** The cache writes of [crud.create_todo] never raise and never touch the
    table. *)
Lemma create_tail_ok :
  forall (t : Crud.Todo) w,
    fst (Crud.mbind Crud.invalidate_todos_list_cache (fun _ =>
         Crud.mbind (Crud.cache_todo_with_tags t) (fun _ => Crud.ret t)) w)
    = Ok t
    /\ Crud.db (snd (Crud.mbind Crud.invalidate_todos_list_cache (fun _ =>
         Crud.mbind (Crud.cache_todo_with_tags t) (fun _ => Crud.ret t)) w))
       = Crud.db w.
Proof.
  intros t w. unfold Crud.mbind at 1 3.
  assert (Hi : fst (Crud.invalidate_todos_list_cache w) = Ok tt
               /\ Crud.db (snd (Crud.invalidate_todos_list_cache w)) = Crud.db w).
  { split.
    - unfold Crud.invalidate_todos_list_cache, Crud.try_except.
      destruct (Crud.mbind _ _ w) as [[[] | e] w']; reflexivity.
    - unfold Crud.invalidate_todos_list_cache, Crud.r_smembers, Crud.r_delete.
      apply keeps_db_try_except;
        [apply keeps_db_mbind; [apply keeps_db_redis_call |];
         intros [| k ks]; [apply keeps_db_ret |];
         apply keeps_db_mbind; intros; apply keeps_db_redis_call
        | intros; apply keeps_db_ret]. }
  destruct (Crud.invalidate_todos_list_cache w) as [[[] | e] w1] eqn:Ei;
    destruct Hi as [Hi1 Hi2]; simpl in Hi1; [| discriminate].
  simpl in Hi2.
  assert (Hc : fst (Crud.cache_todo_with_tags t w1) = Ok tt
               /\ Crud.db (snd (Crud.cache_todo_with_tags t w1)) = Crud.db w1).
  { split.
    - unfold Crud.cache_todo_with_tags, Crud.try_except.
      destruct (Crud.mbind _ _ w1) as [[[] | e] w']; reflexivity.
    - unfold Crud.cache_todo_with_tags, Crud.cache_todo, Crud.r_setex,
        Crud.r_sadd.
      apply keeps_db_try_except;
        [apply keeps_db_mbind; [apply keeps_db_redis_call |];
         intros; apply keeps_db_redis_call
        | intros; apply keeps_db_ret]. }
  destruct (Crud.cache_todo_with_tags t w1) as [[[] | e] w2] eqn:Ec;
    destruct Hc as [Hc1 Hc2]; simpl in Hc1; [| discriminate].
  simpl in Hc2. unfold Crud.mbind. rewrite Ec. simpl.
  split; [reflexivity | congruence].
Qed.

Lemma row_ok_times :
  forall i ti d st p c e m n1 n2 n3 n4,
    Crud.row_ok (Crud.mkTodo i ti d st p c e m n1 n2)
    = Crud.row_ok (Crud.mkTodo i ti d st p c e m n3 n4).
Proof. reflexivity. Qed.

(** [crud.create_todo]: the row is inserted exactly when it passes the
    column constraints, whatever Redis does. *)
Lemma crud_create_todo_result :
  forall new_id t w,
    let r := Crud.mkTodo new_id (Some (TodoMain.title t)) (TodoMain.description t)
               Crud.TODO (Some (TodoMain.priority t)) (TodoMain.category t)
               (TodoMain.estimated_time t) None (Crud.now w) (Crud.now w) in
    (Crud.row_ok r = true ->
     fst (Crud.create_todo new_id t w) = Ok r
     /\ Crud.db (snd (Crud.create_todo new_id t w)) = Crud.db w ++ [r])
    /\ (Crud.row_ok r = false ->
        Crud.create_todo new_id t w = (Raise (OtherError "IntegrityError"), w)).
Proof.
  intros new_id t w r. unfold Crud.create_todo.
  split; intros Hrow.
  - rewrite (mbind_ok _ _ _ r (Crud.with_db w (Crud.db w ++ [r])));
      [| unfold Crud.commit_insert;
         rewrite (row_ok_times _ _ _ _ _ _ _ _ _ _ (Crud.now w) (Crud.now w));
         fold r; rewrite Hrow; reflexivity].
    exact (create_tail_ok r _).
  - rewrite (mbind_raise _ _ _ (OtherError "IntegrityError") w);
      [reflexivity |].
    unfold Crud.commit_insert.
    rewrite (row_ok_times _ _ _ _ _ _ _ _ _ _ (Crud.now w) (Crud.now w)).
    fold r. rewrite Hrow. reflexivity.
Qed.

(** With Redis reachable, every successful [crud.create_todo],
    [crud.update_todo] and [crud.update_todo_status] leaves in the cache
    entry ["todo:{id}"] exactly the row the table now holds, leaves the
    list tag holding only that entry, and evicts every other task entry the
    tag listed before (for [create_todo], when the new id is fresh). *)
Theorem crud_mutations_keep_cache_coherent :
  (forall new_id t w r w',
     Crud.redis_up w = true ->
     Crud.db_find new_id (Crud.db w) = None ->
     Crud.create_todo new_id t w = (Ok r, w') ->
     Crud.db_find (Crud.id r) (Crud.db w') = Some r /\ cache_coherent w w' r)
  /\ (forall tid u w r w',
        Crud.redis_up w = true ->
        Crud.update_todo tid u w = (Ok (Some r), w') ->
        Crud.db_find (Crud.id r) (Crud.db w') = Some r /\ cache_coherent w w' r)
  /\ (forall tid s w r w',
        Crud.redis_up w = true ->
        Crud.update_todo_status tid s w = (Ok (Some r), w') ->
        Crud.db_find (Crud.id r) (Crud.db w') = Some r /\ cache_coherent w w' r).
Proof.
  split; [| split].
  - intros new_id t w r w' Hup Hfresh H.
    set (r0 := Crud.mkTodo new_id (Some (TodoMain.title t))
               (TodoMain.description t) Crud.TODO (Some (TodoMain.priority t))
               (TodoMain.category t) (TodoMain.estimated_time t) None
               (Crud.now w) (Crud.now w)).
    destruct (Crud.row_ok r0) eqn:Hrow;
      [| rewrite (proj2 (crud_create_todo_result new_id t w) Hrow) in H;
         discriminate].
    unfold Crud.create_todo in H.
    rewrite (mbind_ok _ _ _ r0 (Crud.with_db w (Crud.db w ++ [r0]))) in H;
      [| unfold Crud.commit_insert;
         rewrite (row_ok_times _ _ _ _ _ _ _ _ _ _ (Crud.now w) (Crud.now w));
         fold r0; rewrite Hrow; reflexivity].
    rewrite post_commit_eq in H by exact Hup.
    injection H as <- <-. split.
    + simpl. unfold Crud.db_find. rewrite find_app_none by exact Hfresh.
      simpl. rewrite Z.eqb_refl. reflexivity.
    + exact (post_commit_coherent r0 (Crud.with_db w (Crud.db w ++ [r0]))).
  - intros tid u w r w' Hup H.
    destruct (Crud.db_find tid (Crud.db w)) as [r0 |] eqn:Hf;
      [| unfold Crud.update_todo in H;
         rewrite (mbind_ok _ _ _ None w) in H;
         [discriminate | unfold Crud.get_todo; rewrite Hf; reflexivity]].
    pose proof (db_find_id _ _ _ Hf) as Hid.
    destruct (Crud.same_columns r0 (fold_left Crud.setattr (Crud.update_data u) r0))
      eqn:Es.
    + assert (Hr : Crud.same_columns r0
                     (fold_left Crud.setattr (Crud.update_data u) r0) = false ->
                   Crud.row_ok (fold_left Crud.setattr (Crud.update_data u) r0)
                   = true) by (rewrite Es; discriminate).
      rewrite (crud_update_todo_up tid u w r0 Hup Hf Hr) in H.
      cbv zeta in H. rewrite Es in H. cbn [negb] in H.
      injection H as <- <-.
      split.
      * cbn [Crud.db Crud.with_redis]. rewrite Hid. exact Hf.
      * pose proof (post_commit_coherent r0
              (Crud.with_redis w (rdel [Crud.KTodo tid] (Crud.redis w)))) as Hc.
        unfold cache_coherent in *.
        cbn [Crud.redis Crud.with_redis Crud.with_db] in *.
        rewrite tagged_rdel_todo in Hc. exact Hc.
    + destruct (Crud.row_ok (fold_left Crud.setattr (Crud.update_data u) r0))
        eqn:Hrow.
      * rewrite (crud_update_todo_up tid u w r0 Hup Hf (fun _ => Hrow)) in H.
        cbv zeta in H. rewrite Es in H. cbn [negb] in H.
        injection H as <- <-.
        assert (Hid' : Crud.id (Crud.touch (fold_left Crud.setattr
                          (Crud.update_data u) r0) (Crud.now w)) = tid)
          by (rewrite fold_setattr_update_data; exact Hid).
        split.
        -- rewrite Hid'. exact (db_find_replace _ _ r0 _ Hf Hid').
        -- pose proof (post_commit_coherent
                (Crud.touch (fold_left Crud.setattr (Crud.update_data u) r0)
                   (Crud.now w))
                (Crud.with_redis (Crud.with_db w (Crud.db_replace
                   (Crud.touch (fold_left Crud.setattr (Crud.update_data u) r0)
                      (Crud.now w)) (Crud.db w)))
                   (rdel [Crud.KTodo tid] (Crud.redis w)))) as Hc.
           unfold cache_coherent in *.
           cbn [Crud.redis Crud.with_redis Crud.with_db] in *.
           rewrite tagged_rdel_todo in Hc. exact Hc.
      * exfalso. unfold Crud.update_todo in H.
        rewrite (mbind_ok _ _ _ (Some r0) w) in H;
          [| unfold Crud.get_todo; rewrite Hf; reflexivity].
        cbv beta iota in H.
        rewrite (mbind_raise _ _ _ (OtherError "IntegrityError") w) in H;
          [discriminate | unfold Crud.commit_update; rewrite Es, Hrow; reflexivity].
  - intros tid s w r w' Hup H.
    destruct (Crud.db_find tid (Crud.db w)) as [r0 |] eqn:Hf;
      [| unfold Crud.update_todo_status in H;
         rewrite (mbind_ok _ _ _ None w) in H;
         [discriminate | unfold Crud.get_todo; rewrite Hf; reflexivity]].
    pose proof (db_find_id _ _ _ Hf) as Hid.
    destruct (Crud.status_eqb (Crud.status r0) s) eqn:Es.
    + assert (Hr : Crud.status_eqb (Crud.status r0) s = false ->
                   Crud.row_ok r0 = true) by (rewrite Es; discriminate).
      rewrite (crud_update_todo_status_up tid s w r0 Hup Hf Hr) in H.
      cbv zeta in H. rewrite Es in H. cbn [negb] in H.
      injection H as <- <-. split.
      * cbn [Crud.db Crud.with_redis]. rewrite Hid. exact Hf.
      * pose proof (post_commit_coherent r0
              (Crud.with_redis w (rdel [Crud.KTodo tid] (Crud.redis w)))) as Hc.
        unfold cache_coherent in *.
        cbn [Crud.redis Crud.with_redis Crud.with_db] in *.
        rewrite tagged_rdel_todo in Hc. exact Hc.
    + destruct (Crud.row_ok r0) eqn:Hrow.
      * rewrite (crud_update_todo_status_up tid s w r0 Hup Hf (fun _ => Hrow)) in H.
        cbv zeta in H. rewrite Es in H. cbn [negb] in H.
        injection H as <- <-. split.
        -- assert (Hid' : Crud.id (Crud.touch (Crud.set_status r0 s) (Crud.now w))
                          = tid) by (destruct r0; exact Hid).
           rewrite Hid'. exact (db_find_replace _ _ r0 _ Hf Hid').
        -- pose proof (post_commit_coherent
                (Crud.touch (Crud.set_status r0 s) (Crud.now w))
                (Crud.with_redis (Crud.with_db w (Crud.db_replace
                   (Crud.touch (Crud.set_status r0 s) (Crud.now w)) (Crud.db w)))
                   (rdel [Crud.KTodo tid] (Crud.redis w)))) as Hc.
           unfold cache_coherent in *.
           cbn [Crud.redis Crud.with_redis Crud.with_db] in *.
           rewrite tagged_rdel_todo in Hc. exact Hc.
      * exfalso. unfold Crud.update_todo_status in H.
        rewrite (mbind_ok _ _ _ (Some r0) w) in H;
          [| unfold Crud.get_todo; rewrite Hf; reflexivity].
        cbv beta iota in H.
        rewrite (mbind_raise _ _ _ (OtherError "IntegrityError") w) in H;
          [discriminate |].
        unfold Crud.commit_update.
        rewrite same_columns_set_status, Es, row_ok_set_status, Hrow.
        reflexivity.
Qed.



Lemma guard_http_ok :
  forall {A} d (m : Crud.M A) w a w',
    m w = (Ok a, w') -> TodoApi.guard_http d m w = (Ok a, w').
Proof.
  intros A d m w a w' H. unfold TodoApi.guard_http, Crud.try_except.
  rewrite H. reflexivity.
Qed.

Lemma guard_http_http :
  forall {A} d (m : Crud.M A) w c d' w',
    m w = (Raise (HTTPException c d'), w') ->
    TodoApi.guard_http d m w = (Raise (HTTPException c d'), w').
Proof.
  intros A d m w c d' w' H. unfold TodoApi.guard_http, Crud.try_except.
  rewrite H. reflexivity.
Qed.

Lemma guard_http_other :
  forall {A} d (m : Crud.M A) w n w',
    m w = (Raise (OtherError n), w') ->
    TodoApi.guard_http d m w = (Raise (HTTPException 500 d), w').
Proof.
  intros A d m w n w' H. unfold TodoApi.guard_http, Crud.try_except.
  rewrite H. reflexivity.
Qed.

Lemma rlookup_invalidated_none :
  forall r k, Crud.rlookup r k = None -> Crud.rlookup (invalidated r) k = None.
Proof.
  intros r k H. unfold invalidated. destruct (tagged r); [exact H |].
  rewrite !rlookup_rdel. rewrite H.
  destruct (existsb (Crud.rkey_eqb k) [Crud.KListTag]),
    (existsb (Crud.rkey_eqb k) (r0 :: l)); reflexivity.
Qed.

Lemma db_find_filter_out :
  forall tid d,
    Crud.db_find tid (List.filter (fun r => negb (Crud.id r =? tid)) d) = None.
Proof.
  intros tid d. unfold Crud.db_find. induction d as [| r d IH]; [reflexivity |].
  simpl. destruct (Crud.id r =? tid) eqn:E; simpl; [exact IH |].
  rewrite E. exact IH.
Qed.

Lemma get_todo_miss_404 :
  forall tid w,
    Crud.redis_up w = true ->
    Crud.rlookup (Crud.redis w) (Crud.KTodo tid) = None ->
    Crud.db_find tid (Crud.db w) = None ->
    TodoApi.get_todo_status tid w = (404, w).
Proof.
  intros tid w Hup Hc Hf.
  unfold TodoApi.get_todo_status, TodoApi.respond, TodoApi.get_todo.
  rewrite (guard_http_http _ _ _ 404 TodoApi.not_found_detail w);
    [reflexivity |].
  unfold TodoApi.get_cached_todo, Crud.mbind. rewrite Hup, Hc.
  unfold Crud.get_todo. rewrite Hf. reflexivity.
Qed.

(** [GET /todos/{todo_id}]: with Redis unreachable the route answers 500;
    a cached copy is returned as it is, without reading the table; on a
    cache miss the stored row is returned and cached under its key; a task
    neither cached nor stored gives 404. *)
Theorem get_todo_route :
  forall tid w,
    (Crud.redis_up w = false -> TodoApi.get_todo_status tid w = (500, w))
    /\ (forall c, Crud.redis_up w = true ->
        Crud.rlookup (Crud.redis w) (Crud.KTodo tid) = Some (Crud.RStr c) ->
        TodoApi.get_todo tid w = (Ok c, w))
    /\ (forall r, Crud.redis_up w = true ->
        Crud.rlookup (Crud.redis w) (Crud.KTodo tid) = None ->
        Crud.db_find tid (Crud.db w) = Some r ->
        TodoApi.get_todo tid w
        = (Ok r, Crud.with_redis w (Crud.rput (Crud.redis w) (Crud.KTodo tid)
                                      (Crud.RStr r))))
    /\ (Crud.redis_up w = true ->
        Crud.rlookup (Crud.redis w) (Crud.KTodo tid) = None ->
        Crud.db_find tid (Crud.db w) = None ->
        TodoApi.get_todo_status tid w = (404, w)).
Proof.
  intros tid [d rd up n]; cbn [Crud.redis_up Crud.redis Crud.db];
    split; [| split; [| split]].
  - intros ->. reflexivity.
  - intros c -> Hc. unfold TodoApi.get_todo, TodoApi.get_cached_todo.
    apply guard_http_ok. unfold Crud.mbind. cbn [Crud.redis_up Crud.redis].
    rewrite Hc. reflexivity.
  - intros r -> Hc Hf. unfold TodoApi.get_todo, TodoApi.get_cached_todo.
    apply guard_http_ok. unfold Crud.mbind. cbn [Crud.redis_up Crud.redis].
    rewrite Hc. unfold Crud.get_todo. cbn [Crud.db]. rewrite Hf.
    unfold Crud.cache_todo. rewrite (db_find_id _ _ _ Hf). reflexivity.
  - intros Hup Hc Hf. exact (get_todo_miss_404 tid (Crud.mkWorld d rd up n) Hup Hc Hf).
Qed.

(** [DELETE /todos/{todo_id}]: an unknown id gives 404 and changes nothing;
    with Redis reachable a stored task is removed from the table, the route
    answers 204, and a following [GET] of the id answers 404 (its cache
    entry is gone too); with Redis unreachable the row is still deleted but
    the route answers 500. *)
Theorem delete_route :
  forall tid w,
    (Crud.db_find tid (Crud.db w) = None -> TodoApi.delete_status tid w = (404, w))
    /\ (Crud.redis_up w = true -> Crud.db_find tid (Crud.db w) <> None ->
        exists w', TodoApi.delete_status tid w = (204, w')
        /\ Crud.db w' = List.filter (fun r => negb (Crud.id r =? tid)) (Crud.db w)
        /\ TodoApi.get_todo_status tid w' = (404, w'))
    /\ (Crud.redis_up w = false -> Crud.db_find tid (Crud.db w) <> None ->
        exists w', TodoApi.delete_status tid w = (500, w')
        /\ Crud.db w' = List.filter (fun r => negb (Crud.id r =? tid)) (Crud.db w)).
Proof.
  intros tid [d rd up n]; cbn [Crud.redis_up Crud.redis Crud.db];
    split; [| split].
  - intros Hf.
    unfold TodoApi.delete_status, TodoApi.respond, TodoApi.delete_todo.
    rewrite (guard_http_http _ _ _ 404 TodoApi.not_found_detail
               (Crud.mkWorld d rd up n)); [reflexivity |].
    unfold Crud.delete_todo, Crud.mbind, Crud.get_todo. cbn [Crud.db].
    rewrite Hf. reflexivity.
  - intros -> Hf. destruct (Crud.db_find tid d) as [r |] eqn:Ef;
      [clear Hf | contradiction].
    set (d' := List.filter (fun r => negb (Crud.id r =? tid)) d).
    set (rd' := invalidated (rdel [Crud.KTodo tid] rd)).
    exists (Crud.mkWorld d' rd' true n).
    assert (Hdel : TodoApi.delete_todo tid (Crud.mkWorld d rd true n)
                   = (Ok tt, Crud.mkWorld d' rd' true n)).
    { apply guard_http_ok. unfold Crud.mbind at 1.
      enough (Hc : Crud.delete_todo tid (Crud.mkWorld d rd true n)
                   = (Ok true, Crud.mkWorld d' rd' true n))
        by (rewrite Hc; reflexivity).
      unfold Crud.delete_todo.
      rewrite (mbind_ok _ _ _ (Some r) (Crud.mkWorld d rd true n));
        [| unfold Crud.get_todo; cbn [Crud.db]; rewrite Ef; reflexivity].
      cbv beta iota.
      rewrite (mbind_ok _ _ _ tt (Crud.mkWorld d' rd true n)); [| reflexivity].
      rewrite (mbind_ok _ _ _ tt (Crud.mkWorld d' (rdel [Crud.KTodo tid] rd) true n));
        [| apply r_delete_up; reflexivity].
      rewrite (mbind_ok _ _ _ tt (Crud.mkWorld d' rd' true n));
        [reflexivity | apply invalidate_up; reflexivity]. }
    split; [| split].
    + unfold TodoApi.delete_status, TodoApi.respond. rewrite Hdel. reflexivity.
    + reflexivity.
    + apply get_todo_miss_404; cbn [Crud.redis_up Crud.redis Crud.db].
      * reflexivity.
      * apply rlookup_invalidated_none. rewrite rlookup_rdel.
        simpl. rewrite Z.eqb_refl. reflexivity.
      * apply db_find_filter_out.
  - intros -> Hf. destruct (Crud.db_find tid d) as [r |] eqn:Ef;
      [clear Hf | contradiction].
    exists (Crud.mkWorld (List.filter (fun r => negb (Crud.id r =? tid)) d) rd false n).
    split; [| reflexivity].
    unfold TodoApi.delete_status, TodoApi.respond, TodoApi.delete_todo.
    rewrite (guard_http_other _ _ _ "ConnectionError"
               (Crud.mkWorld (List.filter (fun r => negb (Crud.id r =? tid)) d) rd false n));
      [reflexivity |].
    unfold Crud.mbind at 1. unfold Crud.delete_todo.
    rewrite (mbind_ok _ _ _ (Some r) (Crud.mkWorld d rd false n));
      [| unfold Crud.get_todo; cbn [Crud.db]; rewrite Ef; reflexivity].
    reflexivity.
Qed.

Lemma get_todo_hit :
  forall tid w c,
    Crud.redis_up w = true ->
    Crud.rlookup (Crud.redis w) (Crud.KTodo tid) = Some (Crud.RStr c) ->
    TodoApi.get_todo tid w = (Ok c, w).
Proof.
  intros tid w c Hup Hc. unfold TodoApi.get_todo, TodoApi.get_cached_todo.
  apply guard_http_ok. unfold Crud.mbind. rewrite Hup, Hc. reflexivity.
Qed.

Lemma validate_status_name :
  forall s, TodoApi.validate_status (Crud.status_name s) = Ok (Crud.status_name s).
Proof. intros []; reflexivity. Qed.

Lemma post_commit_lookup :
  forall t r tid, Crud.id t = tid ->
    Crud.rlookup (post_commit_redis t r) (Crud.KTodo tid) = Some (Crud.RStr t).
Proof.
  intros t r tid <-. unfold post_commit_redis. rewrite !rlookup_rput.
  cbn [Crud.rkey_eqb]. rewrite Z.eqb_refl. reflexivity.
Qed.

(** [PATCH /todos/{todo_id}/status]: an unknown id gives 404 and changes
    nothing; with Redis reachable, a stored task gets the new status and
    the route answers 200, and a following [GET] of the id returns the
    stored row.  The row gets a fresh [updated_at] when the status
    changes; a PATCH to the status the task already has writes nothing. *)
Theorem patch_status_route :
  forall tid s w,
    (Crud.db_find tid (Crud.db w) = None ->
     TodoApi.patch_status_status tid s w = (404, w))
    /\ (forall r0, Crud.redis_up w = true ->
        Crud.db_find tid (Crud.db w) = Some r0 -> Crud.row_ok r0 = true ->
        exists w', TodoApi.patch_status_status tid s w = (200, w')
        /\ Crud.db w'
           = (if Crud.status_eqb (Crud.status r0) s then Crud.db w
              else Crud.db_replace
                     (Crud.touch (Crud.set_status r0 s) (Crud.now w)) (Crud.db w))
        /\ TodoApi.get_todo tid w'
           = (Ok (if Crud.status_eqb (Crud.status r0) s then r0
                  else Crud.touch (Crud.set_status r0 s) (Crud.now w)), w')).
Proof.
  intros tid s w. split.
  - intros Hf.
    unfold TodoApi.patch_status_status, TodoApi.respond,
      TodoApi.update_todo_status.
    rewrite (guard_http_http _ _ _ 404 TodoApi.not_found_detail w);
      [reflexivity |].
    rewrite (mbind_ok _ _ _ (Crud.status_name s) w);
      [| unfold TodoApi.lift; rewrite validate_status_name; reflexivity].
    rewrite (mbind_ok _ _ _ None w); [reflexivity |].
    unfold Crud.update_todo_status.
    rewrite (mbind_ok _ _ _ None w);
      [reflexivity | unfold Crud.get_todo; rewrite Hf; reflexivity].
  - intros r0 Hup Hf Hrow.
    pose proof (crud_update_todo_status_up tid s w r0 Hup Hf (fun _ => Hrow)) as Hu.
    cbv zeta in Hu.
    exists (snd (Crud.update_todo_status tid s w)). split; [| split].
    + unfold TodoApi.patch_status_status, TodoApi.respond,
        TodoApi.update_todo_status.
      rewrite (guard_http_ok _ _ _
                 (if Crud.status_eqb (Crud.status r0) s then r0
                  else Crud.touch (Crud.set_status r0 s) (Crud.now w))
                 (snd (Crud.update_todo_status tid s w))); [reflexivity |].
      rewrite (mbind_ok _ _ _ (Crud.status_name s) w);
        [| unfold TodoApi.lift; rewrite validate_status_name; reflexivity].
      unfold Crud.mbind. rewrite Hu.
      destruct (Crud.status_eqb (Crud.status r0) s); reflexivity.
    + rewrite Hu. cbn [snd Crud.db Crud.with_redis].
      destruct (Crud.status_eqb (Crud.status r0) s); reflexivity.
    + rewrite Hu.
      destruct (Crud.status_eqb (Crud.status r0) s); cbn [negb];
        (apply get_todo_hit; [exact Hup |]);
        cbn [snd Crud.redis Crud.with_redis];
        apply post_commit_lookup; destruct r0; exact (db_find_id _ _ _ Hf).
Qed.

(** A stale read: when Redis is unreachable, a [PATCH] of a stored task
    commits the new status (with a fresh [updated_at] when the status
    changes) yet answers 500, and leaves the cached copy in place; once
    Redis is reachable again, [GET] of the id returns that old copy while
    the table holds the updated row. *)
Theorem patch_during_outage_leaves_stale_cache :
  forall tid s w r0 c,
    Crud.redis_up w = false ->
    Crud.db_find tid (Crud.db w) = Some r0 -> Crud.row_ok r0 = true ->
    Crud.rlookup (Crud.redis w) (Crud.KTodo tid) = Some (Crud.RStr c) ->
    let w' := snd (TodoApi.patch_status_status tid s w) in
    fst (TodoApi.patch_status_status tid s w) = 500
    /\ Crud.db_find tid (Crud.db w')
       = Some (if Crud.status_eqb (Crud.status r0) s then r0
               else Crud.touch (Crud.set_status r0 s) (Crud.now w))
    /\ TodoApi.get_todo tid (Crud.mkWorld (Crud.db w') (Crud.redis w') true (Crud.now w'))
       = (Ok c, Crud.mkWorld (Crud.db w') (Crud.redis w') true (Crud.now w')).
Proof.
  intros tid s w r0 c Hdown Hf Hrow Hc w'.
  set (rn := if Crud.status_eqb (Crud.status r0) s then r0
             else Crud.touch (Crud.set_status r0 s) (Crud.now w)).
  set (w1 := if Crud.status_eqb (Crud.status r0) s then w
             else Crud.with_db w (Crud.db_replace rn (Crud.db w))).
  assert (Hp : TodoApi.patch_status_status tid s w = (500, w1)).
  { unfold TodoApi.patch_status_status, TodoApi.respond,
      TodoApi.update_todo_status.
    rewrite (guard_http_other _ _ _ "ConnectionError" w1); [reflexivity |].
    rewrite (mbind_ok _ _ _ (Crud.status_name s) w);
      [| unfold TodoApi.lift; rewrite validate_status_name; reflexivity].
    rewrite (mbind_raise _ _ _ (OtherError "ConnectionError") w1); [reflexivity |].
    unfold Crud.update_todo_status.
    rewrite (mbind_ok _ _ _ (Some r0) w);
      [| unfold Crud.get_todo; rewrite Hf; reflexivity].
    cbv beta iota.
    rewrite (mbind_ok _ _ _ rn w1);
      [| unfold Crud.commit_update, rn, w1; rewrite same_columns_set_status;
         destruct (Crud.status_eqb _ _); simpl;
         [| rewrite row_ok_set_status, Hrow]; reflexivity].
    unfold Crud.mbind at 1. unfold Crud.r_delete, Crud.redis_call.
    unfold w1. destruct (Crud.status_eqb (Crud.status r0) s);
      cbn [Crud.redis_up Crud.with_db]; rewrite Hdown; reflexivity. }
  unfold w'. rewrite Hp. cbn [fst snd].
  split; [reflexivity | split].
  - unfold w1, rn. destruct (Crud.status_eqb (Crud.status r0) s).
    + exact Hf.
    + cbn [Crud.db Crud.with_db].
      apply (db_find_replace _ _ r0); [exact Hf |].
      destruct r0; exact (db_find_id _ _ _ Hf).
  - apply get_todo_hit; [reflexivity |].
    cbn [Crud.redis]. unfold w1.
    destruct (Crud.status_eqb (Crud.status r0) s); exact Hc.
Qed.

Lemma bind_raise_inv :
  forall {A B} (m : res A) (k : A -> res B) e,
    bind m k = Raise e -> m = Raise e \/ exists a, m = Ok a /\ k a = Raise e.
Proof.
  intros A B m k e H. destruct m as [a | e']; [right; exists a; auto |].
  left. simpl in H. injection H as ->. reflexivity.
Qed.

Lemma validate_priority_raise :
  forall p e, TodoMain.validate_priority p = Raise e -> is_422 e.
Proof.
  intros [p|] e H; simpl in H; [| discriminate].
  destruct (_ || _); [| discriminate]. injection H as <-. eexists. reflexivity.
Qed.

Lemma validate_category_raise :
  forall c e, TodoMain.validate_category c = Raise e -> is_422 e.
Proof.
  intros [[| x c]|] e H; unfold TodoMain.validate_category in H; try discriminate.
  destruct (str_in (x :: c) allowed_categories); [discriminate |].
  injection H as <-. eexists. reflexivity.
Qed.

Lemma validate_estimated_time_raise :
  forall v e, TodoApi.validate_estimated_time v = Raise e -> is_422 e.
Proof.
  intros [v|] e H; unfold TodoApi.validate_estimated_time in H; [| discriminate].
  destruct (v <? 0); [injection H as <-; eexists; reflexivity |].
  destruct (1440 <? v); [injection H as <-; eexists; reflexivity | discriminate].
Qed.

(** Every error [validate_update] raises is a 422 [HTTPException]. *)
Lemma validate_update_raise :
  forall u e, TodoApi.validate_update u = Raise e -> is_422 e.
Proof.
  intros [ti de pr ca es] e H. unfold TodoApi.validate_update in H.
  cbn [Crud.u_title Crud.u_description Crud.u_priority Crud.u_category
       Crud.u_estimated_time] in H.
  apply bind_raise_inv in H as [H | [t [_ H]]].
  { destruct ti as [[t|]|]; try discriminate.
    destruct (sanitize_string (Some t) 255) as [[| c cs]|];
      try discriminate; injection H as <-; eexists; reflexivity. }
  apply bind_raise_inv in H as [H | [d [_ H]]].
  { destruct de as [[d|]|]; discriminate. }
  apply bind_raise_inv in H as [H | [p [_ H]]].
  { destruct pr as [[p|]|]; try discriminate.
    apply bind_raise_inv in H as [H | [v [_ H]]];
      [exact (validate_priority_raise _ _ H) | discriminate]. }
  apply bind_raise_inv in H as [H | [c [_ H]]].
  { destruct ca as [[c|]|]; try discriminate.
    apply bind_raise_inv in H as [H | [v [_ H]]];
      [exact (validate_category_raise _ _ H) | discriminate]. }
  apply bind_raise_inv in H as [H | [x [_ H]]]; [| discriminate].
  destruct es as [[x|]|]; try discriminate.
  apply bind_raise_inv in H as [H | [v [_ H]]];
    [exact (validate_estimated_time_raise _ _ H) | discriminate].
Qed.

(** The route when [validate_update] raises: 422, nothing written. *)
Lemma put_validate_raise :
  forall tid u w e,
    TodoApi.todo_update_valid u = true ->
    TodoApi.validate_update u = Raise e ->
    TodoApi.put_todo_status tid u w = (422, w).
Proof.
  intros tid u w e Hv He.
  destruct (validate_update_raise u e He) as [d ->].
  unfold TodoApi.put_todo_status. rewrite Hv. cbn [negb].
  unfold TodoApi.respond, TodoApi.update_todo.
  rewrite (guard_http_http _ _ _ 422 d w); [reflexivity |].
  apply mbind_raise. unfold TodoApi.lift. rewrite He. reflexivity.
Qed.

(** [PUT /todos/{todo_id}]: a payload that passes the schema but whose
    title sanitizes to the empty string, whose non-empty category is not
    one of the allowed ones, or whose estimated time exceeds 1440 minutes
    is answered with 422, and nothing is written, whether or not the task
    exists. *)
Theorem put_invalid_field_422 :
  forall tid u w,
    TodoApi.todo_update_valid u = true ->
    ((exists t, Crud.u_title u = Some (Some t)
                /\ sanitize_string (Some t) 255 = Some [])
     \/ (exists c, Crud.u_category u = Some (Some c) /\ c <> []
                   /\ str_in c allowed_categories = false)
     \/ (exists e, Crud.u_estimated_time u = Some (Some e) /\ 1440 < e)) ->
    TodoApi.put_todo_status tid u w = (422, w).
Proof.
  intros tid u w Hv Hbad.
  destruct (TodoApi.validate_update u) as [u' | e] eqn:E;
    [exfalso | exact (put_validate_raise tid u w e Hv E)].
  destruct u as [ti de pr ca es]. unfold TodoApi.validate_update in E.
  cbn [Crud.u_title Crud.u_description Crud.u_priority Crud.u_category
       Crud.u_estimated_time] in *.
  apply bind_ok_inv in E as [t' [Ht E]].
  apply bind_ok_inv in E as [d' [_ E]].
  apply bind_ok_inv in E as [p' [_ E]].
  apply bind_ok_inv in E as [c' [Hc E]].
  apply bind_ok_inv in E as [e' [He _]].
  destruct Hbad as [[t [-> Hs]] | [[c [-> [Hne Hin]]] | [e [-> Hgt]]]].
  - rewrite Hs in Ht. discriminate.
  - destruct c as [| x c]; [contradiction |].
    unfold TodoMain.validate_category in Hc. rewrite Hin in Hc. discriminate.
  - unfold TodoApi.validate_estimated_time in He.
    destruct (e <? 0); [discriminate |].
    replace (1440 <? e) with true in He by (symmetry; apply Z.ltb_lt; exact Hgt).
    discriminate.
Qed.

(** [PUT /todos/{todo_id}] on an id with no stored task changes nothing and
    answers 404, or 422 when the payload is rejected first. *)
Theorem put_unknown_id :
  forall tid u w,
    Crud.db_find tid (Crud.db w) = None ->
    TodoApi.put_todo_status tid u w = (404, w)
    \/ TodoApi.put_todo_status tid u w = (422, w).
Proof.
  intros tid u w Hf.
  destruct (TodoApi.todo_update_valid u) eqn:Hv;
    [| right; unfold TodoApi.put_todo_status; rewrite Hv; reflexivity].
  destruct (TodoApi.validate_update u) as [u' | e] eqn:E;
    [left | right; exact (put_validate_raise tid u w e Hv E)].
  unfold TodoApi.put_todo_status. rewrite Hv. cbn [negb].
  unfold TodoApi.respond, TodoApi.update_todo.
  rewrite (guard_http_http _ _ _ 404 TodoApi.not_found_detail w); [reflexivity |].
  rewrite (mbind_ok _ _ _ u' w); [| unfold TodoApi.lift; rewrite E; reflexivity].
  rewrite (mbind_ok _ _ _ None w); [reflexivity |].
  unfold Crud.update_todo.
  rewrite (mbind_ok _ _ _ None w);
    [reflexivity | unfold Crud.get_todo; rewrite Hf; reflexivity].
Qed.

Lemma row_ok_retitle :
  forall r0 s, Crud.row_ok r0 = true ->
    Crud.row_ok (Crud.setattr r0 (Crud.SetTitle (Some s)))
    = (List.length s <=? 255)%nat.
Proof.
  intros [i ti d st p c e m ca ua] s H. unfold Crud.row_ok in *. simpl in *.
  apply andb_prop in H as [H Hc]. apply andb_prop in H as [_ Hp].
  rewrite Hp, Hc. rewrite !andb_true_r. reflexivity.
Qed.

(** [PUT /todos/{todo_id}] with a payload that sets only the title, on a
    stored task: the title is stored sanitized. With Redis reachable and a
    sanitized title of at most 255 characters the route answers 200, the
    row gets the sanitized title, with a fresh [updated_at] when it differs
    from the stored title (an equal title writes nothing), and a following
    [GET] returns the row; a sanitized title longer than 255 characters
    (HTML escaping lengthens it) makes the commit fail: 500, nothing
    written. *)
Theorem put_title_route :
  forall tid (t s : pystr) w r0,
    Crud.db_find tid (Crud.db w) = Some r0 -> Crud.row_ok r0 = true ->
    (1 <= List.length t <= 255)%nat ->
    sanitize_string (Some t) 255 = Some s -> s <> [] ->
    let u := Crud.mkTodoUpdate (Some (Some t)) None None None None in
    let r' := if Crud.opt_eqb (Crud.title r0) (Some s) then r0
              else Crud.touch (Crud.setattr r0 (Crud.SetTitle (Some s))) (Crud.now w) in
    (Crud.redis_up w = true -> (List.length s <= 255)%nat ->
     exists w', TodoApi.put_todo_status tid u w = (200, w')
     /\ Crud.db w' = (if Crud.opt_eqb (Crud.title r0) (Some s) then Crud.db w
                      else Crud.db_replace r' (Crud.db w))
     /\ TodoApi.get_todo tid w' = (Ok r', w'))
    /\ ((255 < List.length s)%nat -> TodoApi.put_todo_status tid u w = (500, w)).
Proof.
  intros tid t s w r0 Hf Hrow Hlen Hs Hne u r'.
  assert (Hval : TodoApi.todo_update_valid u = true).
  { unfold TodoApi.todo_update_valid, u. cbn [Crud.u_title Crud.u_priority
      Crud.u_category Crud.u_estimated_time].
    apply andb_true_intro; split; [| reflexivity].
    apply andb_true_intro; split; [| reflexivity].
    apply andb_true_intro; split; [| reflexivity].
    apply andb_true_intro; split; apply Nat.leb_le; lia. }
  set (u' := Crud.mkTodoUpdate (Some (Some s)) None None None None).
  assert (Hvu : TodoApi.validate_update u = Ok u').
  { unfold TodoApi.validate_update, u. cbn [Crud.u_title Crud.u_description
      Crud.u_priority Crud.u_category Crud.u_estimated_time].
    rewrite Hs. destruct s as [| c cs]; [contradiction | reflexivity]. }
  assert (Hfold : fold_left Crud.setattr (Crud.update_data u') r0
                  = Crud.setattr r0 (Crud.SetTitle (Some s))) by reflexivity.
  split.
  - intros Hup Hle.
    assert (Hrow' : Crud.same_columns r0
                      (fold_left Crud.setattr (Crud.update_data u') r0) = false ->
                    Crud.row_ok (fold_left Crud.setattr (Crud.update_data u') r0)
                    = true)
      by (intros _; rewrite Hfold, row_ok_retitle by exact Hrow;
          apply Nat.leb_le; exact Hle).
    pose proof (crud_update_todo_up tid u' w r0 Hup Hf Hrow') as Hu.
    cbv zeta in Hu. rewrite Hfold, same_columns_retitle in Hu.
    exists (snd (Crud.update_todo tid u' w)). split; [| split].
    + unfold TodoApi.put_todo_status. rewrite Hval. cbn [negb].
      unfold TodoApi.respond, TodoApi.update_todo.
      rewrite (guard_http_ok _ _ _ r' (snd (Crud.update_todo tid u' w)));
        [reflexivity |].
      rewrite (mbind_ok _ _ _ u' w); [| unfold TodoApi.lift; rewrite Hvu; reflexivity].
      unfold Crud.mbind. rewrite Hu. unfold r'.
      destruct (Crud.opt_eqb (Crud.title r0) (Some s)); reflexivity.
    + rewrite Hu. unfold r'. cbn [snd Crud.db Crud.with_redis].
      destruct (Crud.opt_eqb (Crud.title r0) (Some s)); reflexivity.
    + rewrite Hu. unfold r'.
      destruct (Crud.opt_eqb (Crud.title r0) (Some s)); cbn [negb];
        (apply get_todo_hit; [exact Hup |]);
        cbn [snd Crud.redis Crud.with_redis];
        apply post_commit_lookup; destruct r0; exact (db_find_id _ _ _ Hf).
  - intros Hgt.
    unfold TodoApi.put_todo_status. rewrite Hval. cbn [negb].
    unfold TodoApi.respond, TodoApi.update_todo.
    rewrite (guard_http_other _ _ _ "IntegrityError" w); [reflexivity |].
    rewrite (mbind_ok _ _ _ u' w); [| unfold TodoApi.lift; rewrite Hvu; reflexivity].
    apply mbind_raise. unfold Crud.update_todo.
    rewrite (mbind_ok _ _ _ (Some r0) w);
      [| unfold Crud.get_todo; rewrite Hf; reflexivity].
    cbv beta iota. apply mbind_raise.
    unfold Crud.commit_update. rewrite Hfold, same_columns_retitle.
    destruct (Crud.opt_eqb (Crud.title r0) (Some s)) eqn:Eq.
    { exfalso. apply opt_eqb_eq in Eq. unfold Crud.row_ok in Hrow.
      rewrite Eq in Hrow. apply andb_prop in Hrow as [Hrow _].
      apply andb_prop in Hrow as [Hrow _]. apply Nat.leb_le in Hrow. lia. }
    rewrite row_ok_retitle by exact Hrow.
    replace (List.length s <=? 255)%nat with false
      by (symmetry; apply Nat.leb_gt; exact Hgt).
    reflexivity.
Qed.

Lemma validate_category_allowed :
  forall c, category_allowed c = true -> TodoMain.validate_category c = Ok c.
Proof.
  intros [[| x v]|] H; try reflexivity.
  unfold TodoMain.validate_category. unfold category_allowed in H.
  rewrite H. reflexivity.
Qed.

Lemma create_valid_category :
  forall todo, TodoMain.todo_create_valid todo = true ->
    match TodoMain.category todo with
    | Some c => (List.length c <=? 50)%nat = true
    | None => True
    end.
Proof.
  intros todo H. unfold TodoMain.todo_create_valid in H.
  repeat (apply andb_prop in H as [H ?]).
  destruct (TodoMain.category todo); [assumption | exact I].
Qed.

Lemma create_valid_priority :
  forall todo, TodoMain.todo_create_valid todo = true ->
    TodoMain.validate_priority (Some (TodoMain.priority todo))
    = Ok (Some (TodoMain.priority todo)).
Proof.
  intros todo H. unfold TodoMain.todo_create_valid in H.
  repeat (apply andb_prop in H as [H ?]).
  apply Z.leb_le in H2. apply Z.leb_le in H3.
  unfold TodoMain.validate_priority.
  replace (TodoMain.priority todo <? 1) with false by (symmetry; apply Z.ltb_ge; lia).
  replace (5 <? TodoMain.priority todo) with false by (symmetry; apply Z.ltb_ge; lia).
  reflexivity.
Qed.

(** [POST /todos] with a payload that passes the schema, whose title
    sanitizes to a non-empty [s] and whose category is allowed: whatever
    Redis does, when [s] has at most 255 characters the route answers 201
    and appends to the table one row with the sanitized title and
    description, status TODO, the given priority, category and estimated
    time (not bounded by 1440 here), and both timestamps set to the commit
    time; when the sanitized title is longer than 255 characters the
    commit fails, the route answers 500 and nothing is written. *)
Theorem post_todos_route :
  forall new_id todo w (s : pystr),
    TodoMain.todo_create_valid todo = true ->
    sanitize_string (Some (TodoMain.title todo)) 255 = Some s -> s <> [] ->
    category_allowed (TodoMain.category todo) = true ->
    let r := Crud.mkTodo new_id (Some s)
               (sanitize_string (TodoMain.description todo) 2000) Crud.TODO
               (Some (TodoMain.priority todo)) (TodoMain.category todo)
               (TodoMain.estimated_time todo) None (Crud.now w) (Crud.now w) in
    ((List.length s <= 255)%nat ->
     exists w', TodoApi.post_todos new_id todo w = (201, w')
     /\ Crud.db w' = Crud.db w ++ [r])
    /\ ((255 < List.length s)%nat -> TodoApi.post_todos new_id todo w = (500, w)).
Proof.
  intros new_id todo w s Hv Hs Hne Hc r.
  set (t' := TodoMain.mkTodoCreate s
               (sanitize_string (TodoMain.description todo) 2000)
               (TodoMain.priority todo) (TodoMain.category todo)
               (TodoMain.estimated_time todo)).
  assert (Htry : TodoMain.create_todo_try _ (fun t => Ok t) todo = Ok t').
  { unfold TodoMain.create_todo_try. cbv zeta.
    rewrite (create_valid_priority todo Hv). cbn [bind].
    rewrite (validate_category_allowed _ Hc). cbn [bind].
    rewrite Hs. destruct s as [| c cs]; [contradiction | reflexivity]. }
  assert (Hrow : Crud.row_ok r = (List.length s <=? 255)%nat).
  { pose proof (create_valid_category todo Hv) as Hcat.
    unfold Crud.row_ok, r. cbn [Crud.title Crud.priority Crud.category].
    destruct (TodoMain.category todo) as [c |];
      [rewrite Hcat |]; rewrite !andb_true_r; reflexivity. }
  pose proof (crud_create_todo_result new_id t' w) as [Hok Hko].
  unfold t' in Hok, Hko.
  cbn [TodoMain.title TodoMain.description TodoMain.priority TodoMain.category
       TodoMain.estimated_time] in Hok, Hko.
  fold t' in Hok, Hko. fold r in Hok, Hko.
  unfold TodoApi.post_todos. rewrite Hv. cbn [negb].
  unfold TodoApi.respond, TodoApi.create_todo. rewrite Htry.
  split.
  - intros Hle. rewrite Hrow in Hok.
    destruct (Hok (proj2 (Nat.leb_le _ _) Hle)) as [H1 H2].
    exists (snd (Crud.create_todo new_id t' w)).
    destruct (Crud.create_todo new_id t' w) as [[r1 | e] w1];
      cbn [fst snd] in *; [| discriminate].
    split; [reflexivity | exact H2].
  - intros Hgt. rewrite Hrow in Hko.
    rewrite (Hko (proj2 (Nat.leb_gt _ _) Hgt)). reflexivity.
Qed.

Lemma filter_true_id : forall {A} (l : list A), List.filter (fun _ => true) l = l.
Proof. intros A l. induction l as [| x l IH]; simpl; [| rewrite IH]; reflexivity. Qed.

Lemma filter_filter_and :
  forall {A} (f g : A -> bool) l,
    List.filter f (List.filter g l) = List.filter (fun x => g x && f x) l.
Proof.
  intros A f g l. induction l as [| x l IH]; simpl; [reflexivity |].
  destruct (g x); simpl; [destruct (f x); simpl |]; rewrite IH; reflexivity.
Qed.

Lemma status_filter_ok :
  forall s v a, Crud.status_filter s = Ok v ->
    pystr_eqb (Crud.status_name a) s
    = match a, v with
      | Crud.TODO, Crud.TODO | Crud.DOING, Crud.DOING
      | Crud.DONE, Crud.DONE => true
      | _, _ => false
      end.
Proof.
  intros s v a H. unfold Crud.status_filter in H.
  destruct (pystr_eqb s (lit "TODO")) eqn:E1;
    [apply pystr_eqb_eq in E1; injection H as <-; subst; destruct a; reflexivity |].
  destruct (pystr_eqb s (lit "DOING")) eqn:E2;
    [apply pystr_eqb_eq in E2; injection H as <-; subst; destruct a; reflexivity |].
  destruct (pystr_eqb s (lit "DONE")) eqn:E3;
    [apply pystr_eqb_eq in E3; injection H as <-; subst; destruct a; reflexivity |].
  discriminate.
Qed.

(** The filter code shared by [crud.get_todos] and [crud.get_todos_count]
    keeps exactly the rows [row_matches] accepts. *)
Lemma list_filters_eq :
  forall rows st cat prio rows1,
    match st with
    | Some s =>
        if truthy (PStr s)
        then v <- Crud.status_filter s ;;
             Ok (List.filter (fun r => match Crud.status r, v with
                                       | Crud.TODO, Crud.TODO | Crud.DOING, Crud.DOING
                                       | Crud.DONE, Crud.DONE => true
                                       | _, _ => false
                                       end) rows)
        else Ok rows
    | None => Ok rows
    end = Ok rows1 ->
    (let rows2 := match cat with
                  | Some c => if truthy (PStr c)
                              then List.filter (fun r => Crud.opt_eqb (Crud.category r) (Some c)) rows1
                              else rows1
                  | None => rows1
                  end in
     match prio with
     | Some p => if negb (p =? 0)
                 then List.filter (fun r => match Crud.priority r with
                                            | Some q => q =? p
                                            | None => false
                                            end) rows2
                 else rows2
     | None => rows2
     end) = List.filter (row_matches st cat prio) rows.
Proof.
  intros rows st cat prio rows1 H. cbv zeta.
  assert (H1 : rows1 = List.filter (fun r => match st with
                 | Some ((_ :: _) as s) => pystr_eqb (Crud.status_name (Crud.status r)) s
                 | _ => true end) rows).
  { destruct st as [[| x s] |].
    - injection H as <-. symmetry. apply filter_true_id.
    - simpl in H. destruct (Crud.status_filter (x :: s)) as [v |] eqn:Ev;
        [| discriminate].
      injection H as <-. apply filter_ext_in. intros a _.
      symmetry. exact (status_filter_ok _ _ (Crud.status a) Ev).
    - injection H as <-. symmetry. apply filter_true_id. }
  subst rows1.
  transitivity (List.filter (fun r => match prio with
                 | Some p => if p =? 0 then true
                             else match Crud.priority r with
                                  | Some q => q =? p | None => false end
                 | None => true end)
                (List.filter (fun r => match cat with
                   | Some ((_ :: _) as c) => Crud.opt_eqb (Crud.category r) (Some c)
                   | _ => true end)
                  (List.filter (fun r => match st with
                     | Some ((_ :: _) as s) => pystr_eqb (Crud.status_name (Crud.status r)) s
                     | _ => true end) rows))).
  - destruct cat as [[| c cs] |]; destruct prio as [p |];
      try destruct (p =? 0); simpl;
      rewrite ?filter_true_id; reflexivity.
  - rewrite !filter_filter_and. apply filter_ext_in. intros a _.
    unfold row_matches. rewrite andb_assoc. reflexivity.
Qed.

Lemma insert_by_perm :
  forall le x l, Permutation (Crud.insert_by le x l) (x :: l).
Proof.
  intros le x l. induction l as [| y l IH]; simpl; [reflexivity |].
  destruct (le x y); [reflexivity |].
  transitivity (y :: x :: l); [constructor; exact IH | constructor].
Qed.

Lemma sort_by_key_perm : forall le l, Permutation (Crud.sort_by_key le l) l.
Proof.
  intros le l. induction l as [| x l IH]; simpl; [reflexivity |].
  transitivity (x :: Crud.sort_by_key le l); [apply insert_by_perm |].
  constructor. exact IH.
Qed.

Lemma crud_get_todos_ok :
  forall rows skip limit st cat prio sort_by order items,
    Crud.get_todos rows skip limit st cat prio sort_by order = Ok items ->
    exists le, items = firstn limit (skipn skip
                 (Crud.sort_by_key le (List.filter (row_matches st cat prio) rows))).
Proof.
  intros rows skip limit st cat prio sort_by order items H.
  unfold Crud.get_todos in H.
  apply bind_ok_inv in H as [rows1 [H1 H]].
  pose proof (list_filters_eq rows st cat prio rows1 H1) as E.
  cbv zeta in E, H. rewrite E in H.
  apply bind_ok_inv in H as [[dir c] [_ H]].
  destruct c; try discriminate; injection H as <-; eexists; reflexivity.
Qed.

Lemma get_todos_count_ok :
  forall rows st cat prio total,
    TodoApi.get_todos_count rows st cat prio = Ok total ->
    total = List.length (List.filter (row_matches st cat prio) rows).
Proof.
  intros rows st cat prio total H. unfold TodoApi.get_todos_count in H.
  apply bind_ok_inv in H as [rows1 [H1 H]].
  pose proof (list_filters_eq rows st cat prio rows1 H1) as E.
  cbv zeta in E, H. rewrite E in H.
  injection H as <-. reflexivity.
Qed.

Lemma in_firstn_skipn :
  forall {A} (x : A) n k l, In x (firstn n (skipn k l)) -> In x l.
Proof.
  intros A x n k l H.
  rewrite <- (firstn_skipn k l). apply in_or_app. right.
  rewrite <- (firstn_skipn n (skipn k l)). apply in_or_app. left. exact H.
Qed.

(** [GET /todos] never writes. When it succeeds, [total] is the number of
    stored rows that pass the filters, the page holds
    [min(page_size, total - (page - 1) * page_size)] items, and each item is
    a stored row that passes the filters. *)
Theorem list_route_page :
  forall page page_size st cat prio sort_by order w,
    snd (TodoApi.get_todos page page_size st cat prio sort_by order w) = w
    /\ (forall total items,
        fst (TodoApi.get_todos page page_size st cat prio sort_by order w)
        = Ok (total, items) ->
        total = List.length (List.filter (row_matches st cat prio) (Crud.db w))
        /\ List.length items = Nat.min page_size (total - (page - 1) * page_size)
        /\ (forall r, In r items ->
            In r (Crud.db w) /\ row_matches st cat prio r = true)).
Proof.
  intros page page_size st cat prio sort_by order w.
  unfold TodoApi.get_todos, TodoApi.guard_http, Crud.try_except.
  destruct (bind (Crud.get_todos _ _ _ _ _ _ _ _) _) as [[total items] | e] eqn:E.
  - split; [reflexivity |]. intros total' items' H.
    cbn [fst] in H. injection H as <- <-.
    apply bind_ok_inv in E as [todos [Ht E]].
    apply bind_ok_inv in E as [cnt [Hc E]]. injection E as <- <-.
    apply get_todos_count_ok in Hc.
    destruct (crud_get_todos_ok _ _ _ _ _ _ _ _ _ Ht) as [le ->].
    split; [exact Hc | split].
    + rewrite length_firstn, length_skipn.
      rewrite (Permutation_length (sort_by_key_perm le _)). rewrite Hc. reflexivity.
    + intros r Hin. apply in_firstn_skipn in Hin.
      apply (Permutation_in _ (sort_by_key_perm le _)) in Hin.
      apply filter_In in Hin. exact Hin.
  - destruct e; split; try reflexivity; intros total items H; discriminate.
Qed.


Lemma status_counts_sum :
  forall rows,
    (TodoApi.status_count rows Crud.TODO + TodoApi.status_count rows Crud.DOING
     + TodoApi.status_count rows Crud.DONE)%nat = List.length rows.
Proof.
  intros rows. unfold TodoApi.status_count.
  induction rows as [| r rows IH]; [reflexivity |].
  simpl. destruct (Crud.status r); simpl; lia.
Qed.

(** [GET /todos/stats/summary]: the TODO, DOING and DONE counts add up to
    the total, and an empty table has completion rate 0. *)
Theorem stats_counts_partition :
  forall rounded_rate rows,
    let st := TodoApi.get_todo_stats rounded_rate rows in
    (TodoApi.stats_todo st + TodoApi.stats_doing st + TodoApi.stats_done st)%nat
    = TodoApi.stats_total st
    /\ (rows = [] -> TodoApi.completion_rate st = PInt 0).
Proof.
  intros rounded_rate rows st. split.
  - apply status_counts_sum.
  - intros ->. reflexivity.
Qed.



Lemma backoff_from_first_ok :
  forall {A} fuel k n (call : nat -> res A) m a,
    (k + fuel = n)%nat -> (k <= m < n)%nat -> call m = Ok a ->
    (forall j, (k <= j < m)%nat -> exists e, call j = Raise e) ->
    Agents.backoff_from k fuel n call = Some (Ok a).
Proof.
  intros A fuel. induction fuel as [| f IH]; intros k n call m a Hn Hm Hc Hb;
    [lia |].
  simpl. destruct (Nat.eq_dec k m) as [-> | Hne]; [rewrite Hc; reflexivity |].
  destruct (Hb k ltac:(lia)) as [e He]. rewrite He.
  replace (k =? n - 1)%nat with false by (symmetry; apply Nat.eqb_neq; lia).
  apply (IH (S k) n call m a); [lia | lia | exact Hc |].
  intros j Hj. apply Hb. lia.
Qed.

Lemma backoff_from_all_raise :
  forall {A} fuel k n (call : nat -> res A),
    (k + fuel = n)%nat -> (k < n)%nat ->
    (forall j, (k <= j < n)%nat -> exists e, call j = Raise e) ->
    Agents.backoff_from k fuel n call = Some (call (n - 1)%nat).
Proof.
  intros A fuel. induction fuel as [| f IH]; intros k n call Hn Hk Hb; [lia |].
  simpl. destruct (Hb k ltac:(lia)) as [e He]. rewrite He.
  destruct (k =? n - 1)%nat eqn:E.
  - apply Nat.eqb_eq in E. subst k. rewrite He. reflexivity.
  - apply Nat.eqb_neq in E. apply IH; [lia | lia |].
    intros j Hj. apply Hb. lia.
Qed.

(** [with_exponential_backoff(max_retries)]: with [max_retries = 0] the
    wrapped call is never made and the wrapper returns [None]; otherwise
    the result of the first attempt that returns is returned, and when all
    [max_retries] attempts raise, the exception of the last attempt is
    raised. *)
Theorem backoff_behaviour :
  forall {A} n (call : nat -> res A),
    (n = 0%nat -> Agents.with_exponential_backoff n call = None)
    /\ (forall k a, (k < n)%nat -> call k = Ok a ->
        (forall j, (j < k)%nat -> exists e, call j = Raise e) ->
        Agents.with_exponential_backoff n call = Some (Ok a))
    /\ ((0 < n)%nat -> (forall j, (j < n)%nat -> exists e, call j = Raise e) ->
        Agents.with_exponential_backoff n call = Some (call (n - 1)%nat)).
Proof.
  intros A n call. unfold Agents.with_exponential_backoff. split; [| split].
  - intros ->. reflexivity.
  - intros k a Hk Hc Hb. apply (backoff_from_first_ok n 0 n call k a);
      [lia | lia | exact Hc |]. intros j Hj. apply Hb. lia.
  - intros Hn Hb. apply backoff_from_all_raise; [lia | lia |].
    intros j Hj. apply Hb. lia.
Qed.

Lemma validate_todo_data_ok :
  forall d v, AiMain.validate_todo_data d = Ok v -> fields_in_range v.
Proof.
  intros d v H. unfold AiMain.validate_todo_data in H.
  apply bind_ok_inv in H as [d1 [_ H]].
  apply bind_ok_inv in H as [d2 [_ H]].
  apply bind_ok_inv in H as [u1 [Hc H]].
  apply bind_ok_inv in H as [u2 [Hp H]].
  apply bind_ok_inv in H as [u3 [He H]].
  injection H as <-. unfold fields_in_range. split; [| split].
  - destruct (dict_get d2 (lit "priority")) as [p |]; [| exact I].
    destruct p; try exact I; cbn [AiMain.as_int] in Hp |- *;
      try discriminate;
      match type of Hp with
      | (if ?c then _ else _) = _ =>
          destruct c eqn:Ec; [discriminate |];
          apply orb_false_iff in Ec as [E1 E2];
          apply Z.ltb_ge in E1; apply Z.ltb_ge in E2;
          eexists; split; [reflexivity | lia]
      end.
  - destruct (dict_get d2 (lit "estimated_time")) as [p |]; [| exact I].
    destruct p; try exact I; cbn [AiMain.as_int] in He |- *;
      try discriminate;
      match type of He with
      | (if ?c then _ else if ?c' then _ else _) = _ =>
          destruct c eqn:E1; [discriminate |];
          destruct c' eqn:E2; [discriminate |];
          apply Z.ltb_ge in E1; apply Z.ltb_ge in E2;
          eexists; split; [reflexivity | lia]
      end.
  - destruct (dict_get d2 (lit "category")) as [c |]; [| exact I].
    intros Ht. rewrite Ht in Hc.
    destruct c; try discriminate.
    destruct (str_in s allowed_categories) eqn:Es; [| discriminate].
    exists s. split; [reflexivity | exact Es].
Qed.

(** [POST /ai/parse]: whatever the LLM answers, a 200 response carries
    either a falsy [todo] (the empty dict of a failed aggregation) or a
    dict whose priority, estimated time and category are within the
    allowed ranges. *)
Theorem parse_route_todo_in_range :
  forall llm text todo errors,
    AiFlow.parse_natural_language llm text = (200, Some (todo, errors)) ->
    truthy todo = false \/ exists d, todo = PDict d /\ fields_in_range d.
Proof.
  intros llm text todo errors H. unfold AiFlow.parse_natural_language in H.
  destruct (negb _); [discriminate |].
  destruct (AiFlow.parse_try llm text) as [[f errs] | [c dt | n]] eqn:E;
    [| injection H as Hc; subst c; discriminate | discriminate].
  injection H as <- <-.
  unfold AiFlow.parse_try in E.
  destruct (sanitize_string (Some text) 500) as [[| x s] |]; try discriminate.
  destruct (AiFlow.run_workflow llm (x :: s)) as [f0 errs0].
  apply bind_ok_inv in E as [f1 [Hf E]]. injection E as <- <-.
  destruct (truthy f0) eqn:Tf.
  - destruct f0; try discriminate.
    apply bind_ok_inv in Hf as [v [Hv Hf]]. injection Hf as <-.
    right. exists v. split; [reflexivity | exact (validate_todo_data_ok _ _ Hv)].
  - injection Hf as <-. left. exact Tf.
Qed.

Lemma parse_once_fails :
  forall s o, llm_fails o = true ->
    Agents.parse_once s o = Ok (Agents.parse_fallback s).
Proof. intros s [e | [v |]] H; try discriminate; reflexivity. Qed.

Lemma recommend_once_fails :
  forall d o, llm_fails o = true ->
    AiFlow.recommend_once (PDict d) o
    = Ok (PDict [(lit "recommended_priority",
                  match dict_get d (lit "priority") with
                  | Some p => p
                  | None => PInt 3
                  end);
                 (lit "reasoning", PStr AiFlow.priority_error_text);
                 (lit "confidence", AiFlow.fallback_confidence)]).
Proof. intros d [e | [v |]] H; try discriminate; reflexivity. Qed.

Lemma categorize_once_fails :
  forall d o, llm_fails o = true ->
    AiFlow.categorize_once (PDict d) o = Ok AiFlow.category_fallback.
Proof. intros d [e | [v |]] H; try discriminate; reflexivity. Qed.

Lemma estimate_once_fails :
  forall d o, llm_fails o = true ->
    AiFlow.estimate_once (PDict d) o = Ok AiFlow.time_fallback.
Proof. intros d [e | [v |]] H; try discriminate; reflexivity. Qed.

Lemma run_workflow_all_fail :
  forall llm s,
    llm_fails (AiFlow.llm_parse llm 0) = true ->
    llm_fails (AiFlow.llm_priority llm 0) = true ->
    llm_fails (AiFlow.llm_category llm 0) = true ->
    llm_fails (AiFlow.llm_time llm 0) = true ->
    AiFlow.run_workflow llm s = (PDict (ai_fallback_todo (firstn 255 s)), []).
Proof.
  intros llm s Hp Hr Hc Ht.
  unfold AiFlow.run_workflow, AiFlow.parse_input, Agents.parse,
    Agents.with_exponential_backoff.
  cbn [Agents.backoff_from]. rewrite (parse_once_fails _ _ Hp).
  unfold AiFlow.suggestion_node, AiFlow.recommend, AiFlow.categorize,
    AiFlow.estimate, Agents.with_exponential_backoff.
  cbn [Agents.backoff_from AiFlow.node_update AiFlow.channel].
  unfold Agents.parse_fallback at 1 2 3 4.
  rewrite (recommend_once_fails _ _ Hr), (categorize_once_fails _ _ Hc),
    (estimate_once_fails _ _ Ht).
  reflexivity.
Qed.

Lemma validate_fallback_todo :
  forall (c : Z) (u : pystr),
    AiMain.validate_todo_data (ai_fallback_todo (c :: u)) =
    match sanitize_string (Some (c :: u)) 255 with
    | Some ((_ :: _) as t') => Ok (ai_fallback_todo t')
    | _ => Raise (AiMain.unprocessable (lit "Title cannot be empty"))
    end.
Proof.
  intros c u. unfold AiMain.validate_todo_data.
  change (dict_get (ai_fallback_todo (c :: u)) (lit "title"))
    with (Some (PStr (c :: u))).
  unfold AiMain.sanitize_value. cbv iota beta.
  replace (truthy (PStr (c :: u))) with true by reflexivity.
  cbv iota beta.
  destruct (sanitize_string _ 255) as [[| d t] |]; reflexivity.
Qed.

(** [POST /ai/parse] when the LLM's first answer to each of the four agents
    is an error (each agent catches it and returns its fallback, so no
    second attempt is made): the response is 200 with the parse fallback
    and the 0.3 confidences, no error, and as title the input sanitized
    twice, first at 500 characters, then cut to 255 and sanitized again;
    when that title is empty the response is 422. *)
Theorem parse_route_all_llm_failures :
  forall llm (text s : pystr),
    llm_fails (AiFlow.llm_parse llm 0) = true ->
    llm_fails (AiFlow.llm_priority llm 0) = true ->
    llm_fails (AiFlow.llm_category llm 0) = true ->
    llm_fails (AiFlow.llm_time llm 0) = true ->
    (1 <= List.length text <= 500)%nat ->
    sanitize_string (Some text) 500 = Some s -> s <> [] ->
    match sanitize_string (Some (firstn 255 s)) 255 with
    | Some ((_ :: _) as t) =>
        AiFlow.parse_natural_language llm text
        = (200, Some (PDict (ai_fallback_todo t), []))
    | _ => AiFlow.parse_natural_language llm text = (422, None)
    end.
Proof.
  intros llm text s Hp Hr Hc Ht Hlen Hs Hne.
  destruct s as [| x s']; [contradiction |].
  assert (Hf : firstn 255 (x :: s') = x :: firstn 254 s') by reflexivity.
  unfold AiFlow.parse_natural_language.
  replace ((1 <=? List.length text)%nat && (List.length text <=? 500)%nat)
    with true by (symmetry; apply andb_true_intro; split; apply Nat.leb_le; lia).
  cbn [negb]. unfold AiFlow.parse_try. rewrite Hs.
  rewrite (run_workflow_all_fail llm (x :: s') Hp Hr Hc Ht).
  rewrite Hf, validate_fallback_todo.
  destruct (sanitize_string (Some (x :: firstn 254 s')) 255) as [[| c t] |];
    reflexivity.
Qed.


Lemma dict_get_set_other :
  forall d k k' v, pystr_eqb k' k = false ->
    dict_get (dict_set d k v) k' = dict_get d k'.
Proof.
  induction d as [| [k0 v0] d IH]; intros k k' v Hne; simpl.
  - rewrite Hne. reflexivity.
  - destruct (pystr_eqb k k0) eqn:E; simpl.
    + apply pystr_eqb_eq in E. subst k0. rewrite Hne. reflexivity.
    + destruct (pystr_eqb k' k0); [reflexivity | apply IH; exact Hne].
Qed.

Lemma validate_todo_data_keeps_priority :
  forall d d', AiMain.validate_todo_data d = Ok d' ->
    dict_get d' (lit "priority") = dict_get d (lit "priority").
Proof.
  intros d d' H. unfold AiMain.validate_todo_data in H.
  apply bind_ok_inv in H as [d1 [H1 H]].
  apply bind_ok_inv in H as [d2 [H2 H]].
  apply bind_ok_inv in H as [u1 [_ H]].
  apply bind_ok_inv in H as [u2 [_ H]].
  apply bind_ok_inv in H as [u3 [_ H]].
  injection H as <-.
  assert (E2 : dict_get d2 (lit "priority") = dict_get d1 (lit "priority")).
  { destruct (dict_get d1 (lit "description")) as [t |];
      [destruct (truthy t) |]; try (injection H2 as <-; reflexivity).
    apply bind_ok_inv in H2 as [t' [_ H2]]. injection H2 as <-.
    apply dict_get_set_other. reflexivity. }
  rewrite E2.
  destruct (dict_get d (lit "title")) as [t |];
    [destruct (truthy t) |]; try (injection H1 as <-; reflexivity).
  apply bind_ok_inv in H1 as [t' [_ H1]].
  destruct (truthy t'); [| discriminate].
  injection H1 as <-. apply dict_get_set_other. reflexivity.
Qed.

(** [POST /ai/recommend-priority] on a body that passes [TodoData] and
    [validate_todo_data]: the response is 200, and its [recommendation] is
    the JSON value of the LLM's first answer, unchecked, or, when that answer
    is an error or not JSON, the fallback whose [recommended_priority] is
    the body's [priority] entry, [null] when the body gave none. *)
Theorem recommend_priority_route :
  forall llm t d,
    AiFlow.todo_data_valid t = true ->
    AiMain.validate_todo_data (AiFlow.todo_data_dict t) = Ok d ->
    AiFlow.recommend_priority llm t
    = (200, Some (match AiFlow.llm_priority llm 0 with
                  | Agents.LlmContent (Some v) => v
                  | _ => priority_fallback (AiFlow.opt_pyint (AiFlow.td_priority t))
                  end)).
Proof.
  intros llm t d Hv Hd. unfold AiFlow.recommend_priority.
  rewrite Hv. cbn [negb]. rewrite Hd. cbn [bind].
  unfold AiFlow.single_node, AiFlow.recommend, Agents.with_exponential_backoff.
  cbn [Agents.backoff_from]. unfold AiFlow.recommend_once.
  rewrite (validate_todo_data_keeps_priority _ _ Hd).
  destruct (AiFlow.llm_priority llm 0) as [e | [v |]]; reflexivity.
Qed.

(** [POST /ai/categorize] and [POST /ai/estimate-time] validate nothing
    beyond [TodoData]: for every body that passes it (a category outside the
    allow-list or a title with markup included), the response is 200 with
    the JSON value of the LLM's first answer, unchecked, or the agent's
    fallback when that answer is an error or not JSON. *)
Theorem categorize_estimate_route :
  forall llm t,
    AiFlow.todo_data_valid t = true ->
    AiFlow.categorize_todo llm t
    = (200, Some (match AiFlow.llm_category llm 0 with
                  | Agents.LlmContent (Some v) => v
                  | _ => AiFlow.category_fallback
                  end))
    /\ AiFlow.estimate_time llm t
       = (200, Some (match AiFlow.llm_time llm 0 with
                     | Agents.LlmContent (Some v) => v
                     | _ => AiFlow.time_fallback
                     end)).
Proof.
  intros llm t Hv. unfold AiFlow.categorize_todo, AiFlow.estimate_time.
  rewrite Hv. cbn [negb].
  unfold AiFlow.single_node, AiFlow.categorize, AiFlow.estimate,
    Agents.with_exponential_backoff.
  cbn [Agents.backoff_from]. unfold AiFlow.categorize_once, AiFlow.estimate_once.
  split; [destruct (AiFlow.llm_category llm 0) as [e | [v |]]
         | destruct (AiFlow.llm_time llm 0) as [e | [v |]]]; reflexivity.
Qed.


Lemma counts_get_filter :
  forall m ip ip', pystr_eqb ip' ip = false ->
    RateLimit.counts_get
      (List.filter (fun '(k, _) => negb (pystr_eqb ip k)) m) ip'
    = RateLimit.counts_get m ip'.
Proof.
  induction m as [| [k l] m IH]; intros ip ip' Hne; [reflexivity |].
  simpl. destruct (pystr_eqb ip k) eqn:E; simpl.
  - apply pystr_eqb_eq in E. subst k. rewrite Hne. apply IH. exact Hne.
  - destruct (pystr_eqb ip' k); [reflexivity | apply IH; exact Hne].
Qed.

Lemma counts_get_set :
  forall m ip ip' l,
    RateLimit.counts_get (RateLimit.counts_set m ip l) ip'
    = if pystr_eqb ip' ip then l else RateLimit.counts_get m ip'.
Proof.
  intros m ip ip' l. unfold RateLimit.counts_set. simpl.
  destruct (pystr_eqb ip' ip) eqn:E; [reflexivity |].
  apply counts_get_filter. exact E.
Qed.

Lemma in_window_mono :
  forall t0 t x, (t0 <= t)%Q ->
    RateLimit.in_window t x = true -> RateLimit.in_window t0 x = true.
Proof.
  unfold RateLimit.in_window, RateLimit.RATE_LIMIT_WINDOW.
  intros t0 t x Hle H. apply negb_true_iff in H. apply negb_true_iff.
  apply not_true_iff_false. intros H0. apply Qle_bool_iff in H0.
  apply not_true_iff_false in H. apply H. apply Qle_bool_iff. lra.
Qed.

Lemma filter_in_window_twice :
  forall t0 t l, (t0 <= t)%Q ->
    List.filter (RateLimit.in_window t) (List.filter (RateLimit.in_window t0) l)
    = List.filter (RateLimit.in_window t) l.
Proof.
  intros t0 t l Hle. induction l as [| x l IH]; [reflexivity |]. simpl.
  destruct (RateLimit.in_window t x) eqn:Ex.
  - rewrite (in_window_mono t0 t x Hle Ex). simpl. rewrite Ex, IH. reflexivity.
  - destruct (RateLimit.in_window t0 x); simpl; [rewrite Ex |]; exact IH.
Qed.

Lemma counts_agree_later :
  forall m h t0 t1, (t0 <= t1)%Q -> counts_agree m h t0 -> counts_agree m h t1.
Proof.
  intros m h t0 t1 Hle H ip t Ht. apply H. lra.
Qed.

Lemma middleware_decision :
  forall n m h t0 path ip t,
    counts_agree m h t0 -> (t0 <= t)%Q ->
    RateLimit.ends_with path (lit "/health") = false ->
    fst (RateLimit.rate_limit_middleware n m path ip t)
    = if (List.length (List.filter (RateLimit.in_window t) (h ip)) <? n)%nat
      then RateLimit.CallNext
      else RateLimit.MwRaise (HTTPException 429 (lit "Too many requests")).
Proof.
  intros n m h t0 path ip t Hag Ht Hh.
  unfold RateLimit.rate_limit_middleware. rewrite Hh.
  unfold RateLimit.check_rate_limit. rewrite (Hag ip t Ht).
  destruct (n <=? _)%nat eqn:E; simpl.
  - apply Nat.leb_le in E. replace (_ <? n)%nat with false
      by (symmetry; apply Nat.ltb_ge; exact E). reflexivity.
  - apply Nat.leb_gt in E. replace (_ <? n)%nat with true
      by (symmetry; apply Nat.ltb_lt; exact E). reflexivity.
Qed.

Lemma middleware_agree :
  forall n m h t0 path ip t,
    counts_agree m h t0 -> (t0 <= t)%Q ->
    let (s, m') := RateLimit.rate_limit_middleware n m path ip t in
    counts_agree m'
      (fun ip' => h ip' ++ passed_times ip' [(path, ip, t)] [s]) t.
Proof.
  intros n m h t0 path ip t Hag Ht.
  unfold RateLimit.rate_limit_middleware.
  destruct (RateLimit.ends_with path (lit "/health")) eqn:Hh.
  - intros ip' t' Ht'. cbn [passed_times]. rewrite Hh. cbn [negb].
    rewrite andb_false_r, andb_false_l, !app_nil_r. apply Hag. lra.
  - unfold RateLimit.check_rate_limit.
    destruct (n <=? _)%nat eqn:E; intros ip' t' Ht'; cbn [fst snd];
      rewrite counts_get_set; cbn [passed_times]; rewrite Hh; cbn [negb];
      rewrite andb_true_r;
      destruct (pystr_eqb ip' ip) eqn:Eip; cbn [andb]; rewrite ?app_nil_r;
      try (apply Hag; lra).
    + apply pystr_eqb_eq in Eip. subst ip'.
      rewrite filter_in_window_twice by lra. apply Hag. lra.
    + apply pystr_eqb_eq in Eip. subst ip'.
      rewrite !filter_app, filter_in_window_twice by lra.
      rewrite (Hag ip t' ltac:(lra)). reflexivity.
Qed.

Lemma run_requests_agree :
  forall n pre m h t0 T,
    counts_agree m h t0 -> (t0 <= T)%Q ->
    times_sorted pre = true ->
    Forall (fun '(_, _, t) => (t0 <= t)%Q /\ (t <= T)%Q) pre ->
    let (steps, m') := RateLimit.run_requests n m pre in
    counts_agree m' (fun ip => h ip ++ passed_times ip pre steps) T.
Proof.
  intros n pre. induction pre as [| [[path ip] t] pre IH];
    intros m h t0 T Hag HT Hs Hall.
  - simpl. intros ip t' Ht'. rewrite app_nil_r. apply Hag. lra.
  - simpl.
    inversion Hall as [| ? ? Hx Hall']; subst. destruct Hx as [Ht0 HtT].
    simpl in Hs. apply andb_true_iff in Hs as [Hhd Hs].
    pose proof (middleware_agree n m h t0 path ip t Hag Ht0) as Hstep.
    destruct (RateLimit.rate_limit_middleware n m path ip t) as [s m1] eqn:Em.
    specialize (IH m1 (fun ip' => h ip' ++ passed_times ip' [(path, ip, t)] [s])
                  t T Hstep HtT Hs).
    destruct (RateLimit.run_requests n m1 pre) as [ss m2] eqn:Er.
    assert (Hall2 : Forall (fun '(_, _, t') => (t <= t')%Q /\ (t' <= T)%Q) pre).
    { rewrite Forall_forall in Hall' |- *. rewrite forallb_forall in Hhd.
      intros [[p i] t'] Hin. split.
      - apply Qle_bool_iff. exact (Hhd _ Hin).
      - exact (proj2 (Hall' _ Hin)). }
    specialize (IH Hall2).
    change (counts_agree m2
              (fun ip0 => h ip0 ++ passed_times ip0 ((path, ip, t) :: pre) (s :: ss))
              T).
    intros ip' t' Ht'. rewrite (IH ip' t' Ht'). f_equal.
    cbn [passed_times]. rewrite app_nil_r, app_assoc. reflexivity.
Qed.

Lemma times_sorted_app_last :
  forall pre path ip t,
    times_sorted (pre ++ [(path, ip, t)]) = true ->
    times_sorted pre = true
    /\ Forall (fun '(_, _, t') => (t' <= t)%Q) pre.
Proof.
  induction pre as [| [[p i] t'] pre IH]; intros path ip t H;
    [split; [reflexivity | constructor] |].
  simpl in H. apply andb_true_iff in H as [Hhd H].
  destruct (IH path ip t H) as [Hs Hall].
  rewrite forallb_app in Hhd. apply andb_true_iff in Hhd as [Hhd Hlast].
  simpl in Hlast. rewrite andb_true_r in Hlast.
  split.
  - simpl. rewrite Hhd, Hs. reflexivity.
  - constructor; [apply Qle_bool_iff; exact Hlast | exact Hall].
Qed.

(** The sliding window of [check_rate_limit]: for requests whose times never
    decrease, a request to a path other than [/health] is let through
    exactly when fewer than [n] earlier requests from the same client were
    let through less than 60 seconds before it; otherwise the middleware
    raises [HTTPException(429)]. *)
Theorem rate_limit_sliding_window :
  forall n pre path ip t,
    times_sorted (pre ++ [(path, ip, t)]) = true ->
    RateLimit.ends_with path (lit "/health") = false ->
    let (steps, m) := RateLimit.run_requests n [] pre in
    fst (RateLimit.rate_limit_middleware n m path ip t)
    = if (List.length (List.filter (RateLimit.in_window t)
                         (passed_times ip pre steps)) <? n)%nat
      then RateLimit.CallNext
      else RateLimit.MwRaise (HTTPException 429 (lit "Too many requests")).
Proof.
  intros n pre path ip t Hs Hh.
  destruct (times_sorted_app_last pre path ip t Hs) as [Hpre Hle].
  set (t0 := match pre with (_, _, t1) :: _ => t1 | [] => t end).
  assert (Hall : Forall (fun '(_, _, t') => (t0 <= t')%Q /\ (t' <= t)%Q) pre).
  { subst t0. destruct pre as [| [[p1 i1] t1] pre']; [constructor |].
    simpl in Hpre. apply andb_true_iff in Hpre as [Hhd _].
    rewrite forallb_forall in Hhd.
    inversion Hle as [| ? ? Hx Hle']; subst.
    constructor; [split; [apply Qle_refl | exact Hx] |].
    rewrite Forall_forall in Hle' |- *. intros [[p i] t'] Hin. split.
    - apply Qle_bool_iff. exact (Hhd _ Hin).
    - exact (Hle' _ Hin). }
  assert (Ht0 : (t0 <= t)%Q).
  { subst t0. destruct pre as [| [[p1 i1] t1] pre']; [apply Qle_refl |].
    inversion Hle as [| ? ? Hx _]; exact Hx. }
  assert (Hemp : counts_agree [] (fun _ => []) t0)
    by (intros ip' t' _; reflexivity).
  pose proof (run_requests_agree n pre [] (fun _ => []) t0 t Hemp Ht0 Hpre Hall)
    as Hrun.
  destruct (RateLimit.run_requests n [] pre) as [steps m].
  exact (middleware_decision n m _ t path ip t Hrun (Qle_refl t) Hh).
Qed.


Lemma sanitize_string_length_witness :
  (List.length (List.concat (repeat (lit "&amp;") 60)) <= 6 * Nat.min 255 60)%nat.
Proof.
  apply (sanitize_string_length amp_title 255). vm_compute. reflexivity.
Defined.

Lemma crud_mutations_keep_cache_coherent_witness :
  Crud.update_todo_status 1 Crud.DONE redis_up_world = (Ok (Some done_row), done_world)
  /\ Crud.db_find 1 (Crud.db done_world) = Some done_row
  /\ cache_coherent redis_up_world done_world done_row.
Proof.
  assert (E : Crud.update_todo_status 1 Crud.DONE redis_up_world
              = (Ok (Some done_row), done_world)) by (vm_compute; reflexivity).
  split; [exact E |].
  exact (proj2 (proj2 crud_mutations_keep_cache_coherent) 1 Crud.DONE
           redis_up_world done_row done_world eq_refl E).
Defined.

Lemma get_todo_route_witness :
  TodoApi.get_todo_status 1 redis_down_world = (500, redis_down_world)
  /\ TodoApi.get_todo 1 cached_world = (Ok sample_row, cached_world)
  /\ TodoApi.get_todo 1 redis_up_world
     = (Ok sample_row, Crud.with_redis redis_up_world
                         [(Crud.KTodo 1, Crud.RStr sample_row)])
  /\ TodoApi.get_todo_status 2 redis_up_world = (404, redis_up_world).
Proof.
  split; [apply (proj1 (get_todo_route 1 redis_down_world)); reflexivity |].
  split; [apply (proj1 (proj2 (get_todo_route 1 cached_world)));
          reflexivity |].
  split; [apply (proj1 (proj2 (proj2 (get_todo_route 1 redis_up_world))));
          reflexivity |].
  apply (proj2 (proj2 (proj2 (get_todo_route 2 redis_up_world))));
    reflexivity.
Defined.

Lemma delete_route_witness :
  TodoApi.delete_status 2 redis_up_world = (404, redis_up_world)
  /\ (exists w', TodoApi.delete_status 1 redis_up_world = (204, w')
       /\ Crud.db w' = []
       /\ TodoApi.get_todo_status 1 w' = (404, w'))
  /\ (exists w', TodoApi.delete_status 1 redis_down_world = (500, w')
       /\ Crud.db w' = []).
Proof.
  split; [apply (proj1 (delete_route 2 redis_up_world)); reflexivity |].
  split.
  - apply (proj1 (proj2 (delete_route 1 redis_up_world)));
      [reflexivity | discriminate].
  - apply (proj2 (proj2 (delete_route 1 redis_down_world)));
      [reflexivity | discriminate].
Defined.

Lemma patch_status_route_witness :
  TodoApi.patch_status_status 2 Crud.DONE redis_up_world = (404, redis_up_world)
  /\ (exists w', TodoApi.patch_status_status 1 Crud.DONE redis_up_world = (200, w')
       /\ Crud.db w' = [done_row]
       /\ TodoApi.get_todo 1 w' = (Ok done_row, w'))
  /\ (exists w', TodoApi.patch_status_status 1 Crud.TODO redis_up_world = (200, w')
       /\ Crud.db w' = [sample_row]
       /\ TodoApi.get_todo 1 w' = (Ok sample_row, w')).
Proof.
  split; [apply (proj1 (patch_status_route 2 Crud.DONE redis_up_world));
          reflexivity |].
  split.
  - apply (proj2 (patch_status_route 1 Crud.DONE redis_up_world) sample_row);
      reflexivity.
  - apply (proj2 (patch_status_route 1 Crud.TODO redis_up_world) sample_row);
      reflexivity.
Defined.

Lemma patch_during_outage_leaves_stale_cache_witness :
  let w' := snd (TodoApi.patch_status_status 1 Crud.DONE stale_world) in
  fst (TodoApi.patch_status_status 1 Crud.DONE stale_world) = 500
  /\ Crud.db_find 1 (Crud.db w') = Some done_row
  /\ TodoApi.get_todo 1 (Crud.mkWorld (Crud.db w') (Crud.redis w') true (Crud.now w'))
     = (Ok sample_row, Crud.mkWorld (Crud.db w') (Crud.redis w') true (Crud.now w')).
Proof.
  apply (patch_during_outage_leaves_stale_cache 1 Crud.DONE stale_world
           sample_row sample_row); reflexivity.
Defined.

Lemma put_invalid_field_422_witness :
  TodoApi.put_todo_status 1
    (Crud.mkTodoUpdate None None None (Some (Some (lit "Shopping"))) None)
    redis_up_world = (422, redis_up_world).
Proof.
  apply put_invalid_field_422; [reflexivity |].
  right; left. exists (lit "Shopping").
  split; [reflexivity | split; [discriminate | reflexivity]].
Defined.

Lemma put_unknown_id_witness :
  TodoApi.put_todo_status 2 retitle redis_up_world = (404, redis_up_world)
  \/ TodoApi.put_todo_status 2 retitle redis_up_world = (422, redis_up_world).
Proof. apply put_unknown_id. reflexivity. Defined.

Lemma put_title_route_witness :
  (exists w', TodoApi.put_todo_status 1 retitle redis_up_world = (200, w')
   /\ Crud.db w' = [Crud.touch (Crud.setattr sample_row
                      (Crud.SetTitle (Some (lit "Write final report")))) 5]
   /\ TodoApi.get_todo 1 w'
      = (Ok (Crud.touch (Crud.setattr sample_row
               (Crud.SetTitle (Some (lit "Write final report")))) 5), w'))
  /\ (exists w', TodoApi.put_todo_status 1
                   (Crud.mkTodoUpdate (Some (Some (lit "Write report"))) None None None None)
                   redis_up_world = (200, w')
       /\ Crud.db w' = [sample_row]
       /\ TodoApi.get_todo 1 w' = (Ok sample_row, w'))
  /\ TodoApi.put_todo_status 1
       (Crud.mkTodoUpdate (Some (Some amp_title)) None None None None)
       redis_up_world = (500, redis_up_world).
Proof.
  split; [| split].
  - apply (proj1 (put_title_route 1 (lit "Write final report")
                    (lit "Write final report") redis_up_world sample_row
                    eq_refl eq_refl ltac:(vm_compute; lia) eq_refl
                    ltac:(discriminate)));
      [reflexivity | vm_compute; lia].
  - apply (proj1 (put_title_route 1 (lit "Write report") (lit "Write report")
                    redis_up_world sample_row
                    eq_refl eq_refl ltac:(vm_compute; lia) eq_refl
                    ltac:(discriminate)));
      [reflexivity | vm_compute; lia].
  - apply (proj2 (put_title_route 1 amp_title (List.concat (repeat (lit "&amp;") 60))
                    redis_up_world sample_row eq_refl eq_refl
                    ltac:(vm_compute; lia) ltac:(vm_compute; reflexivity)
                    ltac:(discriminate))).
    vm_compute. lia.
Defined.

Lemma post_todos_route_witness :
  (exists w', TodoApi.post_todos 2
                (TodoMain.mkTodoCreate (lit "Buy milk") None 3 None None)
                redis_up_world = (201, w')
   /\ Crud.db w' = [sample_row;
                    Crud.mkTodo 2 (Some (lit "Buy milk")) None Crud.TODO (Some 3)
                      None None None 5 5])
  /\ TodoApi.post_todos 2 (TodoMain.mkTodoCreate amp_title None 3 None None)
       redis_up_world = (500, redis_up_world).
Proof.
  split.
  - apply (proj1 (post_todos_route 2
                    (TodoMain.mkTodoCreate (lit "Buy milk") None 3 None None)
                    redis_up_world (lit "Buy milk") eq_refl eq_refl
                    ltac:(discriminate) eq_refl)).
    vm_compute. lia.
  - apply (proj2 (post_todos_route 2
                    (TodoMain.mkTodoCreate amp_title None 3 None None)
                    redis_up_world (List.concat (repeat (lit "&amp;") 60)) eq_refl
                    ltac:(vm_compute; reflexivity) ltac:(discriminate) eq_refl)).
    vm_compute. lia.
Defined.

Lemma list_route_page_witness :
  snd (TodoApi.get_todos 1 1 None None None (lit "created_at") (lit "desc")
         two_rows_world) = two_rows_world
  /\ 2%nat = List.length (List.filter (row_matches None None None) [row_a; row_b])
  /\ List.length [row_b] = Nat.min 1 (2 - (1 - 1) * 1)
  /\ (forall r, In r [row_b] ->
       In r [row_a; row_b] /\ row_matches None None None r = true).
Proof.
  split; [exact (proj1 (list_route_page 1 1 None None None (lit "created_at")
                          (lit "desc") two_rows_world)) |].
  exact (proj2 (list_route_page 1 1 None None None (lit "created_at")
                  (lit "desc") two_rows_world) 2%nat [row_b]
           ltac:(vm_compute; reflexivity)).
Defined.


Lemma stats_counts_partition_witness :
  let st := TodoApi.get_todo_stats (fun _ _ => PInt 50) [] in
  (TodoApi.stats_todo st + TodoApi.stats_doing st + TodoApi.stats_done st)%nat
  = TodoApi.stats_total st
  /\ TodoApi.completion_rate st = PInt 0.
Proof.
  split; [apply (proj1 (stats_counts_partition (fun _ _ => PInt 50) [])) |
          apply (proj2 (stats_counts_partition (fun _ _ => PInt 50) []));
          reflexivity].
Defined.

Lemma backoff_behaviour_witness :
  Agents.with_exponential_backoff 0 third_try = None
  /\ Agents.with_exponential_backoff 3 third_try = Some (Ok 7)
  /\ Agents.with_exponential_backoff 2 third_try
     = Some (Raise (OtherError "TimeoutError")).
Proof.
  split; [apply (proj1 (backoff_behaviour 0 third_try)); reflexivity |].
  split.
  - apply (proj1 (proj2 (backoff_behaviour 3 third_try)) 2%nat 7);
      [lia | reflexivity |].
    intros j Hj. destruct j as [| [| j]]; [eexists; reflexivity
                                          | eexists; reflexivity | lia].
  - apply (proj2 (proj2 (backoff_behaviour 2 third_try))); [lia |].
    intros j Hj. destruct j as [| [| j]]; [eexists; reflexivity
                                          | eexists; reflexivity | lia].
Defined.

Lemma parse_route_todo_in_range_witness :
  truthy (PDict (ai_fallback_todo (lit "a&amp;amp;b"))) = false
  \/ exists d, PDict (ai_fallback_todo (lit "a&amp;amp;b")) = PDict d
               /\ fields_in_range d.
Proof.
  apply (parse_route_todo_in_range fail_llm (lit "a&b") _ []).
  vm_compute. reflexivity.
Defined.

Lemma parse_route_all_llm_failures_witness :
  AiFlow.parse_natural_language fail_llm (lit "a&b")
  = (200, Some (PDict (ai_fallback_todo (lit "a&amp;amp;b")), [])).
Proof.
  exact (parse_route_all_llm_failures fail_llm (lit "a&b") (lit "a&amp;b")
           eq_refl eq_refl eq_refl eq_refl ltac:(vm_compute; lia)
           ltac:(vm_compute; reflexivity) ltac:(discriminate)).
Defined.

Lemma rate_limit_sliding_window_witness :
  fst (RateLimit.rate_limit_middleware 2 (snd (RateLimit.run_requests 2 [] window_reqs))
         (lit "/todos") (lit "10.0.0.1") 3%Q)
  = RateLimit.MwRaise (HTTPException 429 (lit "Too many requests"))
  /\ fst (RateLimit.rate_limit_middleware 2
            (snd (RateLimit.run_requests 2 [] window_reqs))
            (lit "/todos") (lit "10.0.0.1") (121 # 2))
     = RateLimit.CallNext.
Proof.
  split.
  - pose proof (rate_limit_sliding_window 2 window_reqs (lit "/todos")
                  (lit "10.0.0.1") 3%Q ltac:(vm_compute; reflexivity)
                  ltac:(vm_compute; reflexivity)) as H.
    vm_compute in H |- *. exact H.
  - pose proof (rate_limit_sliding_window 2 window_reqs (lit "/todos")
                  (lit "10.0.0.1") (121 # 2) ltac:(vm_compute; reflexivity)
                  ltac:(vm_compute; reflexivity)) as H.
    vm_compute in H |- *. exact H.
Defined.

Lemma recommend_priority_route_witness :
  AiFlow.recommend_priority fail_llm gym = (200, Some (priority_fallback PNone)).
Proof.
  exact (recommend_priority_route fail_llm gym (AiFlow.todo_data_dict gym)
           eq_refl ltac:(vm_compute; reflexivity)).
Defined.

Lemma categorize_estimate_route_witness :
  let t := AiFlow.mkTodoData (lit "<b>Gym</b>") None (Some (lit "Shopping")) None
             (Some 5000) in
  AiFlow.categorize_todo fail_llm t = (200, Some AiFlow.category_fallback)
  /\ AiFlow.estimate_time fail_llm t = (200, Some AiFlow.time_fallback).
Proof. apply categorize_estimate_route. reflexivity. Defined.

